(** * cxx-flow / proj-flow: layers, release flow and settings context

    A shallow embedding of
      - [proj_flow/log/release.py]      ([_bump_version], [add_release]),
      - [cxx_flow/flow/layer.py]        ([FileInfo], [LayerInfo],
                                         [gather_package_layers]),
      - [proj_flow/project/interact.py] ([_fixup_context]),
    followed by the properties of these functions.

    Text is [string] (a sequence of 8-bit characters; Python compares [str]
    by code point, and the byte order of UTF-8 agrees with it).  Python
    exceptions are the [Raise] case of [result]. *)

From Stdlib Require Import ZArith List Bool Ascii String Lia.
From Stdlib Require Import DecimalString Sorting.Sorted Sorting.Permutation.
From Stdlib Require DecimalPos.
Import ListNotations.

Open Scope list_scope.
Open Scope string_scope.

(** ** Python values and exceptions *)

Inductive exn : Type :=
| ValueError
| IndexError
| KeyError
| FileNotFoundError (path : string)
| UnboundLocalError (name : string)
| NoProjectError
| VersionNotAdvancing (version : string)
| SystemExit (message : string).

Inductive result (A : Type) : Type :=
| Ok (a : A)
| Raise (e : exn).

Arguments Ok {A} a.
Arguments Raise {A} e.

Definition rbind {A B} (r : result A) (k : A -> result B) : result B :=
  match r with
  | Ok a => k a
  | Raise e => Raise e
  end.

Fixpoint rmap {A B} (f : A -> result B) (l : list A) : result (list B) :=
  match l with
  | [] => Ok []
  | x :: xs =>
      rbind (f x) (fun y => rbind (rmap f xs) (fun ys => Ok (y :: ys)))
  end.

(** ** Strings, as Python's [str] methods use them *)

Module Str.

Definition nl : ascii := "010"%char.
Definition NL : string := String nl "".

(** [s.split(c)] for a one-character separator: the first piece and the
    pieces after it. *)
Fixpoint split_aux (c : ascii) (s : string) : string * list string :=
  match s with
  | "" => ("", [])
  | String a s' =>
      let (h, t) := split_aux c s' in
      if Ascii.eqb a c then ("", h :: t) else (String a h, t)
  end.

Definition split (c : ascii) (s : string) : list string :=
  let (h, t) := split_aux c s in h :: t.

(** [s.split(c, 1)]: at most one cut, at the first [c]. *)
Fixpoint split1 (c : ascii) (s : string) : list string :=
  match s with
  | "" => [""]
  | String a s' =>
      if Ascii.eqb a c then [""; s']
      else match split1 c s' with
           | h :: t => String a h :: t
           | [] => [String a ""]
           end
  end.

(** [sep.join(l)] *)
Fixpoint join (sep : string) (l : list string) : string :=
  match l with
  | [] => ""
  | [x] => x
  | x :: xs => x ++ sep ++ join sep xs
  end.

Fixpoint concat (l : list string) : string :=
  match l with
  | [] => ""
  | x :: xs => x ++ concat xs
  end.

(** [s.replace(a, b)] for a one-character [a]. *)
Fixpoint replace (a : ascii) (b : string) (s : string) : string :=
  match s with
  | "" => ""
  | String c s' =>
      if Ascii.eqb c a then b ++ replace a b s' else String c (replace a b s')
  end.

Fixpoint mem (c : ascii) (s : string) : bool :=
  match s with
  | "" => false
  | String a s' => Ascii.eqb a c || mem c s'
  end.

Fixpoint rev_acc (s acc : string) : string :=
  match s with
  | "" => acc
  | String a s' => rev_acc s' (String a acc)
  end.

Definition rev (s : string) : string := rev_acc s "".

Fixpoint startswith (p s : string) : bool :=
  match p, s with
  | "", _ => true
  | String a p', String b s' => Ascii.eqb a b && startswith p' s'
  | String _ _, "" => false
  end.

Fixpoint drop (n : nat) (s : string) : string :=
  match n, s with
  | O, _ => s
  | S n', String _ s' => drop n' s'
  | S _, "" => ""
  end.

Fixpoint take (n : nat) (s : string) : string :=
  match n, s with
  | O, _ => ""
  | S n', String a s' => String a (take n' s')
  | S _, "" => ""
  end.

(** [s.rfind(c)] for a one-character [c]: the last index, or [-1]. *)
Fixpoint rfind_from (c : ascii) (s : string) (i : Z) (last : Z) : Z :=
  match s with
  | "" => last
  | String a s' =>
      rfind_from c s' (i + 1)%Z (if Ascii.eqb a c then i else last)
  end.

Definition rfind (c : ascii) (s : string) : Z := rfind_from c s 0%Z (-1)%Z.

(** Truthiness of a [str]. *)
Definition truthy (s : string) : bool := negb (String.eqb s "").

End Str.

(** ** Python [int(s)] and [str(n)] for base ten *)

Module PyInt.

Definition is_space (a : ascii) : bool :=
  existsb (Ascii.eqb a)
    [" "%char; "009"%char; "010"%char; "011"%char; "012"%char; "013"%char].

Definition digit (a : ascii) : option Z :=
  let n := Z.of_nat (nat_of_ascii a) in
  if ((48 <=? n) && (n <=? 57))%Z then Some (n - 48)%Z else None.

Fixpoint lstrip (s : string) : string :=
  match s with
  | String a s' => if is_space a then lstrip s' else s
  | "" => ""
  end.

Definition strip (s : string) : string :=
  Str.rev (lstrip (Str.rev (lstrip s))).

(** Digits with single underscores between them; [acc] is the value so
    far, [prev_digit] tells whether the previous character was a digit. *)
Fixpoint digits (s : string) (acc : Z) (prev_digit : bool) : option Z :=
  match s with
  | "" => if prev_digit then Some acc else None
  | String a s' =>
      match digit a with
      | Some d => digits s' (10 * acc + d)%Z true
      | None =>
          if Ascii.eqb a "_" && prev_digit
          then digits s' acc false
          else None
      end
  end.

(** [int(s)] for text of ASCII characters: [ValueError] unless [s] is,
    between optional white space, an optional sign and a decimal literal.
    In text of other characters Python also reads the decimal digits and
    the white space of other scripts; there the model raises
    [ValueError]. *)
Definition int (s : string) : result Z :=
  let body (t : string) (sign : Z) :=
    match digits t 0%Z false with
    | Some n => Ok (sign * n)%Z
    | None => Raise ValueError
    end in
  match strip s with
  | String "+" t => body t 1%Z
  | String "-" t => body t (-1)%Z
  | t => body t 1%Z
  end.

(** [str(n)] *)
Definition str (n : Z) : string := NilZero.string_of_int (Z.to_int n).

End PyInt.

(** ** Python lists indexed by integers *)

Module PyList.

(** The position an index denotes in a list of length [n]: negative
    indices count from the end. *)
Definition position (n : nat) (i : Z) : result nat :=
  let len := Z.of_nat n in
  if ((0 <=? i) && (i <? len))%Z then Ok (Z.to_nat i)
  else if ((- len <=? i) && (i <? 0))%Z then Ok (Z.to_nat (i + len))
  else Raise IndexError.

Fixpoint set_nth {A} (k : nat) (v : A) (l : list A) : list A :=
  match l, k with
  | [], _ => []
  | _ :: xs, O => v :: xs
  | x :: xs, S k' => x :: set_nth k' v xs
  end.

(** [l[i]] *)
Definition get (l : list Z) (i : Z) : result Z :=
  rbind (position (List.length l) i) (fun k => Ok (nth k l 0%Z)).

(** [l[i] = v] *)
Definition set (l : list Z) (i : Z) (v : Z) : result (list Z) :=
  rbind (position (List.length l) i) (fun k => Ok (set_nth k v l)).

(** [range(a, b)] *)
Definition range (a b : Z) : list Z :=
  map (fun k => (a + Z.of_nat k)%Z) (seq 0 (Z.to_nat (b - a))).

End PyList.

(** ** proj_flow/log/release.py *)

(** Modelled from the spec: the enumeration [commit.Level]
    ([proj_flow/log/commit.py] is not among the sources).  The spec calls it
    an ordered enumeration used only as an integer rank; [_bump_version] reads
    the rank [.value] of its argument and of the members [BENIGN] and
    [BREAKING], and that is what the interface holds. *)
Class LevelEnum : Type := {
  Level : Type;
  value : Level -> Z;
  BENIGN : Level;
  BREAKING : Level
}.

Module Release.

Section WithLevels.

Context {levels : LevelEnum}.

(** [_bump_version(ver, level)] *)
Definition _bump_version (ver : string) (level : Level) : result string :=
  let split := Str.split1 "-" ver in
  let stability :=
    if Nat.eqb (List.length split) 2 then "-" ++ nth 1 split "" else "" in
  rbind (rmap PyInt.int (Str.split "." (nth 0 split ""))) (fun semver =>
  (* while len(semver) < 3: semver.append(0) *)
  let semver := (semver ++ repeat 0%Z (3 - List.length semver))%list in
  let semver := firstn 3 semver in
  rbind
    (if (value level >? value BENIGN)%Z then
       let lvl := (value BREAKING - value level)%Z in
       rbind (PyList.get semver lvl) (fun old =>
       rbind (PyList.set semver lvl (old + 1)%Z) (fun semver =>
       fold_left
         (fun acc index => rbind acc (fun l => PyList.set l index 0%Z))
         (PyList.range (lvl + 1) (Z.of_nat (List.length semver)))
         (Ok semver)))
     else Ok semver)
    (fun semver =>
       Ok (Str.join "." (map PyInt.str semver) ++ stability))).

(** *** The collaborators of [add_release]

    Each collaborator is what it answers; each call made on one is an
    [event] of the run, in program order. *)

Variable ChangeLog : Type.

(** [commit.LogSetup], without its hosting handle. *)
Record LogSetup : Type := {
  prev_tag : option string;
  curr_tag : option string;
  take_all : bool
}.

Record Runtime : Type := { dry_run : bool }.

Record Project : Type := { version : string }.

Record ProjectSuite : Type := {
  get_version_file_path : option string
}.

Record ChangelogGenerator : Type := { filename : string }.

Record Git : Type := {
  tag_list : list string;
  get_log : LogSetup -> ChangeLog * Level
}.

Record Hosting : Type := {
  is_active : bool;
  (* hosting.add_release(changelog, setup, git, draft).draft_url *)
  draft_url : ChangeLog -> LogSetup -> bool -> option string
}.

(** [OneOrMoreStrings = Union[str, Iterable[str]]] *)
Inductive OneOrMoreStrings : Type :=
| One (s : string)
| Many (l : list string).

Record VersionUpdater : Type := {
  on_version_change : string -> OneOrMoreStrings
}.

Inductive event : Type :=
| git_tag_list
| git_get_log (setup : LogSetup)
| generator_update_changelog (changelog : ChangeLog) (setup : LogSetup)
| suite_set_version (next_version : string)
| suite_get_version_file_path
| updater_on_version_change (index : nat) (new_version : string)
| git_add_files (files : list string)
| git_commit (message : string)
| git_annotated_tag (name message : string)
| hosting_add_release (changelog : ChangeLog) (setup : LogSetup)
    (draft : bool)
| rt_message (words : list string)
| rt_fatal (message : string).

(** A run: the calls made so far and how it went on. *)
Definition run (A : Type) : Type := list event * result A.

Definition ret {A} (a : A) : run A := ([], Ok a).

Definition bind {A B} (m : run A) (k : A -> run B) : run B :=
  match m with
  | (t, Ok a) => let (t', r) := k a in ((t ++ t')%list, r)
  | (t, Raise e) => (t, Raise e)
  end.

Definition call {A} (e : event) (answer : A) : run A := ([e], Ok answer).

Definition raise {A} (e : exn) : run A := ([], Raise e).

Definition lift {A} (r : result A) : run A := ([], r).

(** Modelled from the spec: [Runtime.fatal] ([proj_flow/api/env.py] is not
    among the sources) reports through the fatal-message channel and the
    process terminates with a non-zero exit. *)
Definition fatal {A} (message : string) : run A :=
  ([rt_fatal message], Raise (SystemExit message)).

Fixpoint for_each {A} (f : nat -> A -> run (list string)) (index : nat)
    (l : list A) : run (list string) :=
  match l with
  | [] => ret []
  | x :: xs =>
      bind (f index x) (fun a =>
      bind (for_each f (S index) xs) (fun b => ret (a ++ b)%list))
  end.

Variable format_commit_message : ChangeLog -> string.
Variable version_updaters : list VersionUpdater.
(* api.release.project_suites.find(_get_project(rt)) *)
Variable project_suites_find : Runtime -> option ProjectSuite * option Project.

Definition option_truthy (o : option string) : bool :=
  match o with
  | Some s => Str.truthy s
  | None => false
  end.

(** [add_release(rt, forced_level, take_all, draft, generator, git,
    hosting)].  The members of [commit.Level] are truthy, so
    [forced_level or log_level] is [forced_level] unless that is
    [None]. *)
Definition add_release (rt : Runtime) (forced_level : option Level)
    (take_all : bool) (draft : bool) (generator : ChangelogGenerator)
    (git : Git) (hosting : Hosting) : run unit :=
  match project_suites_find rt with
  | (Some suite, Some project) =>
      bind (call git_tag_list (tag_list git)) (fun tags =>
      let prev_tag := last (map Some tags) None in
      let setup := {| prev_tag := prev_tag; curr_tag := None;
                      take_all := take_all |} in
      bind (call (git_get_log setup) (get_log git setup)) (fun log =>
      let (changelog, log_level) := log in
      let project_version := version project in
      bind (lift (_bump_version project_version
                    (match forced_level with
                     | Some l => l
                     | None => log_level
                     end))) (fun next_version =>
      let setup := {| prev_tag := prev_tag;
                      curr_tag := Some ("v" ++ next_version);
                      take_all := take_all |} in
      bind (if String.eqb next_version project_version
            then raise (VersionNotAdvancing next_version)
            else ret tt) (fun _ =>
      bind (if existsb (String.eqb ("v" ++ next_version)) tags
            then fatal ("Tag v" ++ next_version ++ " already exists.")
            else ret tt) (fun _ =>
      bind
        (if negb (dry_run rt) then
           bind (call (generator_update_changelog changelog setup) tt)
             (fun _ =>
           bind (call (suite_set_version next_version) tt) (fun _ =>
           bind (call suite_get_version_file_path
                   (get_version_file_path suite)) (fun version_path =>
           bind (for_each
                   (fun index updater =>
                      bind (call (updater_on_version_change index
                                    next_version)
                              (on_version_change updater next_version))
                        (fun modified =>
                           match modified with
                           | One s => ret [s]
                           | Many l => ret l
                           end))
                   0 version_updaters) (fun modified =>
           ret ([filename generator]
                ++ (if option_truthy version_path
                    then match version_path with
                         | Some p => [p]
                         | None => []
                         end
                    else [])
                ++ modified)%list))))
         else
           bind (call suite_get_version_file_path
                   (get_version_file_path suite)) (fun version_path =>
           ret ([filename generator]
                ++ (if option_truthy version_path
                    then match version_path with
                         | Some p => [p]
                         | None => []
                         end
                    else []))%list))
        (fun files_to_commit =>
      let commit_message := "release " ++ next_version in
      bind (call (git_add_files files_to_commit) tt) (fun _ =>
      bind (call (git_commit
                    ("chore: " ++ commit_message
                     ++ format_commit_message changelog)) tt) (fun _ =>
      bind (call (git_annotated_tag ("v" ++ next_version) commit_message)
              tt) (fun _ =>
      if is_active hosting then
        bind (call (hosting_add_release changelog setup draft)
                (draft_url hosting changelog setup draft)) (fun url =>
        if option_truthy url then
          call (rt_message ["-- Visit draft at";
                            match url with Some u => u | None => "" end])
            tt
        else ret tt)
      else ret tt)))))))))
  | _ => raise NoProjectError
  end.

End WithLevels.

Arguments git_tag_list {ChangeLog}.
Arguments git_get_log {ChangeLog} setup.
Arguments generator_update_changelog {ChangeLog} changelog setup.
Arguments suite_set_version {ChangeLog} next_version.
Arguments suite_get_version_file_path {ChangeLog}.
Arguments updater_on_version_change {ChangeLog} index new_version.
Arguments git_add_files {ChangeLog} files.
Arguments git_commit {ChangeLog} message.
Arguments git_annotated_tag {ChangeLog} name message.
Arguments hosting_add_release {ChangeLog} changelog setup draft.
Arguments rt_message {ChangeLog} words.
Arguments rt_fatal {ChangeLog} message.
Arguments is_active {ChangeLog} h.
Arguments draft_url {ChangeLog} h changelog setup draft.
Arguments tag_list {levels ChangeLog} g.
Arguments get_log {levels ChangeLog} g setup.

End Release.

(** ** Settings values and contexts *)

(** [ctx.Values = Union[str, bool, List[str]]] *)
Inductive Value : Type :=
| VStr (s : string)
| VBool (b : bool)
| VList (l : list string).

(** A Python [dict] with [str] keys keeps its keys in insertion order: an
    association list without repeated keys. *)
Module PyDict.

Section Ops.

Context {V : Type}.

Definition t : Type := list (string * V).

(** [d.get(k)] *)
Fixpoint get (k : string) (d : t) : option V :=
  match d with
  | [] => None
  | (k', v) :: rest => if String.eqb k' k then Some v else get k rest
  end.

(** [k in d] *)
Definition contains (k : string) (d : t) : bool :=
  match get k d with
  | Some _ => true
  | None => false
  end.

(** [d[k] = v]: an existing key keeps its place, a new one goes last. *)
Fixpoint set (k : string) (v : V) (d : t) : t :=
  match d with
  | [] => [(k, v)]
  | (k', v') :: rest =>
      if String.eqb k' k then (k, v) :: rest else (k', v') :: set k v rest
  end.

(** [del d[k]], where the [KeyError] is caught. *)
Fixpoint del (k : string) (d : t) : t :=
  match d with
  | [] => []
  | (k', v') :: rest =>
      if String.eqb k' k then rest else (k', v') :: del k rest
  end.

Definition keys (d : t) : list string := map fst d.

End Ops.

Arguments t V : clear implicits.

End PyDict.

(** A context as the templates see it: values, or dictionaries of them. *)
#[warnings="-register-all"]
Inductive Node : Type :=
| Leaf (v : Value)
| Dict (entries : list (string * Node)).

(** [ctx.SettingsType], flat (as the settings are resolved) and nested (as
    [get_context] returns them and as the templates are rendered). *)
Definition FlatSettings : Type := PyDict.t Value.
Definition SettingsType : Type := PyDict.t Node.

(** ** The template renderer

    [chevron.render] is the third-party mustache renderer, not code of this
    repository.  The model covers the templates this repository writes: text
    with [{{#key}}...{{/key}}] sections and [{{key}}] substitutions, where a
    section tag stands alone on its line and that line leaves no trace in
    the output.  A key is a dot-separated path.  It is looked up in the
    scopes, the innermost first: the context is the outermost scope, and a
    section pushes what its key names as the innermost scope of its body,
    which is shown when that value is truthy (a falsy, empty or false value
    hides the body).  A value that is no dictionary is taken to hold no key
    (Python also finds the attributes of such a value, and its items under
    a number), and a list is taken as one scope (chevron renders the body
    once for each of its items).  A substitution writes strings and
    booleans, HTML-escaped unless the key starts with [&], and leaves a
    dictionary empty. *)
Module Chevron.

Fixpoint walk (path : list string) (n : Node) : option Node :=
  match path with
  | [] => Some n
  | k :: rest =>
      match n with
      | Dict d =>
          match PyDict.get k d with
          | Some n' => walk rest n'
          | None => None
          end
      | Leaf _ => None
      end
  end.

(** The first scope, from the innermost, that holds the whole path. *)
Fixpoint find (path : list string) (scopes : list Node) : option Node :=
  match scopes with
  | [] => None
  | scope :: rest =>
      match walk path scope with
      | Some n => Some n
      | None => find path rest
      end
  end.

(** [_get_key(key, scopes)]: the key [.] names the innermost scope. *)
Definition lookup (key : string) (scopes : list Node) : option Node :=
  if String.eqb key "." then hd_error scopes
  else find (Str.split "." key) scopes.

Definition get_key (key : string) (context : SettingsType) : option Node :=
  lookup key [Dict context].

Definition truthy (n : option Node) : bool :=
  match n with
  | None => false
  | Some (Leaf (VStr s)) => Str.truthy s
  | Some (Leaf (VBool b)) => b
  | Some (Leaf (VList l)) => negb (Nat.eqb (List.length l) 0)
  | Some (Dict d) => negb (Nat.eqb (List.length d) 0)
  end.

(** Whether the body of [{{#key}}] is shown, for a tag met in [scopes]. *)
Definition shown_in (scopes : list Node) (key : string) : bool :=
  truthy (lookup (PyInt.strip key) scopes).

(** Whether the body of [{{#key}}] is shown, outside every section. *)
Definition shown (context : SettingsType) (key : string) : bool :=
  truthy (get_key (PyInt.strip key) context).

(** The scope [{{#key}}] pushes: what the key names, or the empty string
    when it names nothing. *)
Definition section_scope (scopes : list Node) (key : string) : Node :=
  match lookup (PyInt.strip key) scopes with
  | Some n => n
  | None => Leaf (VStr "")
  end.

(** [not current_scope and len(scopes) != 1]: the innermost section hides
    its body. *)
Definition hides (scopes : list Node) : bool :=
  match scopes with
  | current :: _ :: _ => negb (truthy (Some current))
  | _ => false
  end.

Definition html_escape (s : string) : string :=
  Str.replace ">" "&gt;"
    (Str.replace "<" "&lt;"
       (Str.replace "034" "&quot;" (Str.replace "&" "&amp;" s))).

(** The text a [{{key}}] substitution leaves. *)
Definition variable (scopes : list Node) (key : string) : string :=
  let text (k : string) :=
    match lookup (PyInt.strip k) scopes with
    | Some (Leaf (VStr s)) => s
    | Some (Leaf (VBool true)) => "True"
    | Some (Leaf (VBool false)) => "False"
    | Some (Leaf (VList l)) =>
        if Nat.eqb (List.length l) 0 then ""
        else "[" ++ Str.join ", " (map (fun s => "'" ++ s ++ "'") l) ++ "]"
    | Some (Dict _) => ""
    | None => ""
    end in
  match key with
  | String "&" k => text k
  | _ => html_escape (text key)
  end.

(** Substitutions inside one line of text; [tag] is [Some acc] while
    between [{{] and [}}], with the key read so far, reversed. *)
Fixpoint interpolate (scopes : list Node) (tag : option string)
    (s : string) : string :=
  match s with
  | "" => ""
  | String a s' =>
      match tag with
      | None =>
          match s' with
          | String b rest =>
              if Ascii.eqb a "{" && Ascii.eqb b "{"
              then interpolate scopes (Some "") rest
              else String a (interpolate scopes None s')
          | "" => String a ""
          end
      | Some acc =>
          match s' with
          | String b rest =>
              if Ascii.eqb a "}" && Ascii.eqb b "}"
              then variable scopes (Str.rev acc)
                   ++ interpolate scopes None rest
              else interpolate scopes (Some (String a acc)) s'
          | "" => ""
          end
      end
  end.

Inductive tag : Type :=
| Open (key : string)
| Close (key : string).

(** A line that is exactly [{{#key}}] or [{{/key}}]. *)
Definition tag_of_line (line : string) : option tag :=
  let body := Str.drop 3 line in
  let n := String.length body - 2 in
  if (3 + 2 <=? String.length line)%nat
     && String.eqb (Str.drop n body) "}}" then
    if Str.startswith "{{#" line then Some (Open (Str.take n body))
    else if Str.startswith "{{/" line then Some (Close (Str.take n body))
    else None
  else None.

(** The lines of a template, met in [scopes]: [{{#key}}] pushes a scope,
    [False] inside a hidden body, [{{/key}}] pops one, and text is written
    unless the innermost section hides it. *)
Fixpoint render_lines (scopes : list Node) (lines : list string) : string :=
  match lines with
  | [] => ""
  | line :: rest =>
      match tag_of_line line with
      | Some (Open key) =>
          render_lines
            ((if hides scopes then Leaf (VBool false)
              else section_scope scopes key) :: scopes)
            rest
      | Some (Close _) => render_lines (tl scopes) rest
      | None =>
          (if hides scopes then ""
           else interpolate scopes None line
                ++ match rest with [] => "" | _ => Str.NL end)
          ++ render_lines scopes rest
      end
  end.

Definition render (template : string) (context : SettingsType) : string :=
  render_lines [Dict context] (Str.split Str.nl template).

End Chevron.

(** ** [os.path] on a POSIX host ([os.sep] is [/]) *)

Module OsPath.

Definition sep : ascii := "/"%char.

Fixpoint endswith_char (c : ascii) (s : string) : bool :=
  match s with
  | "" => false
  | String a "" => Ascii.eqb a c
  | String _ s' => endswith_char c s'
  end.

(** [os.path.join(a, b)] *)
Definition join (a b : string) : string :=
  if Str.startswith "/" b then b
  else if String.eqb a "" || endswith_char sep a then a ++ b
  else a ++ "/" ++ b.

Fixpoint all_dots (s : string) : bool :=
  match s with
  | "" => true
  | String a s' => Ascii.eqb a "." && all_dots s'
  end.

(** [os.path.splitext(p)]: the extension starts at the last dot of the last
    component, unless only dots come before it in that component. *)
Definition splitext (p : string) : string * string :=
  let sepIndex := Str.rfind sep p in
  let dotIndex := Str.rfind "." p in
  if (dotIndex >? sepIndex)%Z then
    let filenameIndex := Z.to_nat (sepIndex + 1) in
    (* while filenameIndex < dotIndex: a character that is not a dot *)
    if all_dots (Str.take (Z.to_nat dotIndex - filenameIndex)
                   (Str.drop filenameIndex p))
    then (p, "")
    else (Str.take (Z.to_nat dotIndex) p, Str.drop (Z.to_nat dotIndex) p)
  else (p, "").

(** [os.path.basename(p)] *)
Definition basename (p : string) : string :=
  Str.drop (Z.to_nat (Str.rfind sep p + 1)) p.

Fixpoint all_seps (s : string) : bool :=
  match s with
  | "" => true
  | String a s' => Ascii.eqb a sep && all_seps s'
  end.

Fixpoint lstrip_sep (s : string) : string :=
  match s with
  | String a s' => if Ascii.eqb a sep then lstrip_sep s' else s
  | "" => ""
  end.

(** [os.path.dirname(p)] *)
Definition dirname (p : string) : string :=
  let head := Str.take (Z.to_nat (Str.rfind sep p + 1)) p in
  if Str.truthy head && negb (all_seps head)
  then Str.rev (lstrip_sep (Str.rev head))
  else head.

End OsPath.

(** ** cxx_flow/flow/layer.py *)

(** Python's [==] between the values the directory scan compares: a [str]
    and a tuple are never equal. *)
Inductive PyVal : Type :=
| PStr (s : string)
| PTuple (a b : string).

Definition py_eq (x y : PyVal) : bool :=
  match x, y with
  | PStr a, PStr b => String.eqb a b
  | PTuple a1 a2, PTuple b1 b2 => String.eqb a1 b1 && String.eqb a2 b2
  | _, _ => false
  end.

(** [x in l] *)
Definition py_in (x : PyVal) (l : list PyVal) : bool := existsb (py_eq x) l.

(** [cxx_flow.flow.config.Runtime], the flags the layers read. *)
Module Config.
Record Runtime : Type := {
  silent : bool;
  use_color : bool;
  dry_run : bool
}.
End Config.

(** The layer descriptor [<layer_dir>.json], parsed. *)
Record FileEntry : Type := {
  entry_path : option string;
  entry_when : option string
}.

Record LayerJson : Type := {
  json_when : option string;
  json_filelist : option (PyDict.t FileEntry)
}.

(** A directory as [os.walk] lists it: the names of its files and its
    sub-directories. *)
#[warnings="-register-all"]
Inductive dir : Type :=
| mkdir (files : list string) (dirs : list (string * dir)).

(** The file system and the process, as far as the layers look at them. *)
Record FileSystem : Type := {
  (* json.load(open(path)) *)
  read_json : string -> result LayerJson;
  (* the tree below a path, [None] when it is no directory *)
  tree_at : string -> option dir;
  (* open(path, "rb").read().decode("UTF-8") *)
  read_text : string -> string;
  (* os.path.abspath(path) *)
  abspath : string -> string
}.

(** What [run] does to the outside, in program order. *)
Inductive io : Type :=
| print (line : string)
| makedirs (dirname : string)
| write (dst content : string)
| copymode (src dst : string)
| copystat (src dst : string)
| copy2 (src dst : string).

Definition ESC : string := String "027"%char "".

Module FileInfo.

Record t : Type := {
  src : string;
  dst : string;
  is_mustache : bool;
  when : option string
}.

(** [FileInfo.from_json(src, filelist, context)] *)
Definition from_json (src : string) (filelist : PyDict.t FileEntry)
    (context : SettingsType) : t :=
  let (basename, ext) := OsPath.splitext src in
  let is_mustache := String.eqb ext ".mustache" in
  let key := Str.replace OsPath.sep "/" src in
  let json_file :=
    match PyDict.get key filelist with
    | Some e => e
    | None => {| entry_path := None; entry_when := None |}
    end in
  let path := entry_path json_file in
  let when := entry_when json_file in
  let dst :=
    match path with
    | Some path =>
        Str.replace "/" (String OsPath.sep "") (Chevron.render path context)
    | None => if is_mustache then basename else src
    end in
  {| src := src; dst := dst; is_mustache := is_mustache; when := when |}.

(** [FileInfo.template(self)] *)
Definition template (self : t) : string :=
  let open_mstch := "{{" in
  let close_mstch := "}}" in
  match when self with
  | Some w =>
      if Str.truthy w then
        open_mstch ++ "#" ++ w ++ close_mstch ++ Str.NL
        ++ dst self ++ Str.NL
        ++ open_mstch ++ "/" ++ w ++ close_mstch ++ Str.NL
      else dst self ++ Str.NL
  | None => dst self ++ Str.NL
  end.

(** [FileInfo.run(self, root, rt, context)] *)
Definition run (fs : FileSystem) (self : t) (root : string)
    (rt : Config.Runtime) (context : SettingsType) : list io :=
  ((if negb (Config.silent rt) then
      if Config.use_color rt
      then [print (ESC ++ "[2;30m+" ++ ESC ++ "[m " ++ dst self)]
      else [print ("+ " ++ dst self)]
    else [])
   ++
   (if Config.dry_run rt then []
    else
      let src := OsPath.join root (src self) in
      let dst := abspath fs (dst self) in
      let dirname := OsPath.dirname dst in
      makedirs dirname ::
      (if is_mustache self then
         let content := read_text fs src in
         let content := Chevron.render content context in
         [write dst content; copymode src dst; copystat src dst]
       else [copy2 src dst])))%list.

End FileInfo.

Module LayerInfo.

Record t : Type := {
  root : string;
  files : list FileInfo.t;
  when : option string
}.

(** [LayerInfo.template(self)] *)
Definition template (self : t) : string :=
  let open_mstch := "{{" in
  let close_mstch := "}}" in
  let cond := match when self with Some w => Str.truthy w | None => false end in
  let w := match when self with Some w => w | None => "" end in
  (if cond then open_mstch ++ "#" ++ w ++ close_mstch ++ Str.NL else "")
  ++ Str.concat (map FileInfo.template (files self))
  ++ (if cond then open_mstch ++ "/" ++ w ++ close_mstch ++ Str.NL else "").

(** [files.sort(key=lambda info: info.dst)]: the sort is stable. *)
Fixpoint insert (x : FileInfo.t) (l : list FileInfo.t) : list FileInfo.t :=
  match l with
  | [] => [x]
  | y :: ys =>
      if String.leb (FileInfo.dst x) (FileInfo.dst y) then x :: y :: ys
      else y :: insert x ys
  end.

Fixpoint sort (l : list FileInfo.t) : list FileInfo.t :=
  match l with
  | [] => []
  | x :: xs => insert x (sort xs)
  end.

(** The loop over [os.walk(layer_dir)] in [from_fs]: the sources below
    [curr_dir], in the order the walk meets them. *)
Fixpoint walk (prefix curr_dir : string) (d : dir) : list string :=
  match d with
  | mkdir files dirs =>
      let files :=
        filter
          (fun filename =>
             negb (py_in
                     (let (b, e) := OsPath.splitext filename in PTuple b e)
                     [PStr ".pyc"; PStr ".pyo"; PStr ".pyd"]))
          files in
      (map
         (fun filename =>
            let src := OsPath.join curr_dir filename in
            if Str.startswith prefix src
            then Str.drop (String.length prefix) src
            else src)
         files
       ++
       (fix walk_dirs (ds : list (string * dir)) : list string :=
          match ds with
          | [] => []
          | (dirname, sub) :: rest =>
              ((if negb (py_in (PStr dirname) [PStr "__pycache__"])
                then walk prefix (OsPath.join curr_dir dirname) sub
                else [])
               ++ walk_dirs rest)%list
          end) dirs)%list
  end.

(** [LayerInfo.from_fs(layer_dir, context)] *)
Definition from_fs (fs : FileSystem) (layer_dir : string)
    (context : SettingsType) : result t :=
  rbind (read_json fs (layer_dir ++ ".json")) (fun layer_info =>
  let when := json_when layer_info in
  let filelist :=
    match json_filelist layer_info with
    | Some l => l
    | None => []
    end in
  let prefix := OsPath.join layer_dir "" in
  let sources :=
    match tree_at fs layer_dir with
    | Some d => walk prefix layer_dir d
    | None => []
    end in
  let files :=
    map (fun src => FileInfo.from_json src filelist context) sources in
  let files := sort files in
  let result := {| root := layer_dir; files := files; when := when |} in
  let allowed_files :=
    filter (fun path => negb (String.eqb path ""))
      (Str.split Str.nl (Chevron.render (template result) context)) in
  Ok {| root := layer_dir;
        files :=
          filter
            (fun file =>
               existsb (String.eqb (FileInfo.dst file)) allowed_files)
            files;
        when := when |}).

(** [LayerInfo.name] and [LayerInfo.pkg] *)
Definition name (self : t) : string := OsPath.basename (root self).

Definition pkg (self : t) : string :=
  OsPath.basename
    (OsPath.dirname
       (OsPath.dirname (OsPath.dirname (OsPath.dirname (root self))))).

(** [LayerInfo.run(self, rt, context)] *)
Definition run (fs : FileSystem) (self : t) (rt : Config.Runtime)
    (context : SettingsType) : list io :=
  ((if negb (Config.silent rt) then
      if Config.use_color rt
      then [print (ESC ++ "[2;30m[" ++ pkg self ++ ":" ++ name self ++ "]"
                   ++ ESC ++ "[m")]
      else [print ("[" ++ pkg self ++ ":" ++ name self ++ "]")]
    else [])
   ++ flat_map (fun file => FileInfo.run fs file (root self) rt context)
        (files self)
   ++ (if negb (Config.silent rt) then [print ""] else []))%list.

End LayerInfo.

Section Gather.

(** [ctx.template_dir]; [cxx_flow/flow/ctx.py] is not among the sources. *)
Variable template_dir : string.

(** [gather_package_layers(package_root, context)].  The loop over
    [os.walk(layers_dir)] empties [dirs], so its body runs once, for
    [layers_dir] itself, or not at all when that is no directory. *)
Definition gather_package_layers (fs : FileSystem) (package_root : string)
    (context : SettingsType) : result (list LayerInfo.t) :=
  let layers_dir :=
    abspath fs
      (OsPath.join (OsPath.join package_root template_dir) "layers") in
  match tree_at fs layers_dir with
  | Some (mkdir files dirs) =>
      let layer_dirs :=
        map (fun dirname => abspath fs (OsPath.join layers_dir dirname))
          (filter
             (fun dirname =>
                existsb (String.eqb (dirname ++ ".json")) files)
             (map fst dirs)) in
      rbind (rmap (fun layer_dir => LayerInfo.from_fs fs layer_dir context)
               layer_dirs) (fun layers =>
      Ok (filter
            (fun layer =>
               (0 <? List.length (LayerInfo.files layer))%nat)
            layers))
  | None => Raise (UnboundLocalError "layer_dirs")
  end.

End Gather.

(** ** proj_flow/project/interact.py *)

Module Interact.

(** [ctx.Setting], as [interact.py] reads it. *)
Record Setting : Type := {
  json_key : string;
  project : option string;
  calc_value : FlatSettings -> Value;
  fix_ : option string;  (* [fix], a keyword here *)
  force_fix : bool
}.

(** [_project_filter(project)] *)
Definition _project_filter (project_ : option string) (setting : Setting)
    : bool :=
  match project_ with
  | None =>
      match project setting with None => true | Some _ => false end
  | Some p =>
      match project setting with
      | None => true
      | Some q => String.eqb q p
      end
  end.

(** [_get_default(setting, settings)] *)
Definition _get_default (setting : Setting) (settings : FlatSettings)
    : result Value :=
  match calc_value setting settings with
  | VList [] => Raise IndexError
  | VList (first :: _) => Ok (VStr first)
  | value => Ok value
  end.

(** [value != ""] *)
Definition not_empty_str (value : Value) : bool :=
  match value with
  | VStr s => negb (String.eqb s "")
  | _ => true
  end.

(** One step of building the nested context: the body of the loop over the
    keys of [settings] at the end of [_fixup_context], for the key whose
    split is [path]. *)
Fixpoint nest (path : list string) (value : Value) (path_ctx : SettingsType)
    : SettingsType :=
  match path with
  | [] => path_ctx
  | [last] => PyDict.set last (Leaf value) path_ctx
  | step :: rest =>
      let inner :=
        match PyDict.get step path_ctx with
        | Some (Dict d) => d
        | _ => []
        end in
      PyDict.set step (Dict (nest rest value inner)) path_ctx
  end.

(** The loop itself. *)
Definition nest_all (settings : FlatSettings) : SettingsType :=
  fold_left
    (fun result kv => nest (Str.split "." (fst kv)) (snd kv) result)
    settings [].

Section WithTables.

(** [ctx.defaults], [ctx.switches], [ctx.hidden] and [ctx._build_fixup];
    [proj_flow/api/ctx.py] is not among the sources. *)
Variables defaults switches hidden : list Setting.
Variable _build_fixup : FlatSettings -> string -> Value.

(** The interactive [_prompt(wanted, overrides)], with the answers of the
    terminal. *)
Variable _prompt : (Setting -> bool) -> FlatSettings -> FlatSettings.

(** [_all_default(wanted, overrides)] *)
Definition _all_default (wanted : Setting -> bool)
    (overrides : FlatSettings) : result FlatSettings :=
  fold_left
    (fun acc setting =>
       rbind acc (fun settings =>
       match PyDict.get (json_key setting) overrides with
       | Some v => Ok (PyDict.set (json_key setting) v settings)
       | None =>
           rbind (_get_default setting settings) (fun value =>
           Ok (PyDict.set (json_key setting) value settings))
       end))
    (filter wanted defaults ++ filter wanted switches)%list
    (Ok []).

(** [_fixup(settings, key, fixup, force)] *)
Definition _fixup (settings : FlatSettings) (key fixup : string)
    (force : bool) : FlatSettings :=
  let value :=
    match PyDict.get key settings with
    | Some v => v
    | None => VStr ""
    end in
  if not_empty_str value && negb force then settings
  else PyDict.set key (_build_fixup settings fixup) settings.

(** The part of [_fixup_context] that works on the flat settings: the
    hidden values, the fix-ups, and the removal of ["EXT"]. *)
Definition fixed_settings (settings : FlatSettings)
    (wanted : Setting -> bool) : result FlatSettings :=
  let defaults := filter wanted defaults in
  let hidden := filter wanted hidden in
  rbind
    (fold_left
       (fun acc setting =>
          rbind acc (fun settings =>
          rbind (_get_default setting settings) (fun value =>
          if match value with VBool _ => true | _ => false end
             || not_empty_str value
          then Ok (PyDict.set (json_key setting) value settings)
          else Ok settings)))
       hidden (Ok settings)) (fun settings =>
  let settings :=
    fold_left
      (fun settings setting =>
         _fixup settings (json_key setting)
           (match fix_ setting with
            | Some f => if Str.truthy f then f else ""
            | None => ""
            end)
           (force_fix setting))
      (defaults ++ hidden)%list settings in
  Ok (PyDict.del "EXT" settings)).

(** [_fixup_context(settings, wanted)] *)
Definition _fixup_context (settings : FlatSettings)
    (wanted : Setting -> bool) : result SettingsType :=
  rbind (fixed_settings settings wanted) (fun settings =>
  Ok (nest_all settings)).

(** [get_context(interactive, project, rt)], with
    [overrides = rt._cfg.get("defaults", {})]. *)
Definition get_context (interactive : bool) (project_ : option string)
    (overrides : FlatSettings) : result SettingsType :=
  let wanted := _project_filter project_ in
  rbind
    (if negb interactive then _all_default wanted overrides
     else Ok (_prompt wanted overrides))
    (fun settings => _fixup_context settings wanted).

End WithTables.

End Interact.

(** ** Vocabulary of the properties *)

(** An instance of the ranks, for running the release flow on examples:
    five levels [0] to [4], [BREAKING] the highest (the comment in
    [_bump_version] subtracts from [4]). *)
Definition five_ranks : LevelEnum :=
  {| Level := Z; value := fun l => l; BENIGN := 0%Z; BREAKING := 4%Z |}.

(** A version: its dotted core and the suffix it carries after its first
    [-], if any. *)
Definition with_stability (core : string) (suffix : option string)
    : string :=
  match suffix with
  | Some s => core ++ "-" ++ s
  | None => core
  end.

(** The spec's words: exactly three components, zero-padded or truncated. *)
Definition three (ns : list Z) : list Z :=
  match ns with
  | [] => [0; 0; 0]
  | [a] => [a; 0; 0]
  | [a; b] => [a; b; 0]
  | a :: b :: c :: _ => [a; b; c]
  end%Z.

(** The spec's words: the component at [idx] incremented, every one to its
    right zeroed, those to its left kept. *)
Definition bumped (idx : nat) (semver : list Z) : list Z :=
  map (fun i =>
         if (i <? idx)%nat then nth i semver 0%Z
         else if (i =? idx)%nat then (nth i semver 0 + 1)%Z
         else 0%Z)
    [0; 1; 2]%nat.

Definition dotted (semver : list Z) : string :=
  Str.join "." (map PyInt.str semver).

(** The release flow split at its validations: the log setup sent to
    [git.get_log], the level that decides the bump, the setup once the tag
    is known, and the calls each branch of the dry-run test adds. *)
Section ReleaseVocabulary.

Context {levels : LevelEnum} {ChangeLog : Type}.

Definition initial_setup (tags : list string) (take_all : bool)
    : Release.LogSetup :=
  {| Release.prev_tag := last (map Some tags) None;
     Release.curr_tag := None;
     Release.take_all := take_all |}.

Definition tagged_setup (tags : list string) (take_all : bool)
    (next_version : string) : Release.LogSetup :=
  {| Release.prev_tag := last (map Some tags) None;
     Release.curr_tag := Some ("v" ++ next_version);
     Release.take_all := take_all |}.

Definition effective_level (forced_level : option Level)
    (log_level : Level) : Level :=
  match forced_level with
  | Some l => l
  | None => log_level
  end.

(** The version-file path as a list: one path, or none. *)
Definition version_file (suite : Release.ProjectSuite) : list string :=
  match Release.get_version_file_path suite with
  | Some p => if Str.truthy p then [p] else []
  | None => []
  end.

Fixpoint updater_calls (index : nat) (next_version : string)
    (updaters : list Release.VersionUpdater)
    : list (Release.event ChangeLog) :=
  match updaters with
  | [] => []
  | _ :: rest =>
      Release.updater_on_version_change index next_version
      :: updater_calls (S index) next_version rest
  end.

Fixpoint updater_files (next_version : string)
    (updaters : list Release.VersionUpdater) : list string :=
  match updaters with
  | [] => []
  | u :: rest =>
      (match Release.on_version_change u next_version with
       | Release.One s => [s]
       | Release.Many l => l
       end ++ updater_files next_version rest)%list
  end.

(** The calls after the tag: the hosting release, when hosting is active,
    and the message about its draft. *)
Definition hosting_calls (hosting : Release.Hosting ChangeLog)
    (changelog : ChangeLog) (setup : Release.LogSetup) (draft : bool)
    : list (Release.event ChangeLog) :=
  if Release.is_active hosting then
    Release.hosting_add_release changelog setup draft
    :: match Release.draft_url hosting changelog setup draft with
       | Some u =>
           if Str.truthy u
           then [Release.rt_message ["-- Visit draft at"; u]]
           else []
       | None => []
       end
  else [].

(** The calls that change the repository, the working tree or the hosting
    service. *)
Definition mutating (e : Release.event ChangeLog) : bool :=
  match e with
  | Release.generator_update_changelog _ _
  | Release.suite_set_version _
  | Release.updater_on_version_change _ _
  | Release.git_add_files _
  | Release.git_commit _
  | Release.git_annotated_tag _ _
  | Release.hosting_add_release _ _ _ => true
  | _ => false
  end.

Definition commit_or_tag (e : Release.event ChangeLog) : bool :=
  match e with
  | Release.git_commit _
  | Release.git_annotated_tag _ _ => true
  | _ => false
  end.

End ReleaseVocabulary.

(** A release run on examples: the changelog is its text, the commit
    message adds it after a blank line, one updater rewrites two files. *)
Module Example.

Definition format_commit_message (changelog : string) : string :=
  Str.NL ++ Str.NL ++ changelog.

Definition version_updaters : list Release.VersionUpdater :=
  [ {| Release.on_version_change :=
         fun _ => Release.Many ["package.json"; "docs/conf.py"] |} ].

Definition suite : Release.ProjectSuite :=
  {| Release.get_version_file_path := Some "CMakeLists.txt" |}.

Definition project_suites_find (version : string) (rt : Release.Runtime)
    : option Release.ProjectSuite * option Release.Project :=
  (Some suite, Some {| Release.version := version |}).

Definition generator : Release.ChangelogGenerator :=
  {| Release.filename := "CHANGELOG.rst" |}.

Definition git (tags : list string) (level : Z)
    : @Release.Git five_ranks string :=
  {| Release.tag_list := tags;
     Release.get_log :=
       fun _ => ("- feat: something", level : @Level five_ranks) |}.

Definition hosting : Release.Hosting string :=
  {| Release.is_active := true;
     Release.draft_url := fun _ _ _ => None |}.

(** [add_release] for a project at [version], whose log since the last of
    [tags] has the level [level]. *)
Definition add_release (version : string) (tags : list string) (level : Z)
    (dry_run : bool) : Release.run string unit :=
  @Release.add_release five_ranks string format_commit_message
    version_updaters (project_suites_find version)
    {| Release.dry_run := dry_run |} None false false generator
    (git tags level) hosting.

End Example.

(** The order [files.sort(key=lambda info: info.dst)] sorts by. *)
Definition dst_le (a b : FileInfo.t) : Prop :=
  String.leb (FileInfo.dst a) (FileInfo.dst b) = true.

(** The destinations a run writes or copies to, in the order it does. *)
Definition materialized (events : list io) : list string :=
  flat_map
    (fun e =>
       match e with
       | write dst _ => [dst]
       | copy2 _ dst => [dst]
       | _ => []
       end)
    events.

(** The candidates of a layer: a [FileInfo] for every source the scan of
    [layer_dir] finds, before sorting and filtering. *)
Definition candidates (fs : FileSystem) (layer_dir : string)
    (layer_info : LayerJson) (context : SettingsType) : list FileInfo.t :=
  map
    (fun src =>
       FileInfo.from_json src
         (match json_filelist layer_info with Some l => l | None => [] end)
         context)
    (match tree_at fs layer_dir with
     | Some d => LayerInfo.walk (OsPath.join layer_dir "") layer_dir d
     | None => []
     end).

(** A [when] that is absent or empty sets no condition; otherwise the
    condition is the truthiness of its key in the context. *)
Definition condition (context : SettingsType) (when : option string) : bool :=
  match when with
  | Some w => if Str.truthy w then Chevron.shown context w else true
  | None => true
  end.

(** The layer directories [gather_package_layers] builds layers for. *)
Definition layer_dirs (template_dir : string) (fs : FileSystem)
    (package_root : string) : list string :=
  let layers_dir :=
    abspath fs
      (OsPath.join (OsPath.join package_root template_dir) "layers") in
  match tree_at fs layers_dir with
  | Some (mkdir files dirs) =>
      map (fun dirname => abspath fs (OsPath.join layers_dir dirname))
        (filter
           (fun dirname => existsb (String.eqb (dirname ++ ".json")) files)
           (map fst dirs))
  | None => []
  end.

(** A package with two layers.  [base] is gated by [X]; two of its sources
    are mapped to the same destination [out.txt] under the conditions [X]
    and [Y].  [extras] has one file, gated by [Y]. *)
Module ExampleLayers.

Definition context : SettingsType :=
  [("X", Leaf (VBool true));
   ("Y", Leaf (VBool false));
   ("PROJECT", Dict [("NAME", Leaf (VStr "proj"))])].

Definition base : LayerJson :=
  {| json_when := Some "X";
     json_filelist :=
       Some
         [("a.txt", {| entry_path := Some "out.txt";
                       entry_when := Some "X" |});
          ("b.txt", {| entry_path := Some "out.txt";
                       entry_when := Some "Y" |});
          ("inc/version.h.mustache",
           {| entry_path := Some "inc/{{PROJECT.NAME}}/version.h";
              entry_when := None |});
          ("z.txt", {| entry_path := None; entry_when := Some "Y" |})] |}.

Definition extras : LayerJson :=
  {| json_when := None;
     json_filelist :=
       Some [("only.txt", {| entry_path := None;
                             entry_when := Some "Y" |})] |}.

Definition base_dir : dir :=
  mkdir ["b.txt"; "a.txt"; "z.txt"; "README.md.mustache"]
    [("inc", mkdir ["version.h.mustache"] [])].

Definition extras_dir : dir := mkdir ["only.txt"] [].

Definition fs : FileSystem :=
  {| read_json := fun path =>
       if String.eqb path "/pkg/template/layers/base.json" then Ok base
       else if String.eqb path "/pkg/template/layers/extras.json"
       then Ok extras
       else Raise (FileNotFoundError path);
     tree_at := fun path =>
       if String.eqb path "/pkg/template/layers/base" then Some base_dir
       else if String.eqb path "/pkg/template/layers/extras"
       then Some extras_dir
       else if String.eqb path "/pkg/template/layers"
       then Some (mkdir ["base.json"; "extras.json"; "notes.txt"]
                    [("base", base_dir); ("extras", extras_dir);
                     ("drafts", mkdir ["x.txt"] [])])
       else None;
     read_text := fun _ => "{{PROJECT.NAME}}";
     abspath := fun path =>
       if Str.startswith "/" path then path
       else OsPath.join "/work" path |}.

Definition rt : Config.Runtime :=
  {| Config.silent := false; Config.use_color := false;
     Config.dry_run := false |}.

End ExampleLayers.

(** Text that is one line and holds no mustache syntax. *)
Definition plain (s : string) : Prop :=
  Str.mem Str.nl s = false
  /\ Str.mem "{" s = false
  /\ Str.mem "}" s = false.

(** A [when] key, when there is one, is plain. *)
Definition plain_when (when : option string) : Prop :=
  match when with
  | Some w => plain w
  | None => True
  end.

(** The lines [FileInfo.template] writes for a file. *)
Definition file_lines (file : FileInfo.t) : list string :=
  match FileInfo.when file with
  | Some w =>
      if Str.truthy w
      then ["{{#" ++ w ++ "}}"; FileInfo.dst file; "{{/" ++ w ++ "}}"]
      else [FileInfo.dst file]
  | None => [FileInfo.dst file]
  end.

(** Lines, each with its line break. *)
Definition unlines (lines : list string) : string :=
  Str.concat (map (fun line => line ++ Str.NL) lines).

(** The lines [LayerInfo.template] writes for a layer. *)
Definition layer_lines (layer : LayerInfo.t) : list string :=
  match LayerInfo.when layer with
  | Some w =>
      if Str.truthy w
      then ("{{#" ++ w ++ "}}")
           :: app (flat_map file_lines (LayerInfo.files layer))
                [("{{/" ++ w ++ "}}")%string]
      else flat_map file_lines (LayerInfo.files layer)
  | None => flat_map file_lines (LayerInfo.files layer)
  end.

(** [p] is a prefix of [q], as lists of path steps. *)
Fixpoint is_prefix (p q : list string) : bool :=
  match p, q with
  | [], _ => true
  | a :: p', b :: q' => String.eqb a b && is_prefix p' q'
  | _ :: _, [] => false
  end.

(** No key's dot-path is a prefix of another key's dot-path. *)
Definition prefix_free (settings : FlatSettings) : Prop :=
  forall k k',
    In k (PyDict.keys settings) ->
    In k' (PyDict.keys settings) ->
    k <> k' ->
    is_prefix (Str.split "." k) (Str.split "." k') = false.

Definition is_dict (node : Node) : Prop :=
  match node with
  | Dict _ => True
  | Leaf _ => False
  end.

(** The body of the loop that nests the settings. *)
Definition nest_step (result : SettingsType) (kv : string * Value)
    : SettingsType :=
  Interact.nest (Str.split "." (fst kv)) (snd kv) result.

(** Settings on examples: the extension [EXT] is asked for, [EXT.cxx] is
    hidden and fixed up from it; every fix-up expands to the value of
    [EXT]. *)
Module ExampleSettings.

Definition defaults : list Interact.Setting :=
  [ {| Interact.json_key := "EXT"; Interact.project := None;
       Interact.calc_value := fun _ => VList [".cpp"; ".cc"; ".cxx"];
       Interact.fix_ := None; Interact.force_fix := false |} ].

Definition switches : list Interact.Setting := [].

Definition hidden : list Interact.Setting :=
  [ {| Interact.json_key := "EXT.cxx"; Interact.project := None;
       Interact.calc_value := fun _ => VStr "";
       Interact.fix_ := Some "{EXT}"; Interact.force_fix := false |} ].

Definition _build_fixup (settings : FlatSettings) (fixup : string) : Value :=
  match PyDict.get "EXT" settings with
  | Some v => v
  | None => VStr ""
  end.

Definition _prompt (wanted : Interact.Setting -> bool)
    (overrides : FlatSettings) : FlatSettings :=
  [("EXT", VStr ".cc")].

Definition get_context (interactive : bool) (overrides : FlatSettings)
    : result SettingsType :=
  Interact.get_context defaults switches hidden _build_fixup _prompt
    interactive None overrides.

Definition _fixup_context (settings : FlatSettings) : result SettingsType :=
  Interact._fixup_context defaults hidden _build_fixup settings
    (Interact._project_filter None).

End ExampleSettings.

(** ** Vocabulary of the further properties *)

(** Every character of a string passes a test. *)
Fixpoint all_chars (p : ascii -> bool) (s : string) : bool :=
  match s with
  | "" => true
  | String a s' => p a && all_chars p s'
  end.

Definition is_digit (a : ascii) : bool :=
  match PyInt.digit a with
  | Some _ => true
  | None => false
  end.

(** A character of ASCII. *)
Definition is_ascii (a : ascii) : bool := Nat.ltb (nat_of_ascii a) 128.

(** The number a decimal numeral denotes, read from the left with the
    value [acc] of the digits before it. *)
Fixpoint uint_value (d : Decimal.uint) (acc : Z) : Z :=
  match d with
  | Decimal.Nil => acc
  | Decimal.D0 d => uint_value d (10 * acc + 0)
  | Decimal.D1 d => uint_value d (10 * acc + 1)
  | Decimal.D2 d => uint_value d (10 * acc + 2)
  | Decimal.D3 d => uint_value d (10 * acc + 3)
  | Decimal.D4 d => uint_value d (10 * acc + 4)
  | Decimal.D5 d => uint_value d (10 * acc + 5)
  | Decimal.D6 d => uint_value d (10 * acc + 6)
  | Decimal.D7 d => uint_value d (10 * acc + 7)
  | Decimal.D8 d => uint_value d (10 * acc + 8)
  | Decimal.D9 d => uint_value d (10 * acc + 9)
  end%Z.

(** The files with a given destination. *)
Definition with_dst (d : string) (files : list FileInfo.t)
    : list FileInfo.t :=
  filter (fun file => String.eqb (FileInfo.dst file) d) files.

(** What a run prints, and what it does besides printing. *)
Definition printed (events : list io) : list string :=
  flat_map (fun e => match e with print line => [line] | _ => [] end) events.

Definition effects (events : list io) : list io :=
  filter (fun e => match e with print _ => false | _ => true end) events.

Definition set_dry_run (dry : bool) (rt : Config.Runtime) : Config.Runtime :=
  {| Config.silent := Config.silent rt;
     Config.use_color := Config.use_color rt;
     Config.dry_run := dry |}.

(** Whether [LayerInfo.from_fs] builds a layer with files for a
    directory. *)
Definition has_files (fs : FileSystem) (context : SettingsType)
    (layer_dir : string) : bool :=
  match LayerInfo.from_fs fs layer_dir context with
  | Ok layer => (0 <? List.length (LayerInfo.files layer))%nat
  | Raise _ => false
  end.

(** A file or directory name: not empty, and without [/]. *)
Definition is_name (name : string) : bool :=
  negb (String.eqb name "") && negb (Str.mem "/" name).

(** A tree whose entries all have names. *)
Fixpoint named (d : dir) : bool :=
  match d with
  | mkdir files dirs =>
      forallb is_name files
      && (fix all (ds : list (string * dir)) : bool :=
            match ds with
            | [] => true
            | (dirname, sub) :: rest =>
                is_name dirname && named sub && all rest
            end) dirs
  end.

(** The path of [name] in the directory whose path, relative to the layer,
    is [rel]; the layer directory itself is the empty path. *)
Definition below (rel name : string) : string :=
  if String.eqb rel "" then name else rel ++ "/" ++ name.

(** The files of a tree outside its [__pycache__] directories, each by its
    path relative to the root, a directory's own files before those of its
    sub-directories. *)
Fixpoint relative (rel : string) (d : dir) : list string :=
  match d with
  | mkdir files dirs =>
      (map (below rel) files
       ++ (fix subs (ds : list (string * dir)) : list string :=
             match ds with
             | [] => []
             | (dirname, sub) :: rest =>
                 ((if String.eqb dirname "__pycache__" then []
                   else relative (below rel dirname) sub)
                  ++ subs rest)%list
             end) dirs)%list
  end.

(** Where the scan is while it lists the directory at [rel] below the
    layer directory. *)
Definition scan_dir (layer_dir rel : string) : string :=
  if String.eqb rel "" then layer_dir else layer_dir ++ "/" ++ rel.

(** ** [copy_license], of cxx_flow/flow/layer.py *)



Section CopyLicense.

(** [ctx.package_root] and [ctx.template_dir]; [cxx_flow/flow/ctx.py] is
    not among the sources. *)
Variables package_root template_dir : string.

(** Python's [str()] of a value, as an f-string writes it. *)
Variable py_str : Node -> string.


End CopyLicense.

(** ** The questions of [interact.py] *)

(** [str.lower()], on the letters of ASCII. *)
Definition lower_char (c : ascii) : ascii :=
  let n := nat_of_ascii c in
  if (Nat.leb 65 n && Nat.leb n 90)%bool then ascii_of_nat (n + 32) else c.

Fixpoint lower (s : string) : string :=
  match s with
  | EmptyString => EmptyString
  | String c rest => String (lower_char c) (lower rest)
  end.

Module Question.

(** [_Question], without the text of its prompt: the text only goes into
    the message that the terminal shows. *)
Record t : Type := {
  key : string;
  value : Value
}.

Section WithTerminal.

(** [ctx.move_to_front]; [proj_flow/api/ctx.py] is not among the
    sources. *)
Variable move_to_front : string -> list string -> list string.

(** [tk_prompt(...)]: the line the terminal returns for the question with
    the given number; with a validator, the line the validator let
    through. *)
Variable tk_prompt : nat -> string.

(** [_Question.load_default(default, previous, override)] *)
Definition load_default (default : Interact.Setting)
    (previous : FlatSettings) (override : option Value) : t :=
  let value := Interact.calc_value default previous in
  let value :=
    match override with
    | Some override =>
        match value, override with
        | VStr _, VStr _ => override
        | VBool _, VBool _ => override
        | VList value, VStr override => VList (move_to_front override value)
        | _, _ => value
        end
    | None => value
    end in
  {| key := Interact.json_key default; value := value |}.

(** [_Question._get_str(self, default, counter, size)] *)
Definition _get_str (default : string) (counter : nat) : string :=
  let value := tk_prompt counter in
  if negb (Str.truthy value) then default else value.

(** [_Question._get_flag(self, default, counter, size)] *)
Definition _get_flag (default : bool) (counter : nat) : bool :=
  let value := tk_prompt counter in
  if Str.truthy value
  then existsb (String.eqb (lower value)) ["1"; "on"; "y"; "yes"]
  else default.

(** [_Question._get_list(self, defaults, counter, size)] *)
Definition _get_list (defaults : list string) (counter : nat)
    : result string :=
  let value := tk_prompt counter in
  if negb (Str.truthy value) then
    match defaults with
    | first :: _ => Ok first
    | [] => Raise IndexError
    end
  else Ok value.

(** [_Question.interact(self, counter, size)] *)
Definition interact (self : t) (counter : nat) : result Value :=
  match value self with
  | VStr s => Ok (VStr (_get_str s counter))
  | VBool b => Ok (VBool (_get_flag b counter))
  | VList l => rbind (_get_list l counter) (fun s => Ok (VStr s))
  end.

(** [ctx.defaults] and [ctx.switches]. *)
Variables defaults switches : list Interact.Setting.

(** [_prompt(wanted, overrides)] *)
Definition _prompt (wanted : Interact.Setting -> bool)
    (overrides : FlatSettings) : result FlatSettings :=
  rbind
    (fold_left
       (fun acc setting =>
          rbind acc (fun state =>
          let settings := fst state in
          let counter := snd state in
          let loaded :=
            load_default setting settings
              (PyDict.get (Interact.json_key setting) overrides) in
          rbind (interact loaded counter) (fun value =>
          Ok (PyDict.set (key loaded) value settings, S counter))))
       (filter wanted defaults ++ filter wanted switches)%list
       (Ok ([], 1%nat)))
    (fun state => Ok (fst state)).

End WithTerminal.

End Question.

(** [type(value) == type(override)] for a [str] or a [bool] value. *)
Definition same_scalar (value override : Value) : bool :=
  match value, override with
  | VStr _, VStr _ => true
  | VBool _, VBool _ => true
  | _, _ => false
  end.

(** ** [command_bootstrap], of cxx_flow/commands/bootstrap.py *)

Module Bootstrap.

(** The files of the host, each with its text. *)
Definition Files : Type := PyDict.t string.

(** How [command_bootstrap] ends: it returns, or [open] raises (an
    [OSError], or [ValueError] for a name with a null character), or
    [os.environ["PATH"]] raises [KeyError], or [print] raises
    [UnicodeEncodeError]. *)
Inductive outcome : Type :=
| Returned
| OpenRaised
| KeyErrorRaised
| UnicodeEncodeErrorRaised.

(** [print(text, file=f)] for a file [f] opened to append to [file]. *)
Definition print_to (file text : string) (files : Files) : Files :=
  let old :=
    match PyDict.get file files with
    | Some old => old
    | None => ""
    end in
  PyDict.set file (old ++ text ++ Str.NL) files.

Section WithHost.

(** The file that [open(path, "a")] opens on the host; [None] where it
    raises: for the empty name, a directory, a directory that is missing,
    or a file the process may not write to. *)
Variable resolve : string -> option string.

(** Whether a text can be written in UTF-8: the text of a variable of the
    environment may hold what can not. *)
Variable encodable : string -> bool.

(** [open(path, "a")]: a file that is missing is created empty. *)
Definition open_append (path : string) (files : Files)
    : option (string * Files) :=
  match resolve path with
  | Some file =>
      Some (file,
            if PyDict.contains file files then files
            else PyDict.set file "" files)
  | None => None
  end.

(** [command_bootstrap(rt)], over [os.environ] and the files. *)
Definition command_bootstrap (environ : PyDict.t string) (files : Files)
    : Files * outcome :=
  match PyDict.get "GITHUB_ENV" environ with
  | Some GITHUB_ENV =>
      match open_append GITHUB_ENV files with
      | Some (github_env, files) =>
          match PyDict.get "PATH" environ with
          | Some PATH =>
              if encodable ("PATH=" ++ PATH)
              then (print_to github_env ("PATH=" ++ PATH) files, Returned)
              else (files, UnicodeEncodeErrorRaised)
          | None => (files, KeyErrorRaised)
          end
      | None => (files, OpenRaised)
      end
  | None => (files, Returned)
  end.

End WithHost.

End Bootstrap.

(** ** The signing steps, of cxx_flow/plugins/sign/__init__.py, on a host
    that is not Windows *)

Module Sign.

(** The class [win32] that the plugin defines when [sys.platform] is not
    ["win32"]. *)
Module win32.

Definition is_active (os : string) (verbose : bool) : bool := false.

Definition sign (files : list string) (verbose : bool) : Z := 0.

Definition is_pe_exec (arg : string) : bool := false.

End win32.

(** [Config], as the plugin reads it; [cpack_generator] is
    [config.items.get("cpack_generator")]. *)
Record Config : Type := {
  os : string;
  build_dir : string;
  cpack_generator : option (list string)
}.

(** [rt._cfg["binaries"]] *)
Record Binaries : Type := {
  directories : option (list string);
  exclude : option (list string)
}.

(** [Runtime], as the plugin reads it; [binaries] is
    [rt._cfg.get("binaries")]. *)
Record Runtime : Type := {
  verbose : bool;
  dry_run : bool;
  binaries : option Binaries
}.

(** A call of [rt.print], with its arguments. *)
Inductive event : Type :=
| rt_print (args : list string).

(** [os.walk(top)] below a directory, top down: each directory with the
    names of its sub-directories and of its files. *)
Fixpoint walk_tree (top : string) (d : dir)
    : list (string * list string * list string) :=
  match d with
  | mkdir files dirs =>
      (top, map fst dirs, files) ::
      (fix walk_dirs (ds : list (string * dir))
         : list (string * list string * list string) :=
         match ds with
         | [] => []
         | (dirname, sub) :: rest =>
             (walk_tree (OsPath.join top dirname) sub
              ++ walk_dirs rest)%list
         end) dirs
  end.

(** [os.walk(top)]: nothing when [top] is no directory. *)
Definition os_walk (fs : FileSystem) (top : string)
    : list (string * list string * list string) :=
  match tree_at fs top with
  | Some d => walk_tree top d
  | None => []
  end.

Section WithFnmatch.

(** [fnmatch.fnmatch(name, pattern)] *)
Variable fnmatch : string -> string -> bool.

(** [should_exclude(filename, exclude, config_os)] *)
Definition should_exclude (filename : string) (exclude : list string)
    (config_os : string) : bool :=
  let basename :=
    if String.eqb config_os "windows"
    then fst (OsPath.splitext filename)
    else filename in
  existsb (fnmatch basename) exclude.

(** [SignBase.is_active(self, config, rt)] *)
Definition is_active (config : Config) (rt : Runtime) : bool :=
  win32.is_active (os config) (verbose rt).

(** [SignBase.run(self, config, rt)], for the [get_files] of the step. *)
Definition run (get_files : Config -> Runtime -> list string)
    (config : Config) (rt : Runtime) : list event * Z :=
  let files :=
    map (Str.replace OsPath.sep "/") (get_files config rt) in
  if Nat.eqb (List.length files) 0 then ([], 0%Z)
  else
    let printed := [rt_print ("signtool" :: map OsPath.basename files)] in
    if dry_run rt then (printed, 0%Z)
    else (printed, win32.sign files (verbose rt)).

(** [SignFiles.get_files(self, config, rt)] *)
Definition files_get_files (fs : FileSystem) (config : Config)
    (rt : Runtime) : list string :=
  let cfg :=
    match binaries rt with
    | Some cfg => cfg
    | None => {| directories := None; exclude := None |}
    end in
  let roots :=
    match directories cfg with
    | Some roots => roots
    | None => ["bin"; "lib"; "libexec"; "share"]
    end in
  let exclude :=
    match exclude cfg with
    | Some exclude => exclude
    | None => ["*-test"]
    end in
  let build_dir := build_dir config in
  flat_map
    (fun root =>
       flat_map
         (fun entry =>
            let curr_dir := fst (fst entry) in
            let filenames := snd entry in
            flat_map
              (fun filename =>
                 if should_exclude filename exclude (os config) then []
                 else
                   let full_path := OsPath.join curr_dir filename in
                   if negb (win32.is_pe_exec full_path) then []
                   else [full_path])
              filenames)
         (os_walk fs (OsPath.join build_dir root)))
    roots.

(** [SignMsi.is_active(self, config, rt)] *)
Definition msi_is_active (config : Config) (rt : Runtime) : bool :=
  is_active config rt
  && existsb (String.eqb "WIX")
       match cpack_generator config with
       | Some generators => generators
       | None => []
       end.

(** [SignMsi.get_files(self, config, rt)]: with [dirnames[:] = []] the
    walk stops after the directory of the packages itself. *)
Definition msi_get_files (fs : FileSystem) (config : Config) (rt : Runtime)
    : list string :=
  let pkg_dir := OsPath.join (build_dir config) "packages" in
  match tree_at fs pkg_dir with
  | Some (mkdir filenames _) =>
      flat_map
        (fun filename =>
           let ext := snd (OsPath.splitext filename) in
           if negb (String.eqb (lower ext) ".msi") then []
           else [OsPath.join pkg_dir filename])
        filenames
  | None => []
  end.

End WithFnmatch.

End Sign.

(** ** The scopes of a layer's template *)

(** The scopes in which the files of a layer are decided: inside the
    section of the layer's [when], where it has one. *)
Definition layer_scopes (context : SettingsType) (when : option string)
    : list Node :=
  match when with
  | Some w =>
      if Str.truthy w
      then [Chevron.section_scope [Dict context] w; Dict context]
      else [Dict context]
  | None => [Dict context]
  end.

(** The condition a [when] sets where it is met in [scopes]: none when it
    is absent or empty. *)
Definition condition_in (scopes : list Node) (when : option string) : bool :=
  match when with
  | Some w => if Str.truthy w then Chevron.shown_in scopes w else true
  | None => true
  end.

(** The attributes of Python's [str], [int], [bool], [float], [list] and
    [dict] whose names do not start with an underscore. *)
Definition python_attributes : list string :=
  ["append"; "as_integer_ratio"; "bit_count"; "bit_length"; "capitalize";
   "casefold"; "center"; "clear"; "conjugate"; "copy"; "count";
   "denominator"; "encode"; "endswith"; "expandtabs"; "extend"; "find";
   "format"; "format_map"; "from_bytes"; "from_number"; "fromhex";
   "fromkeys"; "get"; "hex"; "imag"; "index"; "insert"; "is_integer";
   "isalnum"; "isalpha"; "isascii"; "isdecimal"; "isdigit"; "isidentifier";
   "islower"; "isnumeric"; "isprintable"; "isspace"; "istitle"; "isupper";
   "items"; "join"; "keys"; "ljust"; "lower"; "lstrip"; "maketrans";
   "numerator"; "partition"; "pop"; "popitem"; "real"; "remove";
   "removeprefix"; "removesuffix"; "replace"; "reverse"; "rfind"; "rindex";
   "rjust"; "rpartition"; "rsplit"; "rstrip"; "setdefault"; "sort"; "split";
   "splitlines"; "startswith"; "strip"; "swapcase"; "title"; "to_bytes";
   "translate"; "update"; "upper"; "values"; "zfill"].

Definition is_letter (a : ascii) : bool :=
  let n := nat_of_ascii a in
  (Nat.leb 65 n && Nat.leb n 90) || (Nat.leb 97 n && Nat.leb n 122).

(** A character of a key of the settings: a letter, a digit, an underscore
    or the dot between two names. *)
Definition key_char (a : ascii) : bool :=
  is_letter a || is_digit a || Ascii.eqb a "_" || Ascii.eqb a ".".

(** A name in a key of the settings: it starts with a letter, so it is no
    number, and it is no attribute of a Python value. *)
Definition setting_name (name : string) : bool :=
  match name with
  | String a _ => is_letter a
  | "" => false
  end
  && negb (existsb (String.eqb name) python_attributes).

(** A key of the settings: such names, with dots between them. *)
Definition setting_key (key : string) : bool :=
  all_chars key_char key && forallb setting_name (Str.split "." key).

(** A [when] that, where it sets a condition, is a key of the settings. *)
Definition setting_when (when : option string) : bool :=
  match when with
  | Some w => negb (Str.truthy w) || setting_key w
  | None => true
  end.

(** A context of flags, strings and dictionaries of them. *)
Fixpoint no_lists (n : Node) : bool :=
  match n with
  | Leaf (VList _) => false
  | Leaf _ => true
  | Dict entries =>
      (fix all (entries : list (string * Node)) : bool :=
         match entries with
         | [] => true
         | (_, n') :: rest => no_lists n' && all rest
         end) entries
  end.

(** The context of a project whose setting [X] is a dictionary. *)
Definition scoped_context : SettingsType :=
  [("X", Dict [("Y", Leaf (VBool true))]);
   ("Y", Leaf (VBool false));
   ("PROJECT", Dict [("NAME", Leaf (VStr "proj"))])].

(** * Properties *)

(** ** Strings *)

Lemma append_nil_r (s : string) : s ++ "" = s.
Proof. induction s as [|a s IH]; simpl; congruence. Qed.

Lemma append_assoc (a b c : string) : (a ++ b) ++ c = a ++ (b ++ c).
Proof. induction a as [|x a IH]; simpl; congruence. Qed.

Lemma length_append (a b : string) :
  String.length (a ++ b) = String.length a + String.length b.
Proof. induction a as [|x a IH]; simpl; congruence. Qed.

Lemma split1_no_sep (c : ascii) (s : string) :
  Str.mem c s = false -> Str.split1 c s = [s].
Proof.
  induction s as [|a s IH]; simpl; intros H; [reflexivity|].
  apply orb_false_iff in H as [Ha Hs].
  rewrite Ha, (IH Hs). reflexivity.
Qed.

Lemma split1_at_sep (c : ascii) (s rest : string) :
  Str.mem c s = false -> Str.split1 c (s ++ String c rest) = [s; rest].
Proof.
  induction s as [|a s IH]; simpl; intros H.
  - rewrite Ascii.eqb_refl. reflexivity.
  - apply orb_false_iff in H as [Ha Hs].
    rewrite Ha, (IH Hs). reflexivity.
Qed.

(** ** [_bump_version] *)

Section BumpVersion.

Context {levels : LevelEnum}.

Lemma pad_truncate (ns : list Z) :
  firstn 3 (ns ++ repeat 0%Z (3 - List.length ns)) = three ns.
Proof.
  destruct ns as [|a [|b [|c ns]]]; reflexivity.
Qed.

Lemma three_length (ns : list Z) : List.length (three ns) = 3.
Proof.
  destruct ns as [|a [|b [|c ns]]]; reflexivity.
Qed.

Lemma bump_version_unfold (core : string) (suffix : option string)
    (level : Level) (ns : list Z) :
  Str.mem "-" core = false ->
  rmap PyInt.int (Str.split "." core) = Ok ns ->
  Release._bump_version (with_stability core suffix) level =
  rbind
    (if (value level >? value BENIGN)%Z then
       let lvl := (value BREAKING - value level)%Z in
       rbind (PyList.get (three ns) lvl) (fun old =>
       rbind (PyList.set (three ns) lvl (old + 1)%Z) (fun semver =>
       fold_left
         (fun acc index => rbind acc (fun l => PyList.set l index 0%Z))
         (PyList.range (lvl + 1) (Z.of_nat (List.length semver)))
         (Ok semver)))
     else Ok (three ns))
    (fun semver =>
       Ok (with_stability (dotted semver) suffix)).
Proof.
  intros Hdash Hints. unfold Release._bump_version.
  destruct suffix as [s|]; cbn [with_stability].
  - change (core ++ "-" ++ s) with (core ++ String "-" s).
    rewrite (split1_at_sep _ _ _ Hdash). cbn [List.length Nat.eqb nth].
    rewrite Hints. cbn [rbind]. rewrite pad_truncate. reflexivity.
  - rewrite (split1_no_sep _ _ Hdash). cbn [List.length Nat.eqb nth].
    rewrite Hints. cbn [rbind]. rewrite pad_truncate.
    destruct (value level >? value BENIGN)%Z; cbn [rbind].
    + destruct (PyList.get _ _); cbn [rbind]; [|reflexivity].
      destruct (PyList.set _ _ _); cbn [rbind]; [|reflexivity].
      destruct (fold_left _ _ _); cbn [rbind]; [|reflexivity].
      now rewrite append_nil_r.
    + now rewrite append_nil_r.
Qed.

(** C2.  [_bump_version] cuts the version at its first [-] and keeps what
    follows verbatim; the dotted core is read as integers, padded with
    zeros or truncated to three; a level above [BENIGN] whose index
    [BREAKING.value - level.value] is one of the three increments that
    component and zeroes those to its right; a level not above [BENIGN]
    leaves the three components as they are.  With [FEATURE] one rank
    below [BREAKING], the four examples of the spec come out as stated. *)
Theorem bump_version_spec (FEATURE : Level) :
  (value BENIGN < value FEATURE)%Z ->
  (value FEATURE + 1 = value BREAKING)%Z ->
  (forall core suffix level ns,
      Str.mem "-" core = false ->
      rmap PyInt.int (Str.split "." core) = Ok ns ->
      ((value BENIGN < value level)%Z ->
       (0 <= value BREAKING - value level < 3)%Z ->
       Release._bump_version (with_stability core suffix) level =
       Ok (with_stability
             (dotted (bumped (Z.to_nat (value BREAKING - value level))
                        (three ns)))
             suffix))
      /\ ((value level <= value BENIGN)%Z ->
          Release._bump_version (with_stability core suffix) level =
          Ok (with_stability (dotted (three ns)) suffix)))
  /\ Release._bump_version "1.2.3" FEATURE = Ok "1.3.0"
  /\ Release._bump_version "1.2.3" BREAKING = Ok "2.0.0"
  /\ Release._bump_version "1.2.3-rc.1" BENIGN = Ok "1.2.3-rc.1"
  /\ Release._bump_version "1.2" FEATURE = Ok "1.3.0".
Proof.
  intros Hfeat Hbreak.
  assert (General : forall core suffix level ns,
      Str.mem "-" core = false ->
      rmap PyInt.int (Str.split "." core) = Ok ns ->
      ((value BENIGN < value level)%Z ->
       (0 <= value BREAKING - value level < 3)%Z ->
       Release._bump_version (with_stability core suffix) level =
       Ok (with_stability
             (dotted (bumped (Z.to_nat (value BREAKING - value level))
                        (three ns)))
             suffix))
      /\ ((value level <= value BENIGN)%Z ->
          Release._bump_version (with_stability core suffix) level =
          Ok (with_stability (dotted (three ns)) suffix))).
  { intros core suffix level ns Hdash Hints.
    rewrite (bump_version_unfold core suffix level ns Hdash Hints).
    split.
    - intros Hgt Hidx.
      replace (value level >? value BENIGN)%Z with true
        by (symmetry; rewrite Z.gtb_ltb; apply Z.ltb_lt; lia).
      cbv zeta.
      assert (Hcases : (value BREAKING - value level = 0
                        \/ value BREAKING - value level = 1
                        \/ value BREAKING - value level = 2)%Z) by lia.
      destruct ns as [|a [|b [|c ns]]];
        destruct Hcases as [-> | [-> | ->]]; reflexivity.
    - intros Hle.
      replace (value level >? value BENIGN)%Z with false
        by (symmetry; rewrite Z.gtb_ltb; apply Z.ltb_ge; lia).
      reflexivity. }
  split; [exact General|].
  assert (Hf : (value BREAKING - value FEATURE = 1)%Z) by lia.
  assert (Hb : (value BREAKING - value BREAKING = 0)%Z) by lia.
  repeat split.
  - destruct (General "1.2.3" None FEATURE [1; 2; 3]%Z eq_refl eq_refl)
      as [H _].
    cbn [with_stability] in H. rewrite H by lia. rewrite Hf. reflexivity.
  - destruct (General "1.2.3" None BREAKING [1; 2; 3]%Z eq_refl eq_refl)
      as [H _].
    cbn [with_stability] in H. rewrite H by lia. rewrite Hb. reflexivity.
  - destruct (General "1.2.3" (Some "rc.1") BENIGN [1; 2; 3]%Z eq_refl
                eq_refl) as [_ H].
    cbn [with_stability] in H. apply H. lia.
  - destruct (General "1.2" None FEATURE [1; 2]%Z eq_refl eq_refl)
      as [H _].
    cbn [with_stability] in H. rewrite H by lia. rewrite Hf. reflexivity.
Qed.

End BumpVersion.

Lemma bump_version_spec_witness :
  @Release._bump_version five_ranks "1.2.3" 3%Z = Ok "1.3.0"
  /\ @Release._bump_version five_ranks "4.5-beta-2" 2%Z = Ok "4.5.1-beta-2".
Proof.
  assert (H1 : (@value five_ranks (@BENIGN five_ranks) < @value five_ranks 3)%Z)
    by (simpl; lia).
  assert (H2 : (@value five_ranks 3 + 1
                = @value five_ranks (@BREAKING five_ranks))%Z)
    by (simpl; lia).
  destruct (@bump_version_spec five_ranks 3%Z H1 H2) as [General [E1 _]].
  split; [exact E1|].
  refine (proj1 (General "4.5" (Some "beta-2") 2%Z [4; 5]%Z eq_refl eq_refl)
            _ _); simpl; lia.
Defined.

(** ** [add_release] *)

Section ReleaseFlow.

Context {levels : LevelEnum} {ChangeLog : Type}.
Variable format_commit_message : ChangeLog -> string.
Variable version_updaters : list Release.VersionUpdater.
Variable project_suites_find :
  Release.Runtime -> option Release.ProjectSuite * option Release.Project.

Let add_release :=
  Release.add_release ChangeLog format_commit_message version_updaters
    project_suites_find.

Lemma for_each_updaters (next_version : string)
    (updaters : list Release.VersionUpdater) (index : nat) :
  Release.for_each ChangeLog
    (fun index updater =>
       Release.bind ChangeLog
         (Release.call ChangeLog
            (Release.updater_on_version_change index next_version)
            (Release.on_version_change updater next_version))
         (fun modified =>
            match modified with
            | Release.One s => Release.ret ChangeLog [s]
            | Release.Many l => Release.ret ChangeLog l
            end))
    index updaters
  = (updater_calls index next_version updaters,
     Ok (updater_files next_version updaters)).
Proof.
  revert index.
  induction updaters as [|u rest IH]; intros index; [reflexivity|].
  cbn [Release.for_each updater_calls updater_files].
  rewrite IH. unfold Release.bind, Release.call, Release.ret.
  destruct (Release.on_version_change u next_version);
    cbn; rewrite ?app_nil_r; reflexivity.
Qed.

(** The whole run of [add_release], once a project is found and the next
    version is computed: the two validations, then the artifacts, the
    commit, the tag and the hosting release. *)
Lemma add_release_cases rt forced_level take_all draft generator git
    hosting suite project changelog log_level next_version :
  project_suites_find rt = (Some suite, Some project) ->
  Release.get_log git (initial_setup (Release.tag_list git) take_all)
    = (changelog, log_level) ->
  Release._bump_version (Release.version project)
    (effective_level forced_level log_level) = Ok next_version ->
  let tags := Release.tag_list git in
  let setup0 := initial_setup tags take_all in
  let setup := tagged_setup tags take_all next_version in
  add_release rt forced_level take_all draft generator git hosting =
  if String.eqb next_version (Release.version project) then
    ([Release.git_tag_list; Release.git_get_log setup0],
     Raise (VersionNotAdvancing next_version))
  else if existsb (String.eqb ("v" ++ next_version)) tags then
    ([Release.git_tag_list; Release.git_get_log setup0;
      Release.rt_fatal ("Tag v" ++ next_version ++ " already exists.")],
     Raise (SystemExit ("Tag v" ++ next_version ++ " already exists.")))
  else
    (([Release.git_tag_list; Release.git_get_log setup0]
      ++ (if Release.dry_run rt then [Release.suite_get_version_file_path]
          else [Release.generator_update_changelog changelog setup;
                Release.suite_set_version next_version;
                Release.suite_get_version_file_path]
               ++ updater_calls 0 next_version version_updaters)
      ++ [Release.git_add_files
            ([Release.filename generator] ++ version_file suite
             ++ (if Release.dry_run rt then []
                 else updater_files next_version version_updaters));
          Release.git_commit
            ("chore: " ++ ("release " ++ next_version)
             ++ format_commit_message changelog);
          Release.git_annotated_tag ("v" ++ next_version)
            ("release " ++ next_version)]
      ++ hosting_calls hosting changelog setup draft)%list,
     Ok tt).
Proof.
  intros Hfind Hlog Hbump tags setup0 setup.
  unfold add_release, Release.add_release.
  rewrite Hfind.
  unfold Release.call at 1. unfold Release.bind at 1.
  unfold Release.call at 1. unfold Release.bind at 1.
  fold tags. fold (initial_setup tags take_all). fold setup0.
  unfold setup0, tags at 1. rewrite Hlog.
  fold (effective_level forced_level log_level). rewrite Hbump.
  unfold Release.lift. unfold Release.bind at 1.
  destruct (String.eqb next_version (Release.version project)).
  { reflexivity. }
  unfold Release.ret at 1. unfold Release.bind at 1.
  destruct (existsb (String.eqb ("v" ++ next_version)) tags).
  { reflexivity. }
  unfold Release.ret at 1. unfold Release.bind at 1.
  assert (Hvf : forall (o : option string),
             o = Release.get_version_file_path suite ->
             (if Release.option_truthy o
              then match o with Some p => [p] | None => [] end
              else []) = version_file suite).
  { intros o ->. unfold version_file, Release.option_truthy.
    destruct (Release.get_version_file_path suite); reflexivity. }
  fold (tagged_setup tags take_all next_version). fold setup.
  destruct (Release.dry_run rt); cbn [negb].
  - unfold Release.call, Release.ret, Release.bind.
    rewrite (Hvf _ eq_refl).
    unfold hosting_calls.
    destruct (Release.is_active hosting); [|cbn; now rewrite ?app_nil_r].
    destruct (Release.draft_url hosting changelog setup draft) as [u|];
      cbn [Release.option_truthy]; [destruct (Str.truthy u)|];
      cbn; rewrite ?app_nil_r; reflexivity.
  - rewrite for_each_updaters.
    unfold Release.call, Release.ret, Release.bind.
    rewrite (Hvf _ eq_refl).
    unfold hosting_calls.
    destruct (Release.is_active hosting).
    + destruct (Release.draft_url hosting changelog setup draft) as [u|];
        cbn [Release.option_truthy]; [destruct (Str.truthy u)|];
        cbn; rewrite ?app_nil_r, <- ?app_assoc; reflexivity.
    + cbn; rewrite ?app_nil_r, <- ?app_assoc; reflexivity.
Qed.

Lemma tag_listed (tag : string) (tags : list string) :
  existsb (String.eqb tag) tags = true <-> In tag tags.
Proof.
  rewrite existsb_exists. split.
  - intros [x [Hin Heq]]. apply String.eqb_eq in Heq. now subst.
  - intros Hin. exists tag. split; [assumption|apply String.eqb_refl].
Qed.

Lemma tag_not_listed (tag : string) (tags : list string) :
  ~ In tag tags -> existsb (String.eqb tag) tags = false.
Proof.
  intros Hnot. destruct (existsb (String.eqb tag) tags) eqn:E;
    [|reflexivity].
  now apply tag_listed in E.
Qed.

Lemma updater_calls_no_commit index next_version updaters :
  filter commit_or_tag
    (updater_calls (ChangeLog := ChangeLog) index next_version updaters)
  = [].
Proof.
  revert index. induction updaters as [|u rest IH]; intros index;
    [reflexivity|]. cbn. apply IH.
Qed.

Lemma hosting_calls_no_commit hosting changelog setup draft :
  filter commit_or_tag
    (hosting_calls (ChangeLog := ChangeLog) hosting changelog setup draft)
  = [].
Proof.
  unfold hosting_calls. destruct (Release.is_active hosting);
    [|reflexivity].
  destruct (Release.draft_url hosting changelog setup draft) as [u|];
    [destruct (Str.truthy u)|]; reflexivity.
Qed.

(** C1, as amended.  With the dry-run flag set and both validations
    passed, [add_release] writes no changelog, sets no version and calls
    no registered updater; it asks the suite for the version file, and the
    list it hands to [git.add_files] is the generator's file name followed
    by the version-file path when there is one.  It then calls
    [git.commit], [git.annotated_tag] and, when hosting is active,
    [hosting.add_release], as it does without the flag. *)
Theorem add_release_dry_run rt forced_level take_all draft generator git
    hosting suite project changelog log_level next_version :
  Release.dry_run rt = true ->
  project_suites_find rt = (Some suite, Some project) ->
  Release.get_log git (initial_setup (Release.tag_list git) take_all)
    = (changelog, log_level) ->
  Release._bump_version (Release.version project)
    (effective_level forced_level log_level) = Ok next_version ->
  next_version <> Release.version project ->
  ~ In ("v" ++ next_version) (Release.tag_list git) ->
  add_release rt forced_level take_all draft generator git hosting =
  (([Release.git_tag_list;
     Release.git_get_log (initial_setup (Release.tag_list git) take_all);
     Release.suite_get_version_file_path;
     Release.git_add_files
       (Release.filename generator :: version_file suite);
     Release.git_commit
       ("chore: release " ++ next_version
        ++ format_commit_message changelog);
     Release.git_annotated_tag ("v" ++ next_version)
       ("release " ++ next_version)]
    ++ hosting_calls hosting changelog
         (tagged_setup (Release.tag_list git) take_all next_version)
         draft)%list,
   Ok tt).
Proof.
  intros Hdry Hfind Hlog Hbump Hadv Htag.
  rewrite (add_release_cases _ _ _ _ _ _ _ _ _ _ _ _ Hfind Hlog Hbump).
  apply String.eqb_neq in Hadv. rewrite Hadv.
  rewrite (tag_not_listed _ _ Htag). rewrite Hdry.
  cbn [app]. rewrite app_nil_r. reflexivity.
Qed.

(** C3, as amended.  Once the next version is computed, [add_release]
    stops before any call that changes the changelog, the version file,
    the repository or the hosting service, having only listed the tags and
    read the log: with [VersionNotAdvancing] when the next version is the
    project's version, and, when the version does advance and the tag
    [v<version>] is among the listed tags, with the message "Tag
    v<version> already exists." on the fatal channel. *)
Theorem add_release_validation rt forced_level take_all draft generator
    git hosting suite project changelog log_level next_version :
  project_suites_find rt = (Some suite, Some project) ->
  Release.get_log git (initial_setup (Release.tag_list git) take_all)
    = (changelog, log_level) ->
  Release._bump_version (Release.version project)
    (effective_level forced_level log_level) = Ok next_version ->
  let run := add_release rt forced_level take_all draft generator git
               hosting in
  (next_version = Release.version project ->
   run = ([Release.git_tag_list;
           Release.git_get_log
             (initial_setup (Release.tag_list git) take_all)],
          Raise (VersionNotAdvancing next_version)))
  /\ (next_version <> Release.version project ->
      In ("v" ++ next_version) (Release.tag_list git) ->
      run = ([Release.git_tag_list;
              Release.git_get_log
                (initial_setup (Release.tag_list git) take_all);
              Release.rt_fatal
                ("Tag v" ++ next_version ++ " already exists.")],
             Raise (SystemExit
                      ("Tag v" ++ next_version ++ " already exists."))))
  /\ (next_version = Release.version project
      \/ In ("v" ++ next_version) (Release.tag_list git) ->
      existsb mutating (fst run) = false
      /\ exists e, snd run = Raise e).
Proof.
  intros Hfind Hlog Hbump run. unfold run.
  rewrite (add_release_cases _ _ _ _ _ _ _ _ _ _ _ _ Hfind Hlog Hbump).
  destruct (String.eqb_spec next_version (Release.version project))
    as [Heq|Hne].
  - repeat split; try reflexivity; try contradiction.
    eexists; reflexivity.
  - split; [contradiction|].
    split.
    + intros _ Hin. apply tag_listed in Hin. rewrite Hin. reflexivity.
    + intros [Heq|Hin]; [contradiction|].
      apply tag_listed in Hin. rewrite Hin.
      split; [reflexivity|eexists; reflexivity].
Qed.

(** C4, as amended.  When [add_release] reaches the commit step, the one
    message passed to [git.commit] is [chore: release <version>] followed
    by [fmt.format_commit_message(changelog)], and the one annotated tag
    is [v<version>] with the message [release <version>], created after
    the commit. *)
Theorem add_release_commit_message rt forced_level take_all draft generator
    git hosting suite project changelog log_level next_version :
  project_suites_find rt = (Some suite, Some project) ->
  Release.get_log git (initial_setup (Release.tag_list git) take_all)
    = (changelog, log_level) ->
  Release._bump_version (Release.version project)
    (effective_level forced_level log_level) = Ok next_version ->
  next_version <> Release.version project ->
  ~ In ("v" ++ next_version) (Release.tag_list git) ->
  filter commit_or_tag
    (fst (add_release rt forced_level take_all draft generator git
            hosting))
  = [Release.git_commit
       ("chore: release " ++ next_version
        ++ format_commit_message changelog);
     Release.git_annotated_tag ("v" ++ next_version)
       ("release " ++ next_version)].
Proof.
  intros Hfind Hlog Hbump Hadv Htag.
  rewrite (add_release_cases _ _ _ _ _ _ _ _ _ _ _ _ Hfind Hlog Hbump).
  apply String.eqb_neq in Hadv. rewrite Hadv.
  rewrite (tag_not_listed _ _ Htag). cbn [fst].
  rewrite !filter_app, hosting_calls_no_commit.
  destruct (Release.dry_run rt).
  - reflexivity.
  - rewrite filter_app, updater_calls_no_commit. reflexivity.
Qed.

End ReleaseFlow.

(** C1, as stated, fails: a dry run of a project at 1.2.3 whose log has a
    feature still calls [git.commit], [git.annotated_tag] and
    [hosting.add_release]. *)
Lemma add_release_dry_run_counterexample :
  filter mutating
    (fst (Example.add_release "1.2.3" ["v1.2.2"; "v1.2.3"] 3 true))
  = [Release.git_add_files ["CHANGELOG.rst"; "CMakeLists.txt"];
     Release.git_commit
       ("chore: release 1.3.0" ++ Str.NL ++ Str.NL ++ "- feat: something");
     Release.git_annotated_tag "v1.3.0" "release 1.3.0";
     Release.hosting_add_release "- feat: something"
       (tagged_setup ["v1.2.2"; "v1.2.3"] false "1.3.0") false].
Proof. reflexivity. Qed.

Lemma add_release_dry_run_witness :
  Example.add_release "1.2.3" ["v1.2.2"; "v1.2.3"] 3 true =
  ([Release.git_tag_list;
    Release.git_get_log (initial_setup ["v1.2.2"; "v1.2.3"] false);
    Release.suite_get_version_file_path;
    Release.git_add_files ["CHANGELOG.rst"; "CMakeLists.txt"];
    Release.git_commit
      ("chore: release 1.3.0" ++ Str.NL ++ Str.NL ++ "- feat: something");
    Release.git_annotated_tag "v1.3.0" "release 1.3.0";
    Release.hosting_add_release "- feat: something"
      (tagged_setup ["v1.2.2"; "v1.2.3"] false "1.3.0") false],
   Ok tt).
Proof.
  refine (@add_release_dry_run five_ranks string
            Example.format_commit_message Example.version_updaters
            (Example.project_suites_find "1.2.3")
            {| Release.dry_run := true |} None false false
            Example.generator (Example.git ["v1.2.2"; "v1.2.3"] 3)
            Example.hosting Example.suite {| Release.version := "1.2.3" |}
            "- feat: something" 3%Z "1.3.0"
            eq_refl eq_refl eq_refl eq_refl _ _).
  - discriminate.
  - simpl. intros [H|[H|[]]]; discriminate.
Defined.

(** C3, as stated, fails: for a project at 1.0.0 with a benign log and the
    tag v1.0.0 listed, the candidate tag is among the tags, yet the run ends
    with [VersionNotAdvancing] and nothing is reported on the fatal
    channel. *)
Lemma add_release_validation_counterexample :
  In "v1.0.0" ["v0.9.0"; "v1.0.0"]
  /\ Example.add_release "1.0.0" ["v0.9.0"; "v1.0.0"] 0 false =
     ([Release.git_tag_list;
       Release.git_get_log (initial_setup ["v0.9.0"; "v1.0.0"] false)],
      Raise (VersionNotAdvancing "1.0.0")).
Proof. split; [simpl; tauto|reflexivity]. Qed.

Lemma add_release_validation_witness :
  Example.add_release "1.0.0" ["v2.0.0"] 4 false =
  ([Release.git_tag_list; Release.git_get_log (initial_setup ["v2.0.0"] false);
    Release.rt_fatal "Tag v2.0.0 already exists."],
   Raise (SystemExit "Tag v2.0.0 already exists.")).
Proof.
  refine (proj1 (proj2
            (@add_release_validation five_ranks string
               Example.format_commit_message Example.version_updaters
               (Example.project_suites_find "1.0.0")
               {| Release.dry_run := false |} None false false
               Example.generator (Example.git ["v2.0.0"] 4)
               Example.hosting Example.suite {| Release.version := "1.0.0" |}
               "- feat: something" 4%Z "2.0.0"
               eq_refl eq_refl eq_refl)) _ _).
  - discriminate.
  - simpl. tauto.
Defined.

(** C4, as stated, fails: the message of the commit is not
    [release 1.3.0] followed by the formatted changelog, it starts with
    [chore: ]. *)
Lemma add_release_commit_message_counterexample :
  let trace :=
    fst (Example.add_release "1.2.3" ["v1.2.2"; "v1.2.3"] 3 false) in
  In (Release.git_commit
        ("chore: release 1.3.0"
         ++ Example.format_commit_message "- feat: something")) trace
  /\ ~ In (Release.git_commit
             ("release 1.3.0"
              ++ Example.format_commit_message "- feat: something")) trace.
Proof.
  split.
  - simpl. tauto.
  - simpl. intros H.
    repeat (destruct H as [H|H]; [discriminate H|]). exact H.
Qed.

Lemma add_release_commit_message_witness :
  filter commit_or_tag
    (fst (Example.add_release "1.2.3" ["v1.2.2"; "v1.2.3"] 3 false))
  = [Release.git_commit
       ("chore: release 1.3.0" ++ Str.NL ++ Str.NL ++ "- feat: something");
     Release.git_annotated_tag "v1.3.0" "release 1.3.0"].
Proof.
  refine (@add_release_commit_message five_ranks string
            Example.format_commit_message Example.version_updaters
            (Example.project_suites_find "1.2.3")
            {| Release.dry_run := false |} None false false
            Example.generator (Example.git ["v1.2.2"; "v1.2.3"] 3)
            Example.hosting Example.suite {| Release.version := "1.2.3" |}
            "- feat: something" 3%Z "1.3.0"
            eq_refl eq_refl eq_refl _ _).
  - discriminate.
  - simpl. intros [H|[H|[]]]; discriminate.
Defined.

(** ** [FileInfo.from_json] *)

Lemma take_drop (n : nat) (s : string) : Str.take n s ++ Str.drop n s = s.
Proof.
  revert s. induction n as [|n IH]; intros [|a s]; simpl; try reflexivity.
  now rewrite IH.
Qed.

Lemma splitext_append (p : string) :
  fst (OsPath.splitext p) ++ snd (OsPath.splitext p) = p.
Proof.
  unfold OsPath.splitext.
  destruct (Str.rfind "." p >? Str.rfind OsPath.sep p)%Z; simpl.
  - destruct (OsPath.all_dots _); simpl.
    + apply append_nil_r.
    + apply take_drop.
  - apply append_nil_r.
Qed.

Lemma replace_same (c : ascii) (s : string) :
  Str.replace c (String c "") s = s.
Proof.
  induction s as [|a s IH]; simpl; [reflexivity|].
  destruct (Ascii.eqb_spec a c) as [->|_]; simpl; now rewrite IH.
Qed.

(** C7.  The destination [FileInfo.from_json] resolves is the [path] of the
    entry found under the source path, rendered as a template against the
    context, whenever the entry has one, whatever the extension; without
    one it is the source path less its [.mustache] suffix when that is its
    extension, and the source path itself otherwise.  [is_mustache] tells
    whether the extension is [.mustache]. *)
Theorem from_json_destination (src : string) (filelist : PyDict.t FileEntry)
    (context : SettingsType) :
  let info := FileInfo.from_json src filelist context in
  let override :=
    match PyDict.get src filelist with
    | Some entry => entry_path entry
    | None => None
    end in
  FileInfo.src info = src
  /\ FileInfo.is_mustache info
     = String.eqb (snd (OsPath.splitext src)) ".mustache"
  /\ match override with
     | Some path => FileInfo.dst info = Chevron.render path context
     | None =>
         if FileInfo.is_mustache info
         then FileInfo.dst info ++ ".mustache" = src
         else FileInfo.dst info = src
     end.
Proof.
  cbv zeta. unfold FileInfo.from_json.
  pose proof (splitext_append src) as Hsplit.
  destruct (OsPath.splitext src) as [basename ext]. simpl in Hsplit.
  unfold OsPath.sep. rewrite !replace_same. cbn [snd].
  destruct (PyDict.get src filelist) as [entry|]; cbn.
  - destruct (entry_path entry) as [path|]; cbn.
    + rewrite replace_same. auto.
    + repeat split.
      destruct (String.eqb_spec ext ".mustache") as [->|_]; cbn; auto.
  - repeat split.
    destruct (String.eqb_spec ext ".mustache") as [->|_]; cbn; auto.
Qed.

(** ** The directory scan of [LayerInfo.from_fs] *)

(** C6: the scan keeps compiled files.  The test compares the pair
    [os.path.splitext(filename)] with the extensions, so it holds for no
    file name, and a layer with [mod.pyc] next to [a.txt] lists both; a
    [__pycache__] directory is skipped. *)
Theorem walk_keeps_compiled_files :
  (forall filename,
      py_in (let (b, e) := OsPath.splitext filename in PTuple b e)
        [PStr ".pyc"; PStr ".pyo"; PStr ".pyd"] = false)
  /\ LayerInfo.walk "/layers/base/" "/layers/base"
       (mkdir ["mod.pyc"; "a.txt"]
          [("__pycache__", mkdir ["a.cpython-312.pyc"] []);
           ("src", mkdir ["main.cpp"; "main.pyo"] [])])
     = ["mod.pyc"; "a.txt"; "src/main.cpp"; "src/main.pyo"].
Proof.
  split.
  - intros filename. destruct (OsPath.splitext filename). reflexivity.
  - reflexivity.
Qed.

(** ** The order of destinations *)

Lemma ascii_compare_refl (a : ascii) : Ascii.compare a a = Eq.
Proof. unfold Ascii.compare. apply N.compare_refl. Qed.

Lemma ascii_compare_lt_trans (a b c : ascii) :
  Ascii.compare a b = Lt -> Ascii.compare b c = Lt -> Ascii.compare a c = Lt.
Proof.
  unfold Ascii.compare. rewrite !N.compare_lt_iff. apply N.lt_trans.
Qed.

Lemma string_compare_refl (s : string) : String.compare s s = Eq.
Proof.
  induction s as [|a s IH]; simpl; [reflexivity|].
  now rewrite ascii_compare_refl.
Qed.

Lemma leb_refl (s : string) : String.leb s s = true.
Proof. unfold String.leb. now rewrite string_compare_refl. Qed.

Lemma leb_trans (a b c : string) :
  String.leb a b = true -> String.leb b c = true -> String.leb a c = true.
Proof.
  unfold String.leb. revert b c.
  induction a as [|x a IH]; intros [|y b] [|z c]; simpl; try congruence.
  destruct (Ascii.compare x y) eqn:Hxy; try congruence.
  - apply Ascii.compare_eq_iff in Hxy. subst y.
    destruct (Ascii.compare x z); try congruence. apply IH.
  - intros _. destruct (Ascii.compare y z) eqn:Hyz; try congruence.
    + apply Ascii.compare_eq_iff in Hyz. subst z. now rewrite Hxy.
    + now rewrite (ascii_compare_lt_trans _ _ _ Hxy Hyz).
Qed.

Lemma insert_perm (x : FileInfo.t) (l : list FileInfo.t) :
  Permutation (x :: l) (LayerInfo.insert x l).
Proof.
  induction l as [|y l IH]; simpl; [reflexivity|].
  destruct (String.leb _ _); [reflexivity|].
  rewrite perm_swap. now apply perm_skip.
Qed.

Lemma sort_perm (l : list FileInfo.t) : Permutation l (LayerInfo.sort l).
Proof.
  induction l as [|x l IH]; simpl; [reflexivity|].
  rewrite <- insert_perm. now apply perm_skip.
Qed.

Lemma insert_sorted (x : FileInfo.t) (l : list FileInfo.t) :
  StronglySorted dst_le l -> StronglySorted dst_le (LayerInfo.insert x l).
Proof.
  induction 1 as [|y l Hl IH Hy]; simpl.
  - repeat constructor.
  - destruct (String.leb (FileInfo.dst x) (FileInfo.dst y)) eqn:Hxy.
    + constructor; [now constructor|].
      constructor; [exact Hxy|].
      eapply Forall_impl; [|exact Hy].
      intros z Hz. eapply leb_trans; eassumption.
    + constructor; [exact IH|].
      rewrite <- insert_perm. constructor; [|exact Hy].
      destruct (String.leb_total (FileInfo.dst x) (FileInfo.dst y));
        [congruence|assumption].
Qed.

Lemma sort_sorted (l : list FileInfo.t) :
  StronglySorted dst_le (LayerInfo.sort l).
Proof.
  induction l as [|x l IH]; simpl; [constructor|].
  now apply insert_sorted.
Qed.

Lemma filter_sorted (p : FileInfo.t -> bool) (l : list FileInfo.t) :
  StronglySorted dst_le l -> StronglySorted dst_le (filter p l).
Proof.
  induction 1 as [|y l Hl IH Hy]; simpl; [constructor|].
  destruct (p y); [|exact IH].
  constructor; [exact IH|].
  apply Forall_forall. intros z Hz. apply filter_In in Hz as [Hz _].
  rewrite Forall_forall in Hy. now apply Hy.
Qed.

Lemma nodup_map_injective {A B} (f : A -> B) (l : list A) (a b : A) :
  NoDup (map f l) -> In a l -> In b l -> f a = f b -> a = b.
Proof.
  induction l as [|x l IH]; cbn [map]; intros Hnd Ha Hb Heq;
    [contradiction|].
  inversion Hnd as [|? ? Hnotin Hnd']; subst.
  destruct Ha as [->|Ha], Hb as [->|Hb].
  - reflexivity.
  - exfalso. apply Hnotin. rewrite Heq. now apply in_map.
  - exfalso. apply Hnotin. rewrite <- Heq. now apply in_map.
  - now apply IH.
Qed.

(** A sorted list with pairwise distinct destinations is the only sorted
    arrangement of its files. *)
Lemma sorted_unique (l1 l2 : list FileInfo.t) :
  StronglySorted dst_le l1 ->
  StronglySorted dst_le l2 ->
  Permutation l1 l2 ->
  NoDup (map FileInfo.dst l1) ->
  l1 = l2.
Proof.
  revert l2. induction l1 as [|x l1 IH]; intros l2 Hs1 Hs2 Hperm Hnd.
  - apply Permutation_nil in Hperm. now subst.
  - destruct l2 as [|y l2].
    + apply Permutation_sym, Permutation_nil in Hperm. discriminate.
    + inversion Hs1 as [|? ? Hs1' Hx]; subst.
      inversion Hs2 as [|? ? Hs2' Hy]; subst.
      assert (Hxy : x = y).
      { assert (Hx2 : In x (y :: l2))
          by (eapply Permutation_in; [exact Hperm|now left]).
        assert (Hy1 : In y (x :: l1))
          by (eapply Permutation_in;
              [apply Permutation_sym; exact Hperm|now left]).
        destruct Hx2 as [->|Hx2]; [reflexivity|].
        destruct Hy1 as [->|Hy1]; [reflexivity|].
        rewrite Forall_forall in Hx, Hy.
        apply (nodup_map_injective FileInfo.dst (x :: l1));
          [exact Hnd|now left|now right|].
        apply String.leb_antisym; [now apply Hx|now apply Hy]. }
      subst y. f_equal.
      apply IH; try assumption.
      * now apply Permutation_cons_inv in Hperm.
      * now inversion Hnd.
Qed.

(** With pairwise distinct destinations, the sorted list does not depend on
    the order in which the directory scan met the files. *)
Lemma sort_order_independent (l1 l2 : list FileInfo.t) :
  Permutation l1 l2 ->
  NoDup (map FileInfo.dst l1) ->
  LayerInfo.sort l1 = LayerInfo.sort l2.
Proof.
  intros Hperm Hnd. apply sorted_unique; try apply sort_sorted.
  - rewrite <- (sort_perm l1), <- (sort_perm l2). exact Hperm.
  - eapply Permutation_NoDup; [|exact Hnd].
    apply Permutation_map, sort_perm.
Qed.

(** ** [LayerInfo.from_fs] and [LayerInfo.run] *)

Lemma from_fs_unfold (fs : FileSystem) (layer_dir : string)
    (context : SettingsType) (layer : LayerInfo.t) :
  LayerInfo.from_fs fs layer_dir context = Ok layer ->
  exists layer_info,
    read_json fs (layer_dir ++ ".json") = Ok layer_info
    /\ let sorted :=
         LayerInfo.sort (candidates fs layer_dir layer_info context) in
       let allowed_files :=
         filter (fun path => negb (String.eqb path ""))
           (Str.split Str.nl
              (Chevron.render
                 (LayerInfo.template
                    {| LayerInfo.root := layer_dir;
                       LayerInfo.files := sorted;
                       LayerInfo.when := json_when layer_info |})
                 context)) in
       layer =
       {| LayerInfo.root := layer_dir;
          LayerInfo.files :=
            filter
              (fun file =>
                 existsb (String.eqb (FileInfo.dst file)) allowed_files)
              sorted;
          LayerInfo.when := json_when layer_info |}.
Proof.
  unfold LayerInfo.from_fs. intros H.
  destruct (read_json fs (layer_dir ++ ".json")) as [layer_info|e];
    [|discriminate].
  exists layer_info. split; [reflexivity|].
  cbn [rbind] in H. injection H as <-. reflexivity.
Qed.

Lemma file_run_materialized (fs : FileSystem) (file : FileInfo.t)
    (root : string) (rt : Config.Runtime) (context : SettingsType) :
  Config.dry_run rt = false ->
  materialized (FileInfo.run fs file root rt context)
  = [abspath fs (FileInfo.dst file)].
Proof.
  intros Hdry. unfold FileInfo.run. rewrite Hdry.
  destruct (Config.silent rt), (Config.use_color rt),
    (FileInfo.is_mustache file); reflexivity.
Qed.

Lemma materialized_app (a b : list io) :
  materialized (a ++ b) = (materialized a ++ materialized b)%list.
Proof. unfold materialized. apply flat_map_app. Qed.

(** C8.  The files of a layer built by [LayerInfo.from_fs] are sorted by
    destination path, in the lexicographic order of strings; a run of the
    layer that is not dry writes or copies to the destinations in exactly the
    order of that list; and building the layer again from the same directory
    and context gives the same list, also when the directory lists its files
    in another order, as long as the destinations are pairwise distinct. *)
Theorem from_fs_order (fs : FileSystem) (layer_dir : string)
    (context : SettingsType) (layer : LayerInfo.t) :
  LayerInfo.from_fs fs layer_dir context = Ok layer ->
  StronglySorted dst_le (LayerInfo.files layer)
  /\ (forall rt,
         Config.dry_run rt = false ->
         materialized (LayerInfo.run fs layer rt context)
         = map (fun file => abspath fs (FileInfo.dst file))
             (LayerInfo.files layer))
  /\ (forall again,
         LayerInfo.from_fs fs layer_dir context = Ok again ->
         LayerInfo.files again = LayerInfo.files layer)
  /\ (forall fs' layer_info again,
         read_json fs (layer_dir ++ ".json") = Ok layer_info ->
         read_json fs' (layer_dir ++ ".json") = Ok layer_info ->
         Permutation (candidates fs' layer_dir layer_info context)
           (candidates fs layer_dir layer_info context) ->
         NoDup
           (map FileInfo.dst (candidates fs layer_dir layer_info context)) ->
         LayerInfo.from_fs fs' layer_dir context = Ok again ->
         LayerInfo.files again = LayerInfo.files layer).
Proof.
  intros Hfs. split; [|split; [|split]].
  - apply from_fs_unfold in Hfs as [layer_info [_ ->]]. cbn.
    apply filter_sorted, sort_sorted.
  - intros rt Hdry. unfold LayerInfo.run.
    rewrite !materialized_app.
    replace (materialized
               (if negb (Config.silent rt)
                then if Config.use_color rt
                     then [print (ESC ++ "[2;30m[" ++ LayerInfo.pkg layer
                                  ++ ":" ++ LayerInfo.name layer ++ "]"
                                  ++ ESC ++ "[m")]
                     else [print ("[" ++ LayerInfo.pkg layer ++ ":"
                                  ++ LayerInfo.name layer ++ "]")]
                else [])) with (@nil string)
      by (destruct (Config.silent rt), (Config.use_color rt); reflexivity).
    replace (materialized
               (if negb (Config.silent rt) then [print ""] else []))
      with (@nil string) by (destruct (Config.silent rt); reflexivity).
    rewrite app_nil_r. cbn [app].
    induction (LayerInfo.files layer) as [|file files IH];
      [reflexivity|].
    cbn [flat_map map]. rewrite materialized_app, IH.
    now rewrite (file_run_materialized _ _ _ _ _ Hdry).
  - intros again Hagain. congruence.
  - intros fs' layer_info again Hjson Hjson' Hperm Hnd Hagain.
    apply from_fs_unfold in Hfs as [info [Hinfo ->]].
    apply from_fs_unfold in Hagain as [info' [Hinfo' ->]].
    assert (info = layer_info) by congruence.
    assert (info' = layer_info) by congruence.
    subst info info'. cbn [LayerInfo.files].
    rewrite (sort_order_independent _ _ Hperm).
    + reflexivity.
    + eapply Permutation_NoDup; [|exact Hnd].
      apply Permutation_map, Permutation_sym, Hperm.
Qed.

Lemma from_fs_order_witness :
  exists layer,
    LayerInfo.from_fs ExampleLayers.fs "/pkg/template/layers/base"
      ExampleLayers.context = Ok layer
    /\ map FileInfo.dst (LayerInfo.files layer)
       = ["README.md"; "inc/proj/version.h"; "out.txt"; "out.txt"]
    /\ StronglySorted dst_le (LayerInfo.files layer)
    /\ materialized
         (LayerInfo.run ExampleLayers.fs layer ExampleLayers.rt
            ExampleLayers.context)
       = ["/work/README.md"; "/work/inc/proj/version.h"; "/work/out.txt";
          "/work/out.txt"].
Proof.
  eexists. split; [reflexivity|]. split; [reflexivity|].
  pose proof (from_fs_order ExampleLayers.fs "/pkg/template/layers/base"
                ExampleLayers.context _ eq_refl) as [Hsorted [Hrun _]].
  split; [exact Hsorted|].
  rewrite (Hrun ExampleLayers.rt eq_refl). reflexivity.
Defined.

(** ** [gather_package_layers] *)

Lemma rmap_ok_in {A B} (f : A -> result B) (l : list A) (out : list B) :
  rmap f l = Ok out ->
  forall y, In y out -> exists x, In x l /\ f x = Ok y.
Proof.
  revert out. induction l as [|x l IH]; simpl; intros out H y Hy.
  - injection H as <-. contradiction.
  - destruct (f x) as [b|e] eqn:Hfx; [|discriminate].
    cbn [rbind] in H.
    destruct (rmap f l) as [bs|e]; [|discriminate].
    cbn [rbind] in H. injection H as <-.
    destruct Hy as [<-|Hy].
    + exists x. auto.
    + destruct (IH bs eq_refl y Hy) as [x' [Hin Hfx']].
      exists x'. auto.
Qed.

Section GatherLayers.

Variable template_dir : string.

(** C9.  Every layer in the list [gather_package_layers] returns has at
    least one file, and comes from [LayerInfo.from_fs] on one of the layer
    directories; a layer that [LayerInfo.from_fs] leaves without files is
    not in the list. *)
Theorem gather_drops_empty_layers (fs : FileSystem) (package_root : string)
    (context : SettingsType) (layers : list LayerInfo.t) :
  gather_package_layers template_dir fs package_root context = Ok layers ->
  (forall layer,
      In layer layers ->
      LayerInfo.files layer <> []
      /\ exists layer_dir,
           In layer_dir (layer_dirs template_dir fs package_root)
           /\ LayerInfo.from_fs fs layer_dir context = Ok layer)
  /\ (forall layer_dir layer,
         LayerInfo.from_fs fs layer_dir context = Ok layer ->
         LayerInfo.files layer = [] ->
         ~ In layer layers).
Proof.
  unfold gather_package_layers, layer_dirs. intros H.
  destruct (tree_at fs _) as [[files dirs]|]; [|discriminate].
  destruct (rmap _ _) as [all|e] eqn:Hall; [|discriminate].
  cbn [rbind] in H. injection H as <-.
  assert (Hnonempty : forall layer,
             In layer
               (filter
                  (fun layer =>
                     (0 <? List.length (LayerInfo.files layer))%nat) all)
             -> LayerInfo.files layer <> []).
  { intros layer Hin. apply filter_In in Hin as [_ Hlen].
    intros Hnil. rewrite Hnil in Hlen. discriminate. }
  split.
  - intros layer Hin. split; [now apply Hnonempty|].
    apply filter_In in Hin as [Hin _].
    exact (rmap_ok_in _ _ _ Hall layer Hin).
  - intros layer_dir layer _ Hnil Hin.
    now apply (Hnonempty layer Hin).
Qed.

End GatherLayers.

Lemma gather_drops_empty_layers_witness :
  exists layers,
    gather_package_layers "template" ExampleLayers.fs "/pkg"
      ExampleLayers.context = Ok layers
    /\ map LayerInfo.root layers = ["/pkg/template/layers/base"]
    /\ forall layer, In layer layers -> LayerInfo.files layer <> [].
Proof.
  eexists. split; [reflexivity|]. split; [reflexivity|].
  intros layer Hin.
  exact (proj1 (proj1 (gather_drops_empty_layers "template" ExampleLayers.fs
                         "/pkg" ExampleLayers.context _ eq_refl)
                  layer Hin)).
Defined.

(** ** Rendering the template of a layer *)

Lemma split_aux_line (c : ascii) (line rest : string) :
  Str.mem c line = false ->
  Str.split_aux c (line ++ String c rest)
  = (line, fst (Str.split_aux c rest) :: snd (Str.split_aux c rest)).
Proof.
  induction line as [|a line IH]; simpl; intros H.
  - rewrite Ascii.eqb_refl. now destruct (Str.split_aux c rest).
  - apply orb_false_iff in H as [Ha Hline].
    rewrite (IH Hline), Ha. reflexivity.
Qed.

Lemma split_line (c : ascii) (line rest : string) :
  Str.mem c line = false ->
  Str.split c (line ++ String c rest) = line :: Str.split c rest.
Proof.
  intros H. unfold Str.split. rewrite (split_aux_line _ _ _ H).
  now destruct (Str.split_aux c rest).
Qed.

Lemma split_not_nil (c : ascii) (s : string) : Str.split c s <> [].
Proof. unfold Str.split. now destruct (Str.split_aux c s). Qed.

Lemma mem_append (c : ascii) (a b : string) :
  Str.mem c (a ++ b) = Str.mem c a || Str.mem c b.
Proof.
  induction a as [|x a IH]; simpl; [reflexivity|].
  now rewrite IH, orb_assoc.
Qed.

Lemma take_append (a b : string) : Str.take (String.length a) (a ++ b) = a.
Proof. induction a as [|x a IH]; simpl; [now destruct b|now rewrite IH]. Qed.

Lemma drop_append (a b : string) : Str.drop (String.length a) (a ++ b) = b.
Proof. induction a as [|x a IH]; simpl; [reflexivity|exact IH]. Qed.

Lemma tag_of_line_open (w : string) :
  Chevron.tag_of_line ("{{#" ++ w ++ "}}") = Some (Chevron.Open w).
Proof.
  unfold Chevron.tag_of_line.
  change (Str.drop 3 ("{{#" ++ w ++ "}}")) with (w ++ "}}").
  change (String.length ("{{#" ++ w ++ "}}"))
    with (3 + String.length (w ++ "}}")).
  rewrite length_append. cbn [String.length].
  replace (String.length w + 2 - 2) with (String.length w) by lia.
  rewrite drop_append, take_append.
  replace (3 + 2 <=? 3 + (String.length w + 2))%nat with true
    by (symmetry; apply Nat.leb_le; lia).
  reflexivity.
Qed.

Lemma tag_of_line_close (w : string) :
  Chevron.tag_of_line ("{{/" ++ w ++ "}}") = Some (Chevron.Close w).
Proof.
  unfold Chevron.tag_of_line.
  change (Str.drop 3 ("{{/" ++ w ++ "}}")) with (w ++ "}}").
  change (String.length ("{{/" ++ w ++ "}}"))
    with (3 + String.length (w ++ "}}")).
  rewrite length_append. cbn [String.length].
  replace (String.length w + 2 - 2) with (String.length w) by lia.
  rewrite drop_append, take_append.
  replace (3 + 2 <=? 3 + (String.length w + 2))%nat with true
    by (symmetry; apply Nat.leb_le; lia).
  reflexivity.
Qed.

Lemma tag_of_line_plain (s : string) :
  Str.mem "{" s = false -> Chevron.tag_of_line s = None.
Proof.
  intros H. unfold Chevron.tag_of_line.
  destruct s as [|a s]; [reflexivity|].
  cbn [Str.mem] in H. apply orb_false_iff in H as [Ha _].
  assert (Hopen : Str.startswith "{{#" (String a s) = false).
  { cbn [Str.startswith]. rewrite Ascii.eqb_sym, Ha. reflexivity. }
  assert (Hclose : Str.startswith "{{/" (String a s) = false).
  { cbn [Str.startswith]. rewrite Ascii.eqb_sym, Ha. reflexivity. }
  rewrite Hopen, Hclose. now destruct (_ && _).
Qed.

Lemma interpolate_plain (scopes : list Node) (s : string) :
  Str.mem "{" s = false -> Chevron.interpolate scopes None s = s.
Proof.
  induction s as [|a s IH]; intros H; [reflexivity|].
  cbn [Str.mem] in H. apply orb_false_iff in H as [Ha Hs].
  cbn [Chevron.interpolate].
  destruct s as [|b s]; [reflexivity|].
  rewrite Ha. cbn [andb]. now rewrite (IH Hs).
Qed.

Lemma unlines_app (a b : list string) :
  unlines (a ++ b) = unlines a ++ unlines b.
Proof.
  unfold unlines. induction a as [|x a IH]; cbn [app map Str.concat].
  - reflexivity.
  - rewrite IH, !append_assoc. reflexivity.
Qed.

Lemma unlines_cons (line : string) (lines : list string) :
  unlines (line :: lines) = (line ++ Str.NL) ++ unlines lines.
Proof. reflexivity. Qed.

Lemma split_unlines (lines : list string) (rest : string) :
  Forall (fun line => Str.mem Str.nl line = false) lines ->
  Str.split Str.nl (unlines lines ++ rest)
  = (lines ++ Str.split Str.nl rest)%list.
Proof.
  unfold unlines.
  induction 1 as [|line lines Hline _ IH]; cbn [app map Str.concat].
  - reflexivity.
  - rewrite !append_assoc. cbn [Str.NL append].
    rewrite (split_line _ _ _ Hline). now rewrite IH.
Qed.

Lemma file_template_unlines (file : FileInfo.t) :
  FileInfo.template file = unlines (file_lines file).
Proof.
  unfold FileInfo.template, file_lines, unlines.
  destruct (FileInfo.when file) as [w|]; [destruct (Str.truthy w)|];
    cbn [map Str.concat]; rewrite ?append_assoc, ?append_nil_r;
    cbn [append]; rewrite ?append_assoc; reflexivity.
Qed.

Lemma concat_templates (files : list FileInfo.t) :
  Str.concat (map FileInfo.template files)
  = unlines (flat_map file_lines files).
Proof.
  induction files as [|file files IH]; cbn [map Str.concat flat_map].
  - reflexivity.
  - now rewrite unlines_app, IH, file_template_unlines.
Qed.

Lemma layer_template_unlines (layer : LayerInfo.t) :
  LayerInfo.template layer = unlines (layer_lines layer).
Proof.
  unfold LayerInfo.template, layer_lines. rewrite concat_templates.
  destruct (LayerInfo.when layer) as [w|]; [destruct (Str.truthy w)|];
    cbv zeta; cbn [append]; rewrite ?append_nil_r; try reflexivity.
  rewrite unlines_cons, unlines_app, unlines_cons.
  change (unlines []) with "".
  rewrite ?append_assoc, ?append_nil_r.
  cbn [append]. rewrite ?append_assoc. reflexivity.
Qed.


Lemma render_lines_last (scopes : list Node) :
  Chevron.render_lines scopes [""] = "".
Proof. cbn. now destruct (Chevron.hides scopes). Qed.

Lemma render_lines_cons (scopes : list Node) (line : string)
    (rest : list string) :
  Chevron.render_lines scopes (line :: rest)
  = match Chevron.tag_of_line line with
    | Some (Chevron.Open key) =>
        Chevron.render_lines
          ((if Chevron.hides scopes then Leaf (VBool false)
            else Chevron.section_scope scopes key) :: scopes)
          rest
    | Some (Chevron.Close _) => Chevron.render_lines (tl scopes) rest
    | None =>
        (if Chevron.hides scopes then ""
         else Chevron.interpolate scopes None line
              ++ match rest with [] => "" | _ => Str.NL end)
        ++ Chevron.render_lines scopes rest
    end.
Proof. reflexivity. Qed.

Lemma truthy_section_scope (scopes : list Node) (key : string) :
  Chevron.truthy (Some (Chevron.section_scope scopes key))
  = Chevron.shown_in scopes key.
Proof.
  unfold Chevron.section_scope, Chevron.shown_in.
  now destruct (Chevron.lookup _ _).
Qed.

Lemma hides_cons (x : Node) (scopes : list Node) :
  scopes <> [] ->
  Chevron.hides (x :: scopes) = negb (Chevron.truthy (Some x)).
Proof. destruct scopes; [contradiction|reflexivity]. Qed.

(** What a file adds to the rendering: its destination, on a line, when no
    section hides it and its own condition holds where it is met. *)
Lemma render_file_lines (scopes : list Node) (file : FileInfo.t)
    (rest : list string) :
  scopes <> [] ->
  rest <> [] ->
  Str.mem "{" (FileInfo.dst file) = false ->
  Chevron.render_lines scopes (file_lines file ++ rest)
  = (if negb (Chevron.hides scopes)
        && condition_in scopes (FileInfo.when file)
     then FileInfo.dst file ++ Str.NL else "")
    ++ Chevron.render_lines scopes rest.
Proof.
  intros Hscopes Hrest Hdst. unfold file_lines, condition_in.
  assert (Hplain : forall tail,
             tail <> [] ->
             forall s,
             Chevron.render_lines s (FileInfo.dst file :: tail)
             = (if Chevron.hides s then ""
                else FileInfo.dst file ++ Str.NL)
               ++ Chevron.render_lines s tail).
  { intros tail Htail s. rewrite render_lines_cons.
    rewrite (tag_of_line_plain _ Hdst), (interpolate_plain _ _ Hdst).
    destruct tail; [contradiction|reflexivity]. }
  destruct (FileInfo.when file) as [w|]; [destruct (Str.truthy w)|].
  - cbn [app]. rewrite render_lines_cons, tag_of_line_open.
    rewrite Hplain by discriminate.
    rewrite render_lines_cons, tag_of_line_close. cbn [tl].
    rewrite (hides_cons _ scopes Hscopes).
    destruct (Chevron.hides scopes).
    + reflexivity.
    + rewrite truthy_section_scope. cbn [negb andb].
      now destruct (Chevron.shown_in scopes w).
  - cbn [app]. rewrite (Hplain rest Hrest), andb_true_r.
    now destruct (Chevron.hides scopes).
  - cbn [app]. rewrite (Hplain rest Hrest), andb_true_r.
    now destruct (Chevron.hides scopes).
Qed.

Lemma render_files_lines (scopes : list Node) (files : list FileInfo.t)
    (rest : list string) :
  scopes <> [] ->
  rest <> [] ->
  Forall (fun file => Str.mem "{" (FileInfo.dst file) = false) files ->
  Chevron.render_lines scopes (flat_map file_lines files ++ rest)
  = unlines
      (map FileInfo.dst
         (filter
            (fun file =>
               negb (Chevron.hides scopes)
               && condition_in scopes (FileInfo.when file))
            files))
    ++ Chevron.render_lines scopes rest.
Proof.
  intros Hscopes Hrest. induction 1 as [|file files Hfile _ IH].
  - reflexivity.
  - cbn [flat_map filter]. rewrite <- app_assoc.
    rewrite render_file_lines;
      [|exact Hscopes|now destruct (flat_map _ _), rest|exact Hfile].
    rewrite IH.
    destruct (negb (Chevron.hides scopes)
              && condition_in scopes (FileInfo.when file)).
    + cbn [map]. rewrite unlines_cons, !append_assoc. reflexivity.
    + reflexivity.
Qed.

(** The rendering of the template of a layer: the destinations of the files
    whose own condition, met inside the section of the layer, and the
    layer's both hold, one to a line. *)
Lemma render_layer_template (context : SettingsType) (layer : LayerInfo.t) :
  plain_when (LayerInfo.when layer) ->
  Forall
    (fun file =>
       plain (FileInfo.dst file) /\ plain_when (FileInfo.when file))
    (LayerInfo.files layer) ->
  Str.split Str.nl (Chevron.render (LayerInfo.template layer) context)
  = (map FileInfo.dst
       (filter
          (fun file =>
             condition context (LayerInfo.when layer)
             && condition_in
                  (layer_scopes context (LayerInfo.when layer))
                  (FileInfo.when file))
          (LayerInfo.files layer))
     ++ [""])%list.
Proof.
  intros Hwhen Hfiles.
  assert (Hbrace : Forall (fun file => Str.mem "{" (FileInfo.dst file) = false)
                     (LayerInfo.files layer)).
  { eapply Forall_impl; [|exact Hfiles]. intros file [[_ [H _]] _]. exact H. }
  assert (Hno_nl : forall w, plain w -> Str.mem Str.nl w = false)
    by (intros w [H _]; exact H).
  assert (Hlines : Forall (fun line => Str.mem Str.nl line = false)
                     (flat_map file_lines (LayerInfo.files layer))).
  { apply Forall_flat_map. eapply Forall_impl; [|exact Hfiles].
    intros file [Hdst Hw]. unfold file_lines.
    destruct (FileInfo.when file) as [w|]; [destruct (Str.truthy w)|];
      repeat constructor; try (now apply Hno_nl);
      change (Str.mem Str.nl (String "{" (String "{" (String "#" (w ++ "}}"))))
              = false) ||
      change (Str.mem Str.nl (String "{" (String "{" (String "/" (w ++ "}}"))))
              = false);
      cbn [Str.mem]; rewrite mem_append, (Hno_nl w Hw); reflexivity. }
  assert (Hout : forall p : FileInfo.t -> bool,
             Str.split Str.nl
               (unlines (map FileInfo.dst (filter p (LayerInfo.files layer))))
             = (map FileInfo.dst (filter p (LayerInfo.files layer))
                ++ [""])%list).
  { intros p.
    rewrite <- (append_nil_r (unlines _)). rewrite split_unlines;
      [reflexivity|].
    apply Forall_forall. intros d Hd. apply in_map_iff in Hd as [f [<- Hf]].
    apply filter_In in Hf as [Hf _]. rewrite Forall_forall in Hfiles.
    now apply Hno_nl, (Hfiles f Hf). }
  unfold Chevron.render. rewrite layer_template_unlines.
  rewrite <- (append_nil_r (unlines _)).
  unfold layer_lines.
  destruct (LayerInfo.when layer) as [w|] eqn:Ew;
    [destruct (Str.truthy w) eqn:Et|].
  - rewrite split_unlines.
    2:{ constructor.
        - change (Str.mem Str.nl
                    (String "{" (String "{" (String "#" (w ++ "}}"))))
                  = false).
          cbn [Str.mem]. rewrite mem_append, (Hno_nl w Hwhen). reflexivity.
        - apply Forall_app. split; [exact Hlines|].
          constructor; [|constructor].
          change (Str.mem Str.nl
                    (String "{" (String "{" (String "/" (w ++ "}}"))))
                  = false).
          cbn [Str.mem]. rewrite mem_append, (Hno_nl w Hwhen). reflexivity. }
    change (Str.split Str.nl "") with [""].
    cbn [app]. rewrite render_lines_cons, tag_of_line_open.
    cbn [Chevron.hides]. rewrite <- app_assoc.
    rewrite render_files_lines by (discriminate || exact Hbrace).
    cbn [app]. rewrite render_lines_cons, tag_of_line_close. cbn [tl].
    rewrite render_lines_last, append_nil_r.
    rewrite Hout. f_equal. f_equal. apply filter_ext. intros file.
    unfold condition, layer_scopes. rewrite Et.
    cbn [Chevron.hides]. rewrite truthy_section_scope, negb_involutive.
    reflexivity.
  - rewrite split_unlines by exact Hlines.
    change (Str.split Str.nl "") with [""].
    rewrite render_files_lines by (discriminate || exact Hbrace).
    rewrite render_lines_last, append_nil_r.
    rewrite Hout. f_equal. f_equal. apply filter_ext. intros file.
    unfold condition, layer_scopes. rewrite Et. reflexivity.
  - rewrite split_unlines by exact Hlines.
    change (Str.split Str.nl "") with [""].
    rewrite render_files_lines by (discriminate || exact Hbrace).
    rewrite render_lines_last, append_nil_r.
    rewrite Hout. reflexivity.
Qed.

Lemma in_strings (x : string) (l : list string) :
  existsb (String.eqb x) l = true <-> In x l.
Proof.
  rewrite existsb_exists. split.
  - intros [y [Hin Heq]]. apply String.eqb_eq in Heq. now subst.
  - intros Hin. exists x. split; [assumption|apply String.eqb_refl].
Qed.

Lemma in_sort (file : FileInfo.t) (l : list FileInfo.t) :
  In file (LayerInfo.sort l) <-> In file l.
Proof.
  split; apply Permutation_in;
    [apply Permutation_sym|]; apply sort_perm.
Qed.

(** C5, as stated, fails: in the layer [base] the source [b.txt] is
    retained although its own condition [Y] does not hold; [a.txt] has the
    same destination, and its condition holds. *)
Lemma from_fs_retains_counterexample :
  exists layer,
    LayerInfo.from_fs ExampleLayers.fs "/pkg/template/layers/base"
      ExampleLayers.context = Ok layer
    /\ In {| FileInfo.src := "b.txt"; FileInfo.dst := "out.txt";
             FileInfo.is_mustache := false; FileInfo.when := Some "Y" |}
         (LayerInfo.files layer)
    /\ Chevron.shown ExampleLayers.context "Y" = false
    /\ Chevron.shown ExampleLayers.context "X" = true.
Proof.
  eexists. split; [reflexivity|].
  split; [|split; reflexivity].
  simpl. tauto.
Qed.

(** ** Dictionaries *)

Section DictLemmas.

Context {V : Type}.
Implicit Types (d : PyDict.t V) (k : string) (v : V).

Lemma get_set_same k v d : PyDict.get k (PyDict.set k v d) = Some v.
Proof.
  induction d as [|[k' v'] d IH]; cbn [PyDict.set PyDict.get].
  - now rewrite String.eqb_refl.
  - destruct (String.eqb k' k) eqn:E; cbn [PyDict.get].
    + now rewrite String.eqb_refl.
    + now rewrite E.
Qed.

Lemma get_set_other k k' v d :
  k <> k' -> PyDict.get k' (PyDict.set k v d) = PyDict.get k' d.
Proof.
  intros Hne.
  induction d as [|[k0 v0] d IH]; cbn [PyDict.set PyDict.get].
  - apply String.eqb_neq in Hne. now rewrite Hne.
  - destruct (String.eqb_spec k0 k) as [->|Hk0]; cbn [PyDict.get].
    + apply String.eqb_neq in Hne. now rewrite Hne.
    + now rewrite IH.
Qed.

Lemma in_keys_set x k v d :
  In x (PyDict.keys (PyDict.set k v d)) -> x = k \/ In x (PyDict.keys d).
Proof.
  unfold PyDict.keys.
  induction d as [|[k0 v0] d IH]; cbn [PyDict.set map fst In].
  - intros [<-|[]]. now left.
  - destruct (String.eqb_spec k0 k) as [->|Hk0]; cbn [map fst In].
    + tauto.
    + intros [<-|H]; [tauto|]. destruct (IH H); tauto.
Qed.

Lemma nodup_set k v d :
  NoDup (PyDict.keys d) -> NoDup (PyDict.keys (PyDict.set k v d)).
Proof.
  unfold PyDict.keys.
  induction d as [|[k0 v0] d IH]; cbn [PyDict.set map fst]; intros Hnd.
  - repeat constructor. intros [].
  - inversion Hnd as [|? ? Hnotin Hnd']; subst.
    destruct (String.eqb_spec k0 k) as [->|Hk0]; cbn [map fst].
    + now constructor.
    + constructor; [|now apply IH].
      intros Hin. apply in_keys_set in Hin as [->|Hin]; [now apply Hk0|].
      now apply Hnotin.
Qed.

Lemma in_keys_del x k d :
  In x (PyDict.keys (PyDict.del k d)) -> In x (PyDict.keys d).
Proof.
  unfold PyDict.keys.
  induction d as [|[k0 v0] d IH]; cbn [PyDict.del map fst In]; [tauto|].
  destruct (String.eqb k0 k); cbn [map fst In]; tauto.
Qed.

Lemma nodup_del k d :
  NoDup (PyDict.keys d) ->
  NoDup (PyDict.keys (PyDict.del k d))
  /\ ~ In k (PyDict.keys (PyDict.del k d)).
Proof.
  unfold PyDict.keys.
  induction d as [|[k0 v0] d IH]; cbn [PyDict.del map fst]; intros Hnd.
  - split; [constructor|intros []].
  - inversion Hnd as [|? ? Hnotin Hnd']; subst.
    destruct (String.eqb_spec k0 k) as [->|Hk0]; cbn [map fst].
    + now split.
    + destruct (IH Hnd') as [IH1 IH2]. split.
      * constructor; [|exact IH1].
        intros Hin. now apply in_keys_del in Hin.
      * intros [H|H]; [now apply Hk0|now apply IH2].
Qed.

End DictLemmas.

(** ** [_fixup_context] *)

Lemma split_aux_single (c : ascii) (s h : string) :
  Str.split_aux c s = (h, []) -> h = s.
Proof.
  revert h. induction s as [|a s IH]; cbn [Str.split_aux]; intros h H.
  - now injection H as <-.
  - destruct (Str.split_aux c s) as [h' t'].
    destruct (Ascii.eqb a c); [discriminate|].
    injection H as <- ->. now rewrite (IH h' eq_refl).
Qed.

Lemma split_single (c : ascii) (s x : string) :
  Str.split c s = [x] -> x = s.
Proof.
  unfold Str.split. destruct (Str.split_aux c s) as [h t] eqn:E.
  intros H. injection H as <- ->. now apply (split_aux_single c).
Qed.

Lemma nest_cons (step next : string) (rest : list string) (value : Value)
    (d : SettingsType) :
  Interact.nest (step :: next :: rest) value d
  = PyDict.set step
      (Dict (Interact.nest (next :: rest) value
               (match PyDict.get step d with
                | Some (Dict inner) => inner
                | _ => []
                end)))
      d.
Proof. reflexivity. Qed.

Lemma nest_walk_same (path : list string) (value : Value)
    (d : SettingsType) :
  path <> [] ->
  Chevron.walk path (Dict (Interact.nest path value d)) = Some (Leaf value).
Proof.
  revert d. induction path as [|step rest IH]; intros d Hne;
    [contradiction|].
  destruct rest as [|next rest].
  - cbn [Interact.nest Chevron.walk]. now rewrite get_set_same.
  - rewrite nest_cons. cbn [Chevron.walk]. rewrite get_set_same.
    apply IH. discriminate.
Qed.

Lemma walk_empty_dict (path : list string) :
  path <> [] -> Chevron.walk path (Dict []) = None.
Proof. destruct path; [contradiction|reflexivity]. Qed.

Lemma walk_leaf (path : list string) (v : Value) :
  path <> [] -> Chevron.walk path (Leaf v) = None.
Proof. destruct path; [contradiction|reflexivity]. Qed.

(** Nesting one key leaves alone what is found along a path that neither
    extends the key's path nor is extended by it. *)
Lemma nest_walk_other (p q : list string) (value : Value)
    (d : SettingsType) :
  is_prefix p q = false ->
  is_prefix q p = false ->
  Chevron.walk q (Dict (Interact.nest p value d)) = Chevron.walk q (Dict d).
Proof.
  revert q d. induction p as [|step rest IH]; intros q d Hpq Hqp;
    [discriminate|].
  destruct q as [|k q']; [discriminate|].
  cbn [is_prefix] in Hpq, Hqp.
  destruct (String.eqb_spec step k) as [<-|Hne].
  - rewrite String.eqb_refl in Hqp. cbn [andb] in Hpq, Hqp.
    destruct rest as [|next rest]; [discriminate|].
    assert (Hq' : q' <> []) by (destruct q'; [discriminate|discriminate]).
    rewrite nest_cons. cbn [Chevron.walk]. rewrite get_set_same.
    rewrite (IH q' _ Hpq Hqp).
    destruct (PyDict.get step d) as [[v|inner]|].
    + now rewrite walk_empty_dict, walk_leaf.
    + reflexivity.
    + now rewrite walk_empty_dict.
  - destruct rest as [|next rest]; [cbn [Interact.nest]|rewrite nest_cons];
      cbn [Chevron.walk]; now rewrite (get_set_other _ _ _ _ Hne).
Qed.

Lemma nest_all_walk_other (q : list string) (settings : FlatSettings)
    (result : SettingsType) :
  (forall k, In k (PyDict.keys settings) ->
             is_prefix (Str.split "." k) q = false
             /\ is_prefix q (Str.split "." k) = false) ->
  Chevron.walk q (Dict (fold_left nest_step settings result))
  = Chevron.walk q (Dict result).
Proof.
  revert result.
  induction settings as [|[k v] settings IH]; intros result H;
    [reflexivity|].
  cbn [fold_left]. rewrite IH.
  - unfold nest_step. cbn [fst snd].
    destruct (H k (or_introl eq_refl)) as [H1 H2].
    now apply nest_walk_other.
  - intros k' Hk'. apply H. now right.
Qed.

Lemma nest_all_walk (settings : FlatSettings) (result : SettingsType) :
  NoDup (PyDict.keys settings) ->
  prefix_free settings ->
  forall k v,
    In (k, v) settings ->
    Chevron.walk (Str.split "." k)
      (Dict (fold_left nest_step settings result))
    = Some (Leaf v).
Proof.
  revert result.
  induction settings as [|[k0 v0] settings IH]; intros result Hnd Hfree k v
    Hin; [contradiction|].
  cbn [PyDict.keys map fst] in Hnd.
  inversion Hnd as [|? ? Hnotin Hnd']; subst.
  cbn [fold_left].
  destruct Hin as [Heq|Hin].
  - injection Heq as -> ->.
    rewrite nest_all_walk_other.
    + unfold nest_step. cbn [fst snd]. apply nest_walk_same.
      apply split_not_nil.
    + intros k' Hk'.
      assert (Hne : k' <> k) by (intros ->; now apply Hnotin).
      split; apply Hfree; cbn [PyDict.keys map fst In]; auto.
  - apply IH; [exact Hnd'| |exact Hin].
    intros a b Ha Hb Hab. apply Hfree; cbn [PyDict.keys map fst In]; auto.
Qed.

Lemma nest_top_level (key : string) (settings : FlatSettings)
    (result : SettingsType) :
  ~ In key (PyDict.keys settings) ->
  (forall node, PyDict.get key result = Some node -> is_dict node) ->
  forall node,
    PyDict.get key (fold_left nest_step settings result) = Some node ->
    is_dict node.
Proof.
  revert result.
  induction settings as [|[k v] settings IH]; intros result Hnotin Hres;
    [exact Hres|].
  cbn [fold_left]. apply IH.
  - intros Hin. apply Hnotin. now right.
  - assert (Hk : key <> k) by (intros ->; apply Hnotin; now left).
    unfold nest_step. cbn [fst snd]. intros node.
    destruct (Str.split "." k) as [|step [|next rest]] eqn:Esplit.
    + cbn [Interact.nest]. apply Hres.
    + apply split_single in Esplit. subst step. cbn [Interact.nest].
      rewrite get_set_other by congruence. apply Hres.
    + rewrite nest_cons.
      destruct (String.eqb_spec step key) as [->|Hstep].
      * rewrite get_set_same. intros H. injection H as <-. exact I.
      * rewrite get_set_other by assumption. apply Hres.
Qed.

Section FixupContext.

Variables defaults switches hidden : list Interact.Setting.
Variable _build_fixup : FlatSettings -> string -> Value.
Variable _prompt :
  (Interact.Setting -> bool) -> FlatSettings -> FlatSettings.

Lemma fixup_nodup (settings : FlatSettings) (key fixup : string)
    (force : bool) :
  NoDup (PyDict.keys settings) ->
  NoDup (PyDict.keys (Interact._fixup _build_fixup settings key fixup force)).
Proof.
  intros Hnd. unfold Interact._fixup.
  destruct (_ && _); [exact Hnd|now apply nodup_set].
Qed.

Lemma fixups_nodup (l : list Interact.Setting) (settings : FlatSettings) :
  NoDup (PyDict.keys settings) ->
  NoDup
    (PyDict.keys
       (fold_left
          (fun settings setting =>
             Interact._fixup _build_fixup settings
               (Interact.json_key setting)
               (match Interact.fix_ setting with
                | Some f => if Str.truthy f then f else ""
                | None => ""
                end)
               (Interact.force_fix setting))
          l settings)).
Proof.
  revert settings. induction l as [|x l IH]; intros settings Hnd;
    [exact Hnd|].
  cbn [fold_left]. apply IH. now apply fixup_nodup.
Qed.

Lemma hidden_values_nodup (l : list Interact.Setting)
    (acc : result FlatSettings) (out : FlatSettings) :
  (forall settings, acc = Ok settings -> NoDup (PyDict.keys settings)) ->
  fold_left
    (fun acc setting =>
       rbind acc (fun settings =>
       rbind (Interact._get_default setting settings) (fun value =>
       if match value with VBool _ => true | _ => false end
          || Interact.not_empty_str value
       then Ok (PyDict.set (Interact.json_key setting) value settings)
       else Ok settings)))
    l acc = Ok out ->
  NoDup (PyDict.keys out).
Proof.
  revert acc. induction l as [|x l IH]; intros acc Hacc; cbn [fold_left].
  - intros ->. now apply Hacc.
  - apply IH. intros settings.
    destruct acc as [s|e]; cbn [rbind]; [|discriminate].
    destruct (Interact._get_default x s) as [value|e]; cbn [rbind];
      [|discriminate].
    destruct (_ || _); intros H; injection H as <-.
    + apply nodup_set. now apply Hacc.
    + now apply Hacc.
Qed.

Lemma fixed_settings_keys (settings flat : FlatSettings)
    (wanted : Interact.Setting -> bool) :
  NoDup (PyDict.keys settings) ->
  Interact.fixed_settings defaults hidden _build_fixup settings wanted
  = Ok flat ->
  NoDup (PyDict.keys flat) /\ ~ In "EXT" (PyDict.keys flat).
Proof.
  intros Hnd. unfold Interact.fixed_settings.
  destruct (fold_left _ (filter wanted hidden) (Ok settings))
    as [s|e] eqn:Hhidden; cbn [rbind]; [|discriminate].
  intros H. injection H as <-.
  apply nodup_del, fixups_nodup.
  refine (hidden_values_nodup _ _ _ _ Hhidden).
  intros s' E. injection E as <-. exact Hnd.
Qed.

(** C10, as amended.  [_fixup_context] removes the flat key ["EXT"] before
    it nests the settings, so what the nested context holds under a
    top-level ["EXT"], if anything, is a dictionary built from the keys
    that start with [EXT.], never the value of the flat key.  Where no
    remaining key's dot-path is a prefix of another's, every remaining flat
    key [k1.k2.....kn] is found along [k1], ..., [kn] in the nested context,
    with its flat value. *)
Theorem fixup_context_nesting (settings : FlatSettings)
    (wanted : Interact.Setting -> bool) (result : SettingsType) :
  NoDup (PyDict.keys settings) ->
  Interact._fixup_context defaults hidden _build_fixup settings wanted
  = Ok result ->
  exists flat,
    Interact.fixed_settings defaults hidden _build_fixup settings wanted
    = Ok flat
    /\ result = Interact.nest_all flat
    /\ ~ In "EXT" (PyDict.keys flat)
    /\ (forall node, PyDict.get "EXT" result = Some node -> is_dict node)
    /\ (prefix_free flat ->
        forall k v,
          In (k, v) flat ->
          Chevron.walk (Str.split "." k) (Dict result) = Some (Leaf v)).
Proof.
  intros Hnd. unfold Interact._fixup_context.
  destruct (Interact.fixed_settings _ _ _ _ _) as [flat|e] eqn:Hflat;
    cbn [rbind]; [|discriminate].
  intros H. injection H as <-.
  destruct (fixed_settings_keys _ _ _ Hnd Hflat) as [Hnd' Hext].
  exists flat. repeat split; try assumption.
  - apply (nest_top_level "EXT" flat [] Hext). intros node H. discriminate.
  - intros Hfree k v Hin. now apply nest_all_walk.
Qed.

Lemma all_default_nodup (wanted : Interact.Setting -> bool)
    (overrides settings : FlatSettings) :
  Interact._all_default defaults switches wanted overrides = Ok settings ->
  NoDup (PyDict.keys settings).
Proof.
  unfold Interact._all_default.
  generalize (filter wanted defaults ++ filter wanted switches)%list.
  assert (Hgen : forall l acc,
             (forall s, acc = Ok s -> NoDup (PyDict.keys s)) ->
             fold_left
               (fun acc setting =>
                  rbind acc (fun settings =>
                  match PyDict.get (Interact.json_key setting) overrides with
                  | Some v =>
                      Ok (PyDict.set (Interact.json_key setting) v settings)
                  | None =>
                      rbind (Interact._get_default setting settings)
                        (fun value =>
                           Ok (PyDict.set (Interact.json_key setting) value
                                 settings))
                  end))
               l acc = Ok settings ->
             NoDup (PyDict.keys settings)).
  { induction l as [|x l IH]; intros acc Hacc; cbn [fold_left].
    - intros ->. now apply Hacc.
    - apply IH. intros s.
      destruct acc as [s0|e]; cbn [rbind]; [|discriminate].
      destruct (PyDict.get (Interact.json_key x) overrides).
      + intros H. injection H as <-. apply nodup_set. now apply Hacc.
      + destruct (Interact._get_default x s0); cbn [rbind];
          [|discriminate].
        intros H. injection H as <-. apply nodup_set. now apply Hacc. }
  intros l. apply Hgen. intros s H. injection H as <-. constructor.
Qed.

(** [get_context] returns what [_fixup_context] makes of the answers, which
    are a dictionary. *)
Lemma get_context_via_fixup (interactive : bool) (project_ : option string)
    (overrides : FlatSettings) (result : SettingsType) :
  NoDup (PyDict.keys (_prompt (Interact._project_filter project_) overrides))
  ->
  Interact.get_context defaults switches hidden _build_fixup _prompt
    interactive project_ overrides = Ok result ->
  exists settings,
    NoDup (PyDict.keys settings)
    /\ Interact._fixup_context defaults hidden _build_fixup settings
         (Interact._project_filter project_) = Ok result.
Proof.
  intros Hprompt. unfold Interact.get_context.
  destruct interactive; cbn [negb rbind].
  - intros H. eexists. split; [exact Hprompt|exact H].
  - destruct (Interact._all_default _ _ _ _) as [settings|e] eqn:Hall;
      cbn [rbind]; [|discriminate].
    intros H. exists settings. split; [|exact H].
    exact (all_default_nodup _ _ _ Hall).
Qed.

End FixupContext.

(** C10, as stated, fails twice.  With the default answers the nested
    context holds a top-level ["EXT"], the dictionary of [EXT.cxx]; and of
    the flat keys [NAME] and [NAME.short] only the later one is found in
    the nested context, where [NAME] is a dictionary. *)
Lemma fixup_context_nesting_counterexample :
  ExampleSettings.get_context false []
  = Ok [("EXT", Dict [("cxx", Leaf (VStr ".cpp"))])]
  /\ ExampleSettings._fixup_context
       [("NAME", VStr "app"); ("NAME.short", VStr "a"); ("EXT", VStr ".cpp")]
     = Ok [("NAME", Dict [("short", Leaf (VStr "a"))]);
           ("EXT", Dict [("cxx", Leaf (VStr ".cpp"))])].
Proof. split; reflexivity. Qed.

Lemma fixup_context_nesting_witness :
  Chevron.walk ["EXT"; "cxx"]
    (Dict [("NAME", Leaf (VStr "app"));
           ("EXT", Dict [("cxx", Leaf (VStr ".cpp"))])])
  = Some (Leaf (VStr ".cpp")).
Proof.
  assert (Hnd : NoDup (PyDict.keys [("NAME", VStr "app");
                                    ("EXT", VStr ".cpp")])).
  { repeat constructor; simpl; intros H;
      repeat (destruct H as [H|H]; try discriminate H); exact H. }
  destruct (fixup_context_nesting ExampleSettings.defaults
              ExampleSettings.hidden ExampleSettings._build_fixup
              [("NAME", VStr "app"); ("EXT", VStr ".cpp")]
              (Interact._project_filter None) _ Hnd eq_refl)
    as [flat [Hflat [_ [_ [_ Hwalk]]]]].
  vm_compute in Hflat. injection Hflat as <-.
  refine (Hwalk _ "EXT.cxx" (VStr ".cpp") _).
  - intros k k' Hk Hk' Hne. simpl in Hk, Hk'.
    destruct Hk as [<-|[<-|[]]], Hk' as [<-|[<-|[]]];
      try reflexivity; now elim Hne.
  - simpl. tauto.
Defined.

(** * Further properties *)

(** ** [int] and [str] *)

Lemma all_chars_mem (p : ascii -> bool) (c : ascii) (s : string) :
  all_chars p s = true -> p c = false -> Str.mem c s = false.
Proof.
  induction s as [|a s IH]; cbn [all_chars Str.mem]; intros H Hc;
    [reflexivity|].
  apply andb_true_iff in H as [Ha Hs].
  rewrite (IH Hs Hc), orb_false_r.
  destruct (Ascii.eqb_spec a c) as [->|_]; [congruence|reflexivity].
Qed.

Lemma all_chars_append (p : ascii -> bool) (a b : string) :
  all_chars p (a ++ b) = all_chars p a && all_chars p b.
Proof.
  induction a as [|x a IH]; cbn [append all_chars]; [reflexivity|].
  now rewrite IH, andb_assoc.
Qed.

Lemma rev_acc_append (s acc : string) :
  Str.rev_acc s acc = Str.rev_acc s "" ++ acc.
Proof.
  revert acc. induction s as [|a s IH]; intros acc; cbn [Str.rev_acc].
  - reflexivity.
  - rewrite (IH (String a acc)), (IH (String a "")).
    now rewrite append_assoc.
Qed.

Lemma rev_append (a b : string) : Str.rev (a ++ b) = Str.rev b ++ Str.rev a.
Proof.
  unfold Str.rev. induction a as [|x a IH]; cbn [append Str.rev_acc].
  - now rewrite append_nil_r.
  - rewrite (rev_acc_append (a ++ b)), (rev_acc_append a), IH.
    now rewrite append_assoc.
Qed.

Lemma rev_involutive (s : string) : Str.rev (Str.rev s) = s.
Proof.
  induction s as [|a s IH]; [reflexivity|].
  change (String a s) with (String a "" ++ s) at 1.
  rewrite rev_append, rev_append, IH. reflexivity.
Qed.

Lemma all_chars_rev (p : ascii -> bool) (s : string) :
  all_chars p (Str.rev s) = all_chars p s.
Proof.
  induction s as [|a s IH]; [reflexivity|].
  change (String a s) with (String a "" ++ s) at 1.
  rewrite rev_append, all_chars_append, IH. cbn. 
  now rewrite andb_true_r, andb_comm.
Qed.

Lemma lstrip_no_space (s : string) :
  all_chars (fun a => negb (PyInt.is_space a)) s = true ->
  PyInt.lstrip s = s.
Proof.
  destruct s as [|a s]; cbn [all_chars PyInt.lstrip]; [reflexivity|].
  intros H. apply andb_true_iff in H as [Ha _].
  apply negb_true_iff in Ha. now rewrite Ha.
Qed.

Lemma strip_no_space (s : string) :
  all_chars (fun a => negb (PyInt.is_space a)) s = true ->
  PyInt.strip s = s.
Proof.
  intros H. unfold PyInt.strip.
  rewrite (lstrip_no_space s H), lstrip_no_space, rev_involutive;
    [reflexivity|now rewrite all_chars_rev].
Qed.

Lemma all_chars_impl (p q : ascii -> bool) (s : string) :
  (forall a, p a = true -> q a = true) ->
  all_chars p s = true -> all_chars q s = true.
Proof.
  intros Hpq. induction s as [|a s IH]; cbn [all_chars]; [reflexivity|].
  intros H. apply andb_true_iff in H as [Ha Hs].
  now rewrite (Hpq a Ha), (IH Hs).
Qed.

Lemma digit_not_space (a : ascii) :
  is_digit a = true -> negb (PyInt.is_space a) = true.
Proof.
  unfold PyInt.is_space. cbn [existsb]. intros H.
  repeat match goal with
         | |- context [Ascii.eqb a ?c] =>
             destruct (Ascii.eqb_spec a c) as [->|_];
             [vm_compute in H; discriminate H|]
         end.
  reflexivity.
Qed.

Lemma string_of_uint_digits (d : Decimal.uint) :
  all_chars is_digit (NilEmpty.string_of_uint d) = true.
Proof.
  induction d as [|d IH|d IH|d IH|d IH|d IH|d IH|d IH|d IH|d IH|d IH];
    [reflexivity|..];
    cbn [NilEmpty.string_of_uint all_chars]; rewrite IH; reflexivity.
Qed.

Lemma digits_string_of_uint (d : Decimal.uint) (acc : Z) (prev : bool) :
  PyInt.digits (NilEmpty.string_of_uint d) acc prev
  = match d with
    | Decimal.Nil => if prev then Some acc else None
    | _ => Some (uint_value d acc)
    end.
Proof.
  revert acc prev.
  induction d as [|d IH|d IH|d IH|d IH|d IH|d IH|d IH|d IH|d IH|d IH];
    intros acc prev; [reflexivity|..];
    cbn [NilEmpty.string_of_uint PyInt.digits uint_value];
    match goal with
    | |- context [PyInt.digit ?c] =>
        change (PyInt.digit c) with (Some (Z.of_nat (nat_of_ascii c) - 48)%Z)
    end;
    cbn [nat_of_ascii]; rewrite IH; destruct d; reflexivity.
Qed.

Lemma uint_value_of_uint_acc (d : Decimal.uint) (acc : positive) :
  uint_value d (Z.pos acc) = Z.pos (Pos.of_uint_acc d acc).
Proof.
  revert acc.
  induction d as [|d IH|d IH|d IH|d IH|d IH|d IH|d IH|d IH|d IH|d IH];
    intros acc; [reflexivity|..];
    cbn [uint_value Pos.of_uint_acc]; rewrite <- IH; f_equal;
    change (Pos.mul _ acc) with (10 * acc)%positive; lia.
Qed.

Lemma uint_value_of_uint (d : Decimal.uint) :
  uint_value d 0 = Z.of_N (Pos.of_uint d).
Proof.
  induction d as [|d IH|d IH|d IH|d IH|d IH|d IH|d IH|d IH|d IH|d IH];
    [reflexivity|exact IH|..];
    cbn [uint_value Pos.of_uint Z.of_N];
    rewrite <- uint_value_of_uint_acc; reflexivity.
Qed.

Lemma uint_value_to_uint (p : positive) :
  uint_value (Pos.to_uint p) 0 = Z.pos p.
Proof.
  now rewrite uint_value_of_uint, DecimalPos.Unsigned.of_to.
Qed.

Lemma digits_to_uint (p : positive) :
  PyInt.digits (NilZero.string_of_uint (Pos.to_uint p)) 0 false
  = Some (Z.pos p).
Proof.
  pose proof (DecimalPos.Unsigned.to_uint_nonnil p) as Hnil.
  unfold NilZero.string_of_uint.
  rewrite <- (uint_value_to_uint p).
  destruct (Pos.to_uint p) eqn:E; try congruence;
    rewrite <- E, digits_string_of_uint, E; reflexivity.
Qed.

Lemma str_chars (n : Z) :
  all_chars (fun a => is_digit a || Ascii.eqb a "-") (PyInt.str n) = true
  /\ ((0 <= n)%Z -> all_chars is_digit (PyInt.str n) = true).
Proof.
  assert (Hu : forall d,
             all_chars is_digit (NilZero.string_of_uint d) = true).
  { intros d. unfold NilZero.string_of_uint.
    destruct d; try apply string_of_uint_digits. reflexivity. }
  unfold PyInt.str. destruct n as [|p|p]; cbn [Z.to_int NilZero.string_of_int].
  - split; reflexivity.
  - split; [|intros _; apply Hu].
    eapply all_chars_impl; [|apply Hu]. intros a ->. reflexivity.
  - split; [|lia]. cbn [all_chars].
    replace (is_digit "-" || Ascii.eqb "-" "-") with true by reflexivity.
    eapply all_chars_impl; [|apply Hu]. intros a ->. reflexivity.
Qed.

(** [int(str(n))] is [n]. *)
Lemma int_str (n : Z) : PyInt.int (PyInt.str n) = Ok n.
Proof.
  unfold PyInt.int. rewrite strip_no_space.
  2:{ eapply all_chars_impl; [|apply (proj1 (str_chars n))].
      intros a H. apply orb_true_iff in H as [H|H].
      - now apply digit_not_space.
      - apply Ascii.eqb_eq in H. now subst. }
  unfold PyInt.str. destruct n as [|p|p]; cbn [Z.to_int NilZero.string_of_int].
  - reflexivity.
  - pose proof (digits_to_uint p) as Hd.
    pose proof (proj2 (str_chars (Z.pos p))) as Hc.
    unfold PyInt.str in Hc. cbn [Z.to_int NilZero.string_of_int] in Hc.
    specialize (Hc ltac:(lia)).
    destruct (NilZero.string_of_uint (Pos.to_uint p)) as [|a s] eqn:E.
    + discriminate Hd.
    + cbn [all_chars] in Hc. apply andb_true_iff in Hc as [Ha _].
      destruct (Ascii.eqb_spec a "+") as [->|Hplus];
        [vm_compute in Ha; discriminate Ha|].
      destruct (Ascii.eqb_spec a "-") as [->|Hminus];
        [vm_compute in Ha; discriminate Ha|].
      assert (Hbody : match PyInt.digits (String a s) 0 false with
                      | Some n => Ok (1 * n)%Z
                      | None => Raise ValueError
                      end = Ok (Z.pos p)).
      { rewrite Hd. reflexivity. }
      destruct a as [[] [] [] [] [] [] [] []]; try exact Hbody;
        congruence.
  - rewrite digits_to_uint. f_equal.
Qed.

(** ** Splitting and joining *)

Lemma split_no_sep (c : ascii) (s : string) :
  Str.mem c s = false -> Str.split c s = [s].
Proof.
  intros H. unfold Str.split.
  assert (Haux : Str.split_aux c s = (s, [])).
  { induction s as [|a s IH]; [reflexivity|].
    cbn [Str.mem] in H. apply orb_false_iff in H as [Ha Hs].
    cbn [Str.split_aux]. now rewrite (IH Hs), Ha. }
  now rewrite Haux.
Qed.

Lemma split_join (c : ascii) (l : list string) :
  l <> [] ->
  Forall (fun x => Str.mem c x = false) l ->
  Str.split c (Str.join (String c "") l) = l.
Proof.
  intros Hne H. induction H as [|x l Hx Hl IH]; [contradiction|].
  destruct l as [|y l].
  - cbn [Str.join]. now apply split_no_sep.
  - change (Str.join (String c "") (x :: y :: l))
      with (x ++ String c (Str.join (String c "") (y :: l))).
    rewrite (split_line _ _ _ Hx), IH; [reflexivity|discriminate].
Qed.

Lemma mem_join (c : ascii) (sep : string) (l : list string) :
  Str.mem c sep = false ->
  Forall (fun x => Str.mem c x = false) l ->
  Str.mem c (Str.join sep l) = false.
Proof.
  intros Hsep H. induction H as [|x l Hx Hl IH]; [reflexivity|].
  destruct l as [|y l]; [exact Hx|].
  change (Str.join sep (x :: y :: l))
    with (x ++ sep ++ Str.join sep (y :: l)).
  now rewrite !mem_append, Hx, Hsep, IH.
Qed.

Lemma mem_split (c sep : ascii) (s x : string) :
  In x (Str.split sep s) -> Str.mem c s = false -> Str.mem c x = false.
Proof.
  unfold Str.split. revert x.
  induction s as [|a s IH]; cbn [Str.split_aux]; intros x Hin Hs.
  - destruct Hin as [<-|[]]. reflexivity.
  - cbn [Str.mem] in Hs. apply orb_false_iff in Hs as [Ha Hs].
    destruct (Str.split_aux sep s) as [h t].
    destruct (Ascii.eqb a sep).
    + destruct Hin as [<-|Hin]; [reflexivity|]. now apply IH.
    + destruct Hin as [<-|Hin].
      * cbn [Str.mem]. rewrite Ha. apply IH; [now left|exact Hs].
      * apply IH; [now right|exact Hs].
Qed.

(** Every version is a core without [-] and, after its first [-] if it has
    one, a suffix; and it is so in one way only. *)
Lemma version_decompose (ver : string) :
  exists core suffix,
    ver = with_stability core suffix /\ Str.mem "-" core = false.
Proof.
  induction ver as [|a ver [core [suffix [-> Hcore]]]].
  - exists "", None. split; reflexivity.
  - destruct (Ascii.eqb_spec a "-") as [->|Hne].
    + exists "", (Some (with_stability core suffix)). split; reflexivity.
    + exists (String a core), suffix. split.
      * now destruct suffix.
      * cbn [Str.mem]. apply Ascii.eqb_neq in Hne. now rewrite Hne.
Qed.

Lemma split1_version (core : string) (suffix : option string) :
  Str.mem "-" core = false ->
  Str.split1 "-" (with_stability core suffix)
  = core :: match suffix with Some s => [s] | None => [] end.
Proof.
  intros H. destruct suffix as [s|]; cbn [with_stability].
  - change (core ++ "-" ++ s) with (core ++ String "-" s).
    now apply split1_at_sep.
  - now apply split1_no_sep.
Qed.

Lemma version_unique (core core' : string) (suffix suffix' : option string) :
  Str.mem "-" core = false ->
  Str.mem "-" core' = false ->
  with_stability core suffix = with_stability core' suffix' ->
  core = core' /\ suffix = suffix'.
Proof.
  intros H H' E. apply (f_equal (Str.split1 "-")) in E.
  rewrite !split1_version in E by assumption.
  destruct suffix, suffix'; injection E; intros; subst; auto; discriminate.
Qed.

(** ** Integers read from text without [-] are not negative *)

Lemma mem_lstrip (c : ascii) (s : string) :
  Str.mem c s = false -> Str.mem c (PyInt.lstrip s) = false.
Proof.
  induction s as [|a s IH]; cbn [PyInt.lstrip]; [reflexivity|].
  intros H. destruct (PyInt.is_space a); [|exact H].
  cbn [Str.mem] in H. apply orb_false_iff in H as [_ Hs]. now apply IH.
Qed.

Lemma mem_rev (c : ascii) (s : string) :
  Str.mem c (Str.rev s) = Str.mem c s.
Proof.
  induction s as [|a s IH]; [reflexivity|].
  change (String a s) with (String a "" ++ s) at 1.
  rewrite rev_append, mem_append, IH. cbn [Str.rev Str.rev_acc Str.mem].
  now rewrite orb_false_r, orb_comm.
Qed.

Lemma mem_strip (c : ascii) (s : string) :
  Str.mem c s = false -> Str.mem c (PyInt.strip s) = false.
Proof.
  intros H. unfold PyInt.strip. rewrite mem_rev. apply mem_lstrip.
  rewrite mem_rev. now apply mem_lstrip.
Qed.

Lemma digits_nonneg (s : string) (acc : Z) (prev : bool) (n : Z) :
  (0 <= acc)%Z -> PyInt.digits s acc prev = Some n -> (0 <= n)%Z.
Proof.
  revert acc prev. induction s as [|a s IH]; intros acc prev Hacc;
    cbn [PyInt.digits].
  - destruct prev; [|discriminate]. intros H. injection H as <-. exact Hacc.
  - destruct (PyInt.digit a) as [d|] eqn:Hd.
    + intros H. eapply IH; [|exact H].
      unfold PyInt.digit in Hd.
      destruct (_ && _) eqn:Hrange; [|discriminate].
      injection Hd as <-. apply andb_true_iff in Hrange as [H1 _].
      apply Z.leb_le in H1. lia.
    + destruct (_ && _); [|discriminate]. now apply IH.
Qed.

Lemma int_nonneg (s : string) (n : Z) :
  Str.mem "-" s = false -> PyInt.int s = Ok n -> (0 <= n)%Z.
Proof.
  intros Hs. apply mem_strip in Hs. unfold PyInt.int.
  assert (Hbody : forall t sign,
             (sign = 1)%Z ->
             match PyInt.digits t 0 false with
             | Some n => Ok (sign * n)%Z
             | None => Raise ValueError
             end = Ok n -> (0 <= n)%Z).
  { intros t sign -> H.
    destruct (PyInt.digits t 0 false) as [m|] eqn:Hm; [|discriminate].
    injection H as H. apply digits_nonneg in Hm; [|lia].
    destruct m; simpl in H; lia. }
  destruct (PyInt.strip s) as [|a t]; [apply (Hbody "" 1%Z eq_refl)|].
  cbn [Str.mem] in Hs. apply orb_false_iff in Hs as [Ha _].
  destruct a as [[] [] [] [] [] [] [] []];
    try apply (Hbody _ 1%Z eq_refl); discriminate Ha.
Qed.

Lemma rmap_forall2 {A B} (f : A -> result B) (l : list A) (out : list B) :
  rmap f l = Ok out -> Forall2 (fun x y => f x = Ok y) l out.
Proof.
  revert out. induction l as [|x l IH]; cbn [rmap]; intros out H.
  - injection H as <-. constructor.
  - destruct (f x) as [y|e] eqn:Hx; [|discriminate]. cbn [rbind] in H.
    destruct (rmap f l) as [ys|e]; [|discriminate]. cbn [rbind] in H.
    injection H as <-. constructor; [exact Hx|now apply IH].
Qed.

Lemma core_nonneg (core : string) (ns : list Z) :
  Str.mem "-" core = false ->
  rmap PyInt.int (Str.split "." core) = Ok ns ->
  Forall (fun n => (0 <= n)%Z) ns.
Proof.
  intros Hcore H. apply rmap_forall2 in H.
  assert (Hin : forall x, In x (Str.split "." core) ->
                          Str.mem "-" x = false)
    by (intros x Hx; now apply (mem_split "-" "." core)).
  induction H as [|x n l ns Hx _ IH]; constructor.
  - apply (int_nonneg x); [apply Hin; now left|exact Hx].
  - apply IH. intros y Hy. apply Hin. now right.
Qed.

(** ** More of [_bump_version] *)

Lemma int_raises_value_error (s : string) (e : exn) :
  PyInt.int s = Raise e -> e = ValueError.
Proof.
  unfold PyInt.int.
  assert (Hbody : forall t sign,
             match PyInt.digits t 0 false with
             | Some n => Ok (sign * n)%Z
             | None => Raise ValueError
             end = Raise e -> e = ValueError).
  { intros t sign. destruct (PyInt.digits t 0 false); congruence. }
  destruct (PyInt.strip s) as [|a t]; [apply Hbody|].
  destruct a as [[] [] [] [] [] [] [] []]; apply Hbody.
Qed.

Lemma rmap_int_raises (l : list string) (comp : string) :
  In comp l -> PyInt.int comp = Raise ValueError ->
  rmap PyInt.int l = Raise ValueError.
Proof.
  induction l as [|x l IH]; intros Hin Hcomp; [contradiction|].
  cbn [rmap]. destruct (PyInt.int x) as [n|e] eqn:Hx; cbn [rbind].
  - destruct Hin as [->|Hin]; [congruence|].
    now rewrite (IH Hin Hcomp).
  - now rewrite (int_raises_value_error _ _ Hx).
Qed.

Lemma set_nth_length {A} (k : nat) (v : A) (l : list A) :
  List.length (PyList.set_nth k v l) = List.length l.
Proof.
  revert k. induction l as [|x l IH]; intros [|k]; cbn; auto.
Qed.

Lemma set_nth_forall {A} (P : A -> Prop) (k : nat) (v : A) (l : list A) :
  P v -> Forall P l -> Forall P (PyList.set_nth k v l).
Proof.
  intros Hv H. revert k. induction H as [|x l Hx Hl IH]; intros [|k]; cbn;
    constructor; auto.
Qed.

Lemma pylist_set_keeps (P : Z -> Prop) (l l' : list Z) (i v : Z) :
  P v -> Forall P l -> PyList.set l i v = Ok l' ->
  Forall P l' /\ List.length l' = List.length l.
Proof.
  intros Hv Hl. unfold PyList.set.
  destruct (PyList.position (List.length l) i) as [k|e]; cbn [rbind];
    [|discriminate].
  intros H. injection H as <-. split.
  - now apply set_nth_forall.
  - apply set_nth_length.
Qed.

Lemma pylist_get_in (l : list Z) (i x : Z) :
  PyList.get l i = Ok x -> In x l.
Proof.
  unfold PyList.get, PyList.position, rbind. cbv zeta.
  destruct (_ && _) eqn:H1.
  - intros H. injection H as <-. apply nth_In.
    apply andb_true_iff in H1 as [Ha Hb].
    apply Z.leb_le in Ha. apply Z.ltb_lt in Hb. lia.
  - destruct ((- Z.of_nat (List.length l) <=? i)%Z && (i <? 0)%Z) eqn:H2;
      [|intros H; discriminate H].
    intros H. injection H as <-. apply nth_In.
    apply andb_true_iff in H2 as [Ha Hb].
    apply Z.leb_le in Ha. apply Z.ltb_lt in Hb. lia.
Qed.

Lemma zero_loop_keeps (P : Z -> Prop) (indices : list Z)
    (acc : result (list Z)) (l' : list Z) (n : nat) :
  P 0%Z ->
  (forall l, acc = Ok l -> Forall P l /\ List.length l = n) ->
  fold_left (fun acc index => rbind acc (fun l => PyList.set l index 0%Z))
    indices acc = Ok l' ->
  Forall P l' /\ List.length l' = n.
Proof.
  intros H0. revert acc.
  induction indices as [|i indices IH]; intros acc Hacc; cbn [fold_left].
  - intros ->. now apply Hacc.
  - apply IH. intros l Hl.
    destruct acc as [l0|e]; cbn [rbind] in Hl; [|discriminate].
    destruct (Hacc l0 eq_refl) as [HP Hlen].
    destruct (pylist_set_keeps P l0 l i 0%Z H0 HP Hl) as [HP' Hlen'].
    split; [exact HP'|congruence].
Qed.

Section BumpVersionMore.

Context {levels : LevelEnum}.

Lemma three_nonneg (ns : list Z) :
  Forall (fun n => (0 <= n)%Z) ns -> Forall (fun n => (0 <= n)%Z) (three ns).
Proof.
  intros H.
  destruct ns as [|a [|b [|c ns]]]; cbn [three];
    repeat match goal with
           | H : Forall _ (_ :: _) |- _ => inversion H; clear H; subst
           end;
    repeat constructor; auto; lia.
Qed.

(** The three components after the bump: what [_bump_version] does between
    reading the version and writing it. *)
Lemma bump_version_components (core : string) (suffix : option string)
    (level : Level) (next : string) :
  Str.mem "-" core = false ->
  Release._bump_version (with_stability core suffix) level = Ok next ->
  exists ns a b c,
    rmap PyInt.int (Str.split "." core) = Ok ns
    /\ (0 <= a /\ 0 <= b /\ 0 <= c)%Z
    /\ next = with_stability (dotted [a; b; c]) suffix
    /\ ((value level <= value BENIGN)%Z -> [a; b; c] = three ns).
Proof.
  intros Hcore Hbump.
  destruct (rmap PyInt.int (Str.split "." core)) as [ns|e] eqn:Hints.
  2:{ exfalso. unfold Release._bump_version in Hbump.
      rewrite (split1_version core suffix Hcore) in Hbump.
      cbn [nth] in Hbump. rewrite Hints in Hbump. discriminate Hbump. }
  rewrite (bump_version_unfold core suffix level ns Hcore Hints) in Hbump.
  pose proof (three_nonneg ns (core_nonneg core ns Hcore Hints)) as Hnn.
  pose proof (three_length ns) as Hlen.
  assert (Hinner : forall semver,
             Forall (fun n => (0 <= n)%Z) semver ->
             List.length semver = 3 ->
             exists a b c,
               semver = [a; b; c] /\ (0 <= a /\ 0 <= b /\ 0 <= c)%Z).
  { intros [|a [|b [|c [|d l]]]] HF HL; try discriminate HL.
    exists a, b, c. inversion HF as [|? ? Ha HF1]; subst.
    inversion HF1 as [|? ? Hb HF2]; subst.
    inversion HF2 as [|? ? Hc _]; subst. auto. }
  destruct (value level >? value BENIGN)%Z eqn:Hgt.
  - cbv zeta in Hbump.
    destruct (PyList.get (three ns) (value BREAKING - value level))
      as [old|e] eqn:Hget; cbn [rbind] in Hbump; [|discriminate].
    destruct (PyList.set (three ns) (value BREAKING - value level) (old + 1))
      as [semver|e] eqn:Hset; cbn [rbind] in Hbump; [|discriminate].
    assert (Hold : (0 <= old)%Z).
    { apply pylist_get_in in Hget. rewrite Forall_forall in Hnn.
      now apply Hnn. }
    assert (Hnew : (0 <= old + 1)%Z) by lia.
    destruct (pylist_set_keeps (fun n => (0 <= n)%Z) _ _ _ _
                Hnew Hnn Hset) as [Hnn1 Hlen1].
    destruct (fold_left _ _ (Ok semver)) as [final|e] eqn:Hloop;
      cbn [rbind] in Hbump; [|discriminate].
    assert (Hstart : forall l, Ok semver = Ok l ->
                          Forall (fun n => (0 <= n)%Z) l
                          /\ List.length l = 3)
      by (intros l E; injection E as <-; split; congruence).
    destruct (zero_loop_keeps (fun n => (0 <= n)%Z) _ _ _ 3
                (Z.le_refl 0) Hstart Hloop) as [Hnn2 Hlen2].
    destruct (Hinner final Hnn2 Hlen2) as [a [b [c [-> Habc]]]].
    injection Hbump as <-.
    exists ns, a, b, c. repeat split; try tauto.
    intros Hle. apply Z.gtb_lt in Hgt. lia.
  - cbn [rbind] in Hbump. injection Hbump as <-.
    destruct (Hinner (three ns) Hnn Hlen) as [a [b [c [E Habc]]]].
    exists ns, a, b, c. rewrite E. repeat split; try tauto.
Qed.

Lemma parse_dotted (a b c : Z) :
  (0 <= a /\ 0 <= b /\ 0 <= c)%Z ->
  rmap PyInt.int (Str.split "." (dotted [a; b; c])) = Ok [a; b; c]
  /\ Str.mem "-" (dotted [a; b; c]) = false.
Proof.
  intros [Ha [Hb Hc]].
  assert (Hno : forall ch n, is_digit ch = false -> (0 <= n)%Z ->
                             Str.mem ch (PyInt.str n) = false).
  { intros ch n Hch Hn. eapply all_chars_mem; [|exact Hch].
    now apply (proj2 (str_chars n)). }
  unfold dotted. split.
  - rewrite split_join.
    + cbn [map rmap]. rewrite !int_str. reflexivity.
    + discriminate.
    + repeat constructor; now apply Hno.
  - apply mem_join; [reflexivity|].
    repeat constructor; now apply Hno.
Qed.

Lemma bump_version_in_range (core : string) (suffix : option string)
    (level : Level) (ns : list Z) :
  Str.mem "-" core = false ->
  rmap PyInt.int (Str.split "." core) = Ok ns ->
  (value BENIGN < value level)%Z ->
  (0 <= value BREAKING - value level < 3)%Z ->
  Release._bump_version (with_stability core suffix) level
  = Ok (with_stability
          (dotted (bumped (Z.to_nat (value BREAKING - value level))
                     (three ns)))
          suffix).
Proof.
  intros Hcore Hints Hgt Hidx.
  rewrite (bump_version_unfold core suffix level ns Hcore Hints).
  replace (value level >? value BENIGN)%Z with true
    by (symmetry; rewrite Z.gtb_ltb; apply Z.ltb_lt; lia).
  cbv zeta.
  assert (Hcases : (value BREAKING - value level = 0
                    \/ value BREAKING - value level = 1
                    \/ value BREAKING - value level = 2)%Z) by lia.
  destruct ns as [|a [|b [|c ns]]];
    destruct Hcases as [-> | [-> | ->]]; reflexivity.
Qed.

(** X1.  A component of the core that is text of ASCII characters and no
    integer literal makes [_bump_version] raise [ValueError], whatever the
    level and the suffix. *)
Theorem bump_version_value_error (core : string) (suffix : option string)
    (level : Level) (component : string) :
  Str.mem "-" core = false ->
  In component (Str.split "." core) ->
  all_chars is_ascii component = true ->
  PyInt.int component = Raise ValueError ->
  Release._bump_version (with_stability core suffix) level
  = Raise ValueError.
Proof.
  intros Hcore Hin _ Hcomp. unfold Release._bump_version.
  rewrite (split1_version core suffix Hcore). cbn [nth].
  now rewrite (rmap_int_raises _ _ Hin Hcomp).
Qed.

(** X2.  A level above [BENIGN] whose index [BREAKING.value - level.value]
    is three or more, or below minus three, makes [_bump_version] raise
    [IndexError]: the version has three components and no more. *)
Theorem bump_version_index_error (core : string) (suffix : option string)
    (level : Level) (ns : list Z) :
  Str.mem "-" core = false ->
  rmap PyInt.int (Str.split "." core) = Ok ns ->
  (value BENIGN < value level)%Z ->
  (3 <= value BREAKING - value level
   \/ value BREAKING - value level < -3)%Z ->
  Release._bump_version (with_stability core suffix) level
  = Raise IndexError.
Proof.
  intros Hcore Hints Hgt Hidx.
  rewrite (bump_version_unfold core suffix level ns Hcore Hints).
  replace (value level >? value BENIGN)%Z with true
    by (symmetry; rewrite Z.gtb_ltb; apply Z.ltb_lt; lia).
  cbv zeta. unfold PyList.get, PyList.position.
  rewrite three_length.
  replace ((0 <=? value BREAKING - value level)%Z
           && (value BREAKING - value level <? Z.of_nat 3)%Z) with false
    by (symmetry; apply andb_false_iff;
        rewrite Z.leb_gt, Z.ltb_ge; lia).
  replace ((- Z.of_nat 3 <=? value BREAKING - value level)%Z
           && (value BREAKING - value level <? 0)%Z) with false
    by (symmetry; apply andb_false_iff;
        rewrite Z.leb_gt, Z.ltb_ge; lia).
  reflexivity.
Qed.

(** X3.  Whatever [_bump_version] returns is a version in normal form:
    three components that are not negative, joined by dots, followed by
    the suffix of the version it was given, unchanged. *)
Theorem bump_version_normal_form (ver : string) (level : Level)
    (next : string) :
  Release._bump_version ver level = Ok next ->
  exists core suffix a b c,
    ver = with_stability core suffix
    /\ Str.mem "-" core = false
    /\ (0 <= a /\ 0 <= b /\ 0 <= c)%Z
    /\ next = with_stability (dotted [a; b; c]) suffix.
Proof.
  intros Hbump.
  destruct (version_decompose ver) as [core [suffix [-> Hcore]]].
  destruct (bump_version_components core suffix level next Hcore Hbump)
    as [ns [a [b [c [_ [Habc [-> _]]]]]]].
  exists core, suffix, a, b, c. auto.
Qed.

(** X4.  A version that [_bump_version] returned is left as it is by a
    level that is not above [BENIGN]: bumping by such a level only puts a
    version in normal form. *)
Theorem bump_version_stable (ver : string) (level benign : Level)
    (next : string) :
  Release._bump_version ver level = Ok next ->
  (value benign <= value BENIGN)%Z ->
  Release._bump_version next benign = Ok next.
Proof.
  intros Hbump Hle.
  destruct (version_decompose ver) as [core [suffix [-> Hcore]]].
  destruct (bump_version_components core suffix level next Hcore Hbump)
    as [ns [a [b [c [_ [Habc [-> _]]]]]]].
  destruct (parse_dotted a b c Habc) as [Hparse Hdash].
  rewrite (bump_version_unfold _ suffix benign [a; b; c] Hdash Hparse).
  replace (value benign >? value BENIGN)%Z with false
    by (symmetry; rewrite Z.gtb_ltb; apply Z.ltb_ge; lia).
  reflexivity.
Qed.

(** A bump at one of the three components changes the version. *)
Lemma bumped_differs (core : string) (suffix : option string)
    (ns : list Z) (idx : Z) :
  Str.mem "-" core = false ->
  rmap PyInt.int (Str.split "." core) = Ok ns ->
  (0 <= idx < 3)%Z ->
  with_stability (dotted (bumped (Z.to_nat idx) (three ns))) suffix
  <> with_stability core suffix.
Proof.
  intros Hcore Hints Hidx Heq.
  pose proof (three_nonneg ns (core_nonneg core ns Hcore Hints)) as Hnn.
  assert (Hthree : exists a b c,
             three ns = [a; b; c] /\ (0 <= a /\ 0 <= b /\ 0 <= c)%Z).
  { destruct ns as [|a [|b [|c ns]]]; cbn [three] in *;
      repeat match goal with
             | H : Forall _ (_ :: _) |- _ => inversion H; clear H; subst
             end;
      do 3 eexists; (split; [reflexivity|lia]). }
  destruct Hthree as [a [b [c [Ethree Habc]]]].
  rewrite Ethree in Heq.
  assert (Hcases : (idx = 0 \/ idx = 1 \/ idx = 2)%Z) by lia.
  destruct Hcases as [-> | [-> | ->]];
    [change (Z.to_nat 0) with 0%nat in Heq
    |change (Z.to_nat 1) with 1%nat in Heq
    |change (Z.to_nat 2) with 2%nat in Heq];
    cbn [bumped map nth Nat.ltb Nat.leb Nat.eqb] in Heq;
    match type of Heq with
    | with_stability (dotted [?x; ?y; ?z]) _ = _ =>
        assert (Hxyz : (0 <= x /\ 0 <= y /\ 0 <= z)%Z)
          by (clear - Habc; lia);
        destruct (parse_dotted x y z Hxyz) as [Hparse Hdash];
        destruct (version_unique _ _ _ _ Hdash Hcore Heq) as [Hcore' _];
        rewrite Hcore' in Hparse; rewrite Hints in Hparse;
        injection Hparse as Hns; rewrite Hns in Ethree;
        cbn [three] in Ethree; injection Ethree; clear; lia
    end.
Qed.

(** X5.  A level above [BENIGN] whose index is one of the three components
    always advances the version: what [_bump_version] returns differs from
    what it was given. *)
Theorem bump_version_advances (ver : string) (level : Level)
    (next : string) :
  (value BENIGN < value level)%Z ->
  (0 <= value BREAKING - value level < 3)%Z ->
  Release._bump_version ver level = Ok next ->
  next <> ver.
Proof.
  intros Hgt Hidx Hbump.
  destruct (version_decompose ver) as [core [suffix [-> Hcore]]].
  destruct (bump_version_components core suffix level _ Hcore Hbump)
    as [ns [_ [_ [_ [Hints _]]]]].
  rewrite (bump_version_in_range _ suffix level ns Hcore Hints Hgt Hidx)
    in Hbump.
  injection Hbump as <-.
  now apply bumped_differs.
Qed.

End BumpVersionMore.

Lemma bump_version_value_error_witness :
  @Release._bump_version five_ranks "1.x.3-rc" 3%Z = Raise ValueError.
Proof.
  refine (@bump_version_value_error five_ranks "1.x.3" (Some "rc") 3%Z "x"
            eq_refl _ eq_refl eq_refl).
  simpl. tauto.
Defined.

Lemma bump_version_index_error_witness :
  @Release._bump_version five_ranks "1.2.3" 1%Z = Raise IndexError.
Proof.
  refine (@bump_version_index_error five_ranks "1.2.3" None 1%Z [1; 2; 3]%Z
            eq_refl eq_refl _ _); simpl; lia.
Defined.

Lemma bump_version_normal_form_witness :
  exists core suffix a b c,
    "1.2-rc.1" = with_stability core suffix
    /\ Str.mem "-" core = false
    /\ (0 <= a /\ 0 <= b /\ 0 <= c)%Z
    /\ "1.2.0-rc.1" = with_stability (dotted [a; b; c]) suffix.
Proof.
  exact (@bump_version_normal_form five_ranks "1.2-rc.1" 0%Z "1.2.0-rc.1"
           eq_refl).
Defined.

Lemma bump_version_stable_witness :
  @Release._bump_version five_ranks "1.3.0-rc.1" 0%Z = Ok "1.3.0-rc.1".
Proof.
  refine (@bump_version_stable five_ranks "1.2-rc.1" 3%Z 0%Z "1.3.0-rc.1"
            eq_refl _).
  simpl. lia.
Defined.

Lemma bump_version_advances_witness : "1.3.0" <> "1.2.3".
Proof.
  refine (@bump_version_advances five_ranks "1.2.3" 3%Z "1.3.0" _ _ eq_refl);
    simpl; lia.
Defined.

(** ** More of [add_release] *)

Lemma rmap_raises_value_error (l : list string) (e : exn) :
  rmap PyInt.int l = Raise e -> e = ValueError.
Proof.
  induction l as [|x l IH]; cbn [rmap]; [discriminate|].
  destruct (PyInt.int x) as [n|e'] eqn:Hx; cbn [rbind].
  - destruct (rmap PyInt.int l) as [ns|e']; cbn [rbind]; [discriminate|].
    intros H. injection H as <-. now apply IH.
  - intros H. injection H as <-. now apply (int_raises_value_error x).
Qed.

Section ReleaseFlowMore.

Context {levels : LevelEnum} {ChangeLog : Type}.
Variable format_commit_message : ChangeLog -> string.
Variable version_updaters : list Release.VersionUpdater.
Variable project_suites_find :
  Release.Runtime -> option Release.ProjectSuite * option Release.Project.

Let add_release' :=
  Release.add_release ChangeLog format_commit_message version_updaters
    project_suites_find.

(** X6.  Without a project suite, or without a project, [add_release]
    raises [NoProjectError] and has called nothing: no tag is listed, no
    log is read. *)
Theorem add_release_no_project rt forced_level take_all draft generator git
    hosting :
  fst (project_suites_find rt) = None
  \/ snd (project_suites_find rt) = None ->
  add_release' rt forced_level take_all draft generator git hosting
  = ([], Raise NoProjectError).
Proof.
  unfold add_release', Release.add_release.
  destruct (project_suites_find rt) as [[suite|] [project|]]; cbn [fst snd];
    intros [H|H]; try discriminate H; reflexivity.
Qed.

(** X7.  When the project's version cannot be bumped, [add_release] ends
    with the exception of [_bump_version], having listed the tags and read
    the log and called nothing else. *)
Theorem add_release_bump_error rt forced_level take_all draft generator git
    hosting suite project changelog log_level e :
  project_suites_find rt = (Some suite, Some project) ->
  Release.get_log git (initial_setup (Release.tag_list git) take_all)
    = (changelog, log_level) ->
  Release._bump_version (Release.version project)
    (effective_level forced_level log_level) = Raise e ->
  add_release' rt forced_level take_all draft generator git hosting
  = ([Release.git_tag_list;
      Release.git_get_log (initial_setup (Release.tag_list git) take_all)],
     Raise e).
Proof.
  intros Hfind Hlog Hbump.
  unfold add_release', Release.add_release. rewrite Hfind.
  unfold Release.call at 1. unfold Release.bind at 1.
  unfold Release.call at 1. unfold Release.bind at 1.
  fold (initial_setup (Release.tag_list git) take_all). rewrite Hlog.
  fold (effective_level forced_level log_level). rewrite Hbump.
  reflexivity.
Qed.

(** X8.  A run that is not dry and passes both validations writes the
    changelog, sets the version and asks for the version file, then calls
    every registered updater once, in the order of the registry, with the
    next version; it stages the changelog, the version file if there is
    one, and the paths the updaters returned, in that order; then it
    commits, tags and, when hosting is active, releases, with the setup that
    carries the new tag. *)
Theorem add_release_real_run rt forced_level take_all draft generator git
    hosting suite project changelog log_level next_version :
  Release.dry_run rt = false ->
  project_suites_find rt = (Some suite, Some project) ->
  Release.get_log git (initial_setup (Release.tag_list git) take_all)
    = (changelog, log_level) ->
  Release._bump_version (Release.version project)
    (effective_level forced_level log_level) = Ok next_version ->
  next_version <> Release.version project ->
  ~ In ("v" ++ next_version) (Release.tag_list git) ->
  let setup := tagged_setup (Release.tag_list git) take_all next_version in
  add_release' rt forced_level take_all draft generator git hosting =
  (([Release.git_tag_list;
     Release.git_get_log (initial_setup (Release.tag_list git) take_all);
     Release.generator_update_changelog changelog setup;
     Release.suite_set_version next_version;
     Release.suite_get_version_file_path]
    ++ updater_calls 0 next_version version_updaters
    ++ [Release.git_add_files
          (Release.filename generator
           :: version_file suite
              ++ updater_files next_version version_updaters);
        Release.git_commit
          ("chore: release " ++ next_version
           ++ format_commit_message changelog);
        Release.git_annotated_tag ("v" ++ next_version)
          ("release " ++ next_version)]
    ++ hosting_calls hosting changelog setup draft)%list,
   Ok tt).
Proof.
  intros Hdry Hfind Hlog Hbump Hadv Htag setup. unfold add_release'.
  rewrite (add_release_cases _ _ _ _ _ _ _ _ _ _ _ _ _ _ _ Hfind Hlog Hbump).
  apply String.eqb_neq in Hadv. rewrite Hadv.
  rewrite (tag_not_listed _ _ Htag). rewrite Hdry.
  cbn [app]. rewrite <- ?app_assoc. reflexivity.
Qed.

(** X9.  With a deciding level above [BENIGN] whose index is one of the
    three components, [add_release] never ends with
    [VersionNotAdvancing]. *)
Theorem add_release_advances rt forced_level take_all draft generator git
    hosting changelog log_level v :
  Release.get_log git (initial_setup (Release.tag_list git) take_all)
    = (changelog, log_level) ->
  (value BENIGN < value (effective_level forced_level log_level))%Z ->
  (0 <= value BREAKING - value (effective_level forced_level log_level)
   < 3)%Z ->
  snd (add_release' rt forced_level take_all draft generator git hosting)
  <> Raise (VersionNotAdvancing v).
Proof.
  intros Hlog Hgt Hidx.
  destruct (project_suites_find rt) as [[suite|] [project|]] eqn:Hfind.
  2-4: unfold add_release', Release.add_release; rewrite Hfind;
       discriminate.
  destruct (Release._bump_version (Release.version project)
              (effective_level forced_level log_level))
    as [next_version|e] eqn:Hbump.
  - unfold add_release'.
    rewrite (add_release_cases _ _ _ _ _ _ _ _ _ _ _ _ _ _ _ Hfind Hlog
               Hbump).
    pose proof Hbump as Hbump'.
    destruct (version_decompose (Release.version project))
      as [core [suffix [Hver Hcore]]].
    rewrite Hver in Hbump'.
    destruct (bump_version_components core suffix _ _ Hcore Hbump')
      as [ns [_ [_ [_ [Hints _]]]]].
    rewrite (bump_version_in_range _ suffix _ ns Hcore Hints Hgt Hidx)
      in Hbump'.
    injection Hbump' as Hnext.
    assert (Hne : next_version <> Release.version project).
    { rewrite Hver, <- Hnext. now apply bumped_differs. }
    apply String.eqb_neq in Hne. rewrite Hne.
    destruct (existsb _ _); discriminate.
  - unfold add_release'.
    unfold Release.add_release. rewrite Hfind.
    unfold Release.call at 1. unfold Release.bind at 1.
    unfold Release.call at 1. unfold Release.bind at 1.
    fold (initial_setup (Release.tag_list git) take_all). rewrite Hlog.
    fold (effective_level forced_level log_level). rewrite Hbump.
    cbn [snd Release.lift Release.bind].
    intros H. injection H as ->.
    destruct (version_decompose (Release.version project))
      as [core [suffix [Hver Hcore]]].
    rewrite Hver in Hbump.
    destruct (rmap PyInt.int (Str.split "." core)) as [ns|e'] eqn:Hints.
    + rewrite (bump_version_in_range _ suffix _ ns Hcore Hints Hgt Hidx)
        in Hbump. discriminate Hbump.
    + unfold Release._bump_version in Hbump.
      rewrite (split1_version core suffix Hcore) in Hbump.
      cbn [nth] in Hbump. rewrite Hints in Hbump. cbn [rbind] in Hbump.
      injection Hbump as ->.
      apply rmap_raises_value_error in Hints. discriminate Hints.
Qed.

End ReleaseFlowMore.

Lemma add_release_no_project_witness :
  @Release.add_release five_ranks string Example.format_commit_message
    Example.version_updaters (fun _ => (Some Example.suite, None))
    {| Release.dry_run := false |} None false false Example.generator
    (Example.git ["v1.0.0"] 3) Example.hosting
  = ([], Raise NoProjectError).
Proof.
  refine (@add_release_no_project five_ranks string
            Example.format_commit_message Example.version_updaters
            (fun _ => (Some Example.suite, None))
            {| Release.dry_run := false |} None false false
            Example.generator (Example.git ["v1.0.0"] 3) Example.hosting _).
  right. reflexivity.
Defined.

Lemma add_release_bump_error_witness :
  Example.add_release "1.x" ["v1.0.0"] 3 false
  = ([Release.git_tag_list;
      Release.git_get_log (initial_setup ["v1.0.0"] false)],
     Raise ValueError).
Proof.
  exact (@add_release_bump_error five_ranks string
           Example.format_commit_message Example.version_updaters
           (Example.project_suites_find "1.x")
           {| Release.dry_run := false |} None false false
           Example.generator (Example.git ["v1.0.0"] 3) Example.hosting
           Example.suite {| Release.version := "1.x" |}
           "- feat: something" 3%Z ValueError eq_refl eq_refl eq_refl).
Defined.

Lemma add_release_real_run_witness :
  Example.add_release "1.2.3" ["v1.2.2"; "v1.2.3"] 3 false =
  ([Release.git_tag_list;
    Release.git_get_log (initial_setup ["v1.2.2"; "v1.2.3"] false);
    Release.generator_update_changelog "- feat: something"
      (tagged_setup ["v1.2.2"; "v1.2.3"] false "1.3.0");
    Release.suite_set_version "1.3.0";
    Release.suite_get_version_file_path;
    Release.updater_on_version_change 0 "1.3.0";
    Release.git_add_files
      ["CHANGELOG.rst"; "CMakeLists.txt"; "package.json"; "docs/conf.py"];
    Release.git_commit
      ("chore: release 1.3.0" ++ Str.NL ++ Str.NL ++ "- feat: something");
    Release.git_annotated_tag "v1.3.0" "release 1.3.0";
    Release.hosting_add_release "- feat: something"
      (tagged_setup ["v1.2.2"; "v1.2.3"] false "1.3.0") false],
   Ok tt).
Proof.
  refine (@add_release_real_run five_ranks string
            Example.format_commit_message Example.version_updaters
            (Example.project_suites_find "1.2.3")
            {| Release.dry_run := false |} None false false
            Example.generator (Example.git ["v1.2.2"; "v1.2.3"] 3)
            Example.hosting Example.suite {| Release.version := "1.2.3" |}
            "- feat: something" 3%Z "1.3.0"
            eq_refl eq_refl eq_refl eq_refl _ _).
  - discriminate.
  - simpl. intros [H|[H|[]]]; discriminate.
Defined.

Lemma add_release_advances_witness :
  snd (Example.add_release "1.2.3" ["v1.2.2"; "v1.2.3"] 3 false)
  <> Raise (VersionNotAdvancing "1.2.3").
Proof.
  refine (@add_release_advances five_ranks string
            Example.format_commit_message Example.version_updaters
            (Example.project_suites_find "1.2.3")
            {| Release.dry_run := false |} None false false
            Example.generator (Example.git ["v1.2.2"; "v1.2.3"] 3)
            Example.hosting "- feat: something" 3%Z "1.2.3" eq_refl _ _);
    simpl; lia.
Defined.

(** ** More of [LayerInfo.from_fs] *)

Lemma insert_with_dst (d : string) (x : FileInfo.t) (l : list FileInfo.t) :
  with_dst d (LayerInfo.insert x l) = with_dst d (x :: l).
Proof.
  unfold with_dst.
  induction l as [|y l IH]; cbn [LayerInfo.insert]; [reflexivity|].
  destruct (String.leb (FileInfo.dst x) (FileInfo.dst y)) eqn:Hle;
    [reflexivity|].
  cbn [filter] in *. rewrite IH.
  destruct (String.eqb_spec (FileInfo.dst x) d) as [Hx|Hx];
    destruct (String.eqb_spec (FileInfo.dst y) d) as [Hy|Hy];
    try reflexivity.
  rewrite Hx, Hy, leb_refl in Hle. discriminate Hle.
Qed.

(** The sort is stable: the files with one destination come out in the
    order they went in. *)
Lemma sort_with_dst (d : string) (l : list FileInfo.t) :
  with_dst d (LayerInfo.sort l) = with_dst d l.
Proof.
  induction l as [|x l IH]; [reflexivity|].
  cbn [LayerInfo.sort]. rewrite insert_with_dst.
  unfold with_dst in *. cbn [filter]. now rewrite IH.
Qed.

(** X10.  The candidates with one and the same destination stay together:
    the layer [LayerInfo.from_fs] builds holds either none of them or all
    of them, and then in the order in which the directory scan met them. *)
Theorem from_fs_same_destination (fs : FileSystem) (layer_dir : string)
    (context : SettingsType) (layer_info : LayerJson) (layer : LayerInfo.t)
    (d : string) :
  read_json fs (layer_dir ++ ".json") = Ok layer_info ->
  LayerInfo.from_fs fs layer_dir context = Ok layer ->
  with_dst d (LayerInfo.files layer) = []
  \/ with_dst d (LayerInfo.files layer)
     = with_dst d (candidates fs layer_dir layer_info context).
Proof.
  intros Hjson Hfs.
  apply from_fs_unfold in Hfs as [info [Hinfo ->]].
  assert (info = layer_info) by congruence. subst info.
  cbn [LayerInfo.files].
  set (sorted := LayerInfo.sort (candidates fs layer_dir layer_info context)).
  match goal with
  | |- context [existsb _ ?a] => set (allowed := a)
  end.
  clearbody allowed.
  rewrite <- (sort_with_dst d (candidates fs layer_dir layer_info context)).
  fold sorted. clearbody sorted. unfold with_dst.
  destruct (existsb (String.eqb d) allowed) eqn:Hd; [right|left].
  - induction sorted as [|x l IH]; [reflexivity|]. cbn [filter].
    destruct (String.eqb_spec (FileInfo.dst x) d) as [Hx|Hx].
    + rewrite Hx, Hd. cbn [filter]. rewrite Hx, String.eqb_refl.
      now rewrite IH.
    + apply String.eqb_neq in Hx.
      destruct (existsb (String.eqb (FileInfo.dst x)) allowed);
        cbn [filter]; rewrite ?Hx; exact IH.
  - induction sorted as [|x l IH]; [reflexivity|]. cbn [filter].
    destruct (existsb (String.eqb (FileInfo.dst x)) allowed) eqn:Hx;
      [|exact IH].
    cbn [filter].
    destruct (String.eqb_spec (FileInfo.dst x) d) as [E|_]; [|exact IH].
    congruence.
Qed.

Lemma from_fs_same_destination_witness :
  exists layer,
    LayerInfo.from_fs ExampleLayers.fs "/pkg/template/layers/base"
      ExampleLayers.context = Ok layer
    /\ map FileInfo.src (with_dst "out.txt" (LayerInfo.files layer))
       = ["b.txt"; "a.txt"].
Proof.
  eexists. split; [reflexivity|].
  destruct (from_fs_same_destination ExampleLayers.fs
              "/pkg/template/layers/base" ExampleLayers.context
              ExampleLayers.base _ "out.txt" eq_refl eq_refl) as [H|H].
  - discriminate H.
  - rewrite H. reflexivity.
Defined.

(** ** More of [LayerInfo.run] *)

Lemma printed_app (a b : list io) :
  printed (a ++ b) = (printed a ++ printed b)%list.
Proof. unfold printed. apply flat_map_app. Qed.

Lemma effects_app (a b : list io) :
  effects (a ++ b) = (effects a ++ effects b)%list.
Proof. unfold effects. apply filter_app. Qed.

Lemma file_run_dry (fs : FileSystem) (file : FileInfo.t) (root : string)
    (rt : Config.Runtime) (context : SettingsType) :
  effects (FileInfo.run fs file root (set_dry_run true rt) context) = []
  /\ printed (FileInfo.run fs file root (set_dry_run true rt) context)
     = printed (FileInfo.run fs file root rt context)
  /\ (Config.silent rt = true ->
      printed (FileInfo.run fs file root rt context) = []).
Proof.
  unfold FileInfo.run, set_dry_run. cbn [Config.silent Config.use_color
                                           Config.dry_run].
  destruct (Config.silent rt), (Config.use_color rt), (Config.dry_run rt),
    (FileInfo.is_mustache file); cbn; repeat split; congruence.
Qed.

(** X11.  A dry run of a layer touches nothing, it only prints; it prints
    exactly the lines the real run prints; and a silent run prints
    nothing, so that a silent dry run does nothing at all. *)
Theorem layer_run_dry (fs : FileSystem) (layer : LayerInfo.t)
    (rt : Config.Runtime) (context : SettingsType) :
  effects (LayerInfo.run fs layer (set_dry_run true rt) context) = []
  /\ printed (LayerInfo.run fs layer (set_dry_run true rt) context)
     = printed (LayerInfo.run fs layer rt context)
  /\ (Config.silent rt = true ->
      printed (LayerInfo.run fs layer rt context) = []
      /\ LayerInfo.run fs layer (set_dry_run true rt) context = []).
Proof.
  assert (Hfiles : forall files,
             effects
               (flat_map
                  (fun file =>
                     FileInfo.run fs file (LayerInfo.root layer)
                       (set_dry_run true rt) context) files) = []
             /\ printed
                  (flat_map
                     (fun file =>
                        FileInfo.run fs file (LayerInfo.root layer)
                          (set_dry_run true rt) context) files)
                = printed
                    (flat_map
                       (fun file =>
                          FileInfo.run fs file (LayerInfo.root layer) rt
                            context) files)
             /\ (Config.silent rt = true ->
                 printed
                   (flat_map
                      (fun file =>
                         FileInfo.run fs file (LayerInfo.root layer) rt
                           context) files) = []
                 /\ flat_map
                      (fun file =>
                         FileInfo.run fs file (LayerInfo.root layer)
                           (set_dry_run true rt) context) files = [])).
  { induction files as [|file files [IH1 [IH2 IH3]]].
    - repeat split.
    - cbn [flat_map]. rewrite effects_app, !printed_app.
      destruct (file_run_dry fs file (LayerInfo.root layer) rt context)
        as [H1 [H2 H3]].
      rewrite H1, IH1, H2, IH2. repeat split.
      + rewrite (H3 H), (proj1 (IH3 H)). reflexivity.
      + rewrite (proj2 (IH3 H)), app_nil_r.
        unfold FileInfo.run, set_dry_run.
        cbn [Config.silent Config.dry_run]. now rewrite H. }
  destruct (Hfiles (LayerInfo.files layer)) as [H1 [H2 H3]].
  unfold LayerInfo.run.
  rewrite !effects_app, !printed_app, H1, H2.
  change (Config.silent (set_dry_run true rt)) with (Config.silent rt).
  change (Config.use_color (set_dry_run true rt)) with (Config.use_color rt).
  repeat split.
  - destruct (Config.silent rt), (Config.use_color rt); reflexivity.
  - rewrite (proj1 (H3 H)), H. reflexivity.
  - rewrite (proj2 (H3 H)), H. reflexivity.
Qed.

Lemma layer_run_dry_witness :
  LayerInfo.run ExampleLayers.fs
    {| LayerInfo.root := "/pkg/template/layers/extras";
       LayerInfo.files :=
         [{| FileInfo.src := "only.txt"; FileInfo.dst := "only.txt";
             FileInfo.is_mustache := false; FileInfo.when := Some "Y" |}];
       LayerInfo.when := None |}
    {| Config.silent := true; Config.use_color := false;
       Config.dry_run := true |} ExampleLayers.context = [].
Proof.
  exact (proj2 (proj2 (proj2
           (layer_run_dry ExampleLayers.fs _
              {| Config.silent := true; Config.use_color := false;
                 Config.dry_run := false |} ExampleLayers.context))
           eq_refl)).
Defined.

(** ** More of [gather_package_layers] *)

Lemma from_fs_root (fs : FileSystem) (layer_dir : string)
    (context : SettingsType) (layer : LayerInfo.t) :
  LayerInfo.from_fs fs layer_dir context = Ok layer ->
  LayerInfo.root layer = layer_dir.
Proof.
  intros H. apply from_fs_unfold in H as [info [_ ->]]. reflexivity.
Qed.

Lemma rmap_filter_roots (fs : FileSystem) (context : SettingsType)
    (dirs : list string) (all : list LayerInfo.t) :
  rmap (fun layer_dir => LayerInfo.from_fs fs layer_dir context) dirs
  = Ok all ->
  map LayerInfo.root
    (filter (fun layer => (0 <? List.length (LayerInfo.files layer))%nat)
       all)
  = filter (has_files fs context) dirs.
Proof.
  revert all. induction dirs as [|d dirs IH]; cbn [rmap]; intros all H.
  - injection H as <-. reflexivity.
  - destruct (LayerInfo.from_fs fs d context) as [layer|e] eqn:Hd;
      [|discriminate]. cbn [rbind] in H.
    destruct (rmap _ dirs) as [rest|e]; [|discriminate].
    cbn [rbind] in H. injection H as <-.
    cbn [filter]. unfold has_files at 1. rewrite Hd.
    destruct (0 <? List.length (LayerInfo.files layer))%nat; cbn [map].
    + now rewrite (IH rest eq_refl), (from_fs_root _ _ _ _ Hd).
    + now apply IH.
Qed.

Lemma rmap_raises {A B} (f : A -> result B) (l : list A) (x : A) (e : exn) :
  In x l -> f x = Raise e -> exists e', rmap f l = Raise e'.
Proof.
  induction l as [|y l IH]; intros Hin Hx; [contradiction|].
  cbn [rmap]. destruct (f y) as [b|e1] eqn:Hy; cbn [rbind].
  - destruct Hin as [->|Hin]; [congruence|].
    destruct (IH Hin Hx) as [e' ->]. now exists e'.
  - now exists e1.
Qed.

Section GatherMore.

Variable template_dir : string.

(** X12.  The layers [gather_package_layers] returns are, in the order of
    the directory listing, the layers of exactly those sub-directories of
    the layers directory that have a descriptor [<name>.json] beside them
    and whose layer has files; nothing below a sub-directory is looked at
    as a layer. *)
Theorem gather_roots (fs : FileSystem) (package_root : string)
    (context : SettingsType) (layers : list LayerInfo.t) :
  gather_package_layers template_dir fs package_root context = Ok layers ->
  map LayerInfo.root layers
  = filter (has_files fs context) (layer_dirs template_dir fs package_root).
Proof.
  unfold gather_package_layers, layer_dirs. intros H.
  destruct (tree_at fs _) as [[files dirs]|]; [|discriminate].
  destruct (rmap _ _) as [all|e] eqn:Hall; [|discriminate].
  cbn [rbind] in H. injection H as <-.
  now apply rmap_filter_roots.
Qed.

(** X13.  When the layers directory is no directory, the loop over
    [os.walk] never runs and [gather_package_layers] raises
    [UnboundLocalError] for [layer_dirs]; and when the descriptor of one
    layer directory cannot be read, the whole call raises, whatever the
    other layers are. *)
Theorem gather_errors (fs : FileSystem) (package_root : string)
    (context : SettingsType) :
  (tree_at fs
     (abspath fs
        (OsPath.join (OsPath.join package_root template_dir) "layers"))
   = None ->
   gather_package_layers template_dir fs package_root context
   = Raise (UnboundLocalError "layer_dirs"))
  /\ (forall layer_dir e,
         In layer_dir (layer_dirs template_dir fs package_root) ->
         read_json fs (layer_dir ++ ".json") = Raise e ->
         exists e',
           gather_package_layers template_dir fs package_root context
           = Raise e').
Proof.
  unfold gather_package_layers, layer_dirs. split.
  - intros ->. reflexivity.
  - intros layer_dir e Hin Hjson.
    destruct (tree_at fs _) as [[files dirs]|]; [|contradiction].
    assert (Hfs : LayerInfo.from_fs fs layer_dir context = Raise e)
      by (unfold LayerInfo.from_fs; now rewrite Hjson).
    destruct (rmap_raises
                (fun layer_dir => LayerInfo.from_fs fs layer_dir context)
                _ layer_dir e Hin Hfs) as [e' ->].
    now exists e'.
Qed.



End GatherMore.

Lemma gather_roots_witness :
  exists layers,
    gather_package_layers "template" ExampleLayers.fs "/pkg"
      ExampleLayers.context = Ok layers
    /\ map LayerInfo.root layers = ["/pkg/template/layers/base"].
Proof.
  eexists. split; [vm_compute; reflexivity|].
  etransitivity.
  - apply (gather_roots "template" ExampleLayers.fs "/pkg"
             ExampleLayers.context).
    vm_compute. reflexivity.
  - vm_compute. reflexivity.
Defined.

Lemma gather_errors_witness :
  gather_package_layers "template" ExampleLayers.fs "/elsewhere"
    ExampleLayers.context
  = Raise (UnboundLocalError "layer_dirs").
Proof.
  exact (proj1 (gather_errors "template" ExampleLayers.fs "/elsewhere"
                  ExampleLayers.context) eq_refl).
Defined.


(** ** More of the settings *)

Lemma in_keys_set_iff {V} (x k : string) (v : V) (d : PyDict.t V) :
  In x (PyDict.keys (PyDict.set k v d)) <-> x = k \/ In x (PyDict.keys d).
Proof.
  split; [apply in_keys_set|].
  unfold PyDict.keys.
  induction d as [|[k0 v0] d IH]; cbn [PyDict.set map fst In].
  - intros [->|[]]. now left.
  - destruct (String.eqb_spec k0 k) as [->|Hk0]; cbn [map fst In].
    + intuition congruence.
    + intros [->|[H|H]]; [right; apply IH; now left|now left|].
      right. apply IH. now right.
Qed.

Lemma get_del_other {V} (k k' : string) (d : PyDict.t V) :
  k <> k' -> PyDict.get k' (PyDict.del k d) = PyDict.get k' d.
Proof.
  intros Hne.
  induction d as [|[k0 v0] d IH]; cbn [PyDict.del PyDict.get];
    [reflexivity|].
  destruct (String.eqb_spec k0 k) as [->|Hk0]; cbn [PyDict.get].
  - apply String.eqb_neq in Hne. now rewrite Hne.
  - now rewrite IH.
Qed.

Lemma in_keys_del_other {V} (k x : string) (d : PyDict.t V) :
  x <> k -> In x (PyDict.keys d) -> In x (PyDict.keys (PyDict.del k d)).
Proof.
  intros Hne. unfold PyDict.keys.
  induction d as [|[k0 v0] d IH]; cbn [PyDict.del map fst In]; [tauto|].
  destruct (String.eqb_spec k0 k) as [->|Hk0]; cbn [map fst In].
  - intros [H|H]; [congruence|exact H].
  - intros [H|H]; [now left|right; now apply IH].
Qed.

Lemma get_in_keys {V} (k : string) (d : PyDict.t V) :
  In k (PyDict.keys d) <-> exists v, PyDict.get k d = Some v.
Proof.
  unfold PyDict.keys.
  induction d as [|[k0 v0] d IH]; cbn [map fst In PyDict.get].
  - split; [tauto|intros [v H]; discriminate].
  - destruct (String.eqb_spec k0 k) as [->|Hk0].
    + split; [intros _; now exists v0|tauto].
    + rewrite <- IH. tauto.
Qed.

Section AllDefault.

Variables defaults switches : list Interact.Setting.

(** One turn of the loop of [_all_default]. *)
Let default_step (overrides : FlatSettings) (acc : result FlatSettings)
    (setting : Interact.Setting) : result FlatSettings :=
  rbind acc (fun settings =>
  match PyDict.get (Interact.json_key setting) overrides with
  | Some v => Ok (PyDict.set (Interact.json_key setting) v settings)
  | None =>
      rbind (Interact._get_default setting settings) (fun value =>
      Ok (PyDict.set (Interact.json_key setting) value settings))
  end).

Lemma default_loop (overrides : FlatSettings) (l : list Interact.Setting)
    (acc : result FlatSettings) (out : FlatSettings) :
  fold_left (default_step overrides) l acc = Ok out ->
  exists start,
    acc = Ok start
    /\ (forall k,
           In k (PyDict.keys out) <->
           In k (PyDict.keys start)
           \/ exists setting, In setting l /\ Interact.json_key setting = k)
    /\ ((forall k v,
            In k (PyDict.keys start) ->
            PyDict.get k overrides = Some v ->
            PyDict.get k start = Some v) ->
        forall k v,
          In k (PyDict.keys out) ->
          PyDict.get k overrides = Some v ->
          PyDict.get k out = Some v).
Proof.
  revert acc. induction l as [|x l IH]; intros acc; cbn [fold_left].
  - intros ->. exists out. split; [reflexivity|]. split.
    + intros k. split; [tauto|]. intros [H|[s [[] _]]]. exact H.
    + auto.
  - intros H. destruct (IH _ H) as [mid [Hmid [Hkeys Hover]]].
    destruct acc as [start|e]; [|discriminate Hmid].
    exists start. split; [reflexivity|].
    cbn [default_step rbind] in Hmid.
    assert (Hset : exists v,
               mid = PyDict.set (Interact.json_key x) v start
               /\ (forall w,
                      PyDict.get (Interact.json_key x) overrides = Some w ->
                      v = w)).
    { destruct (PyDict.get (Interact.json_key x) overrides) as [v|].
      - injection Hmid as <-. exists v. split; [reflexivity|].
        intros w E. congruence.
      - destruct (Interact._get_default x start) as [v|e];
          cbn [rbind] in Hmid; [|discriminate].
        injection Hmid as <-. exists v. split; [reflexivity|].
        intros w E. discriminate E. }
    destruct Hset as [v [-> Hv]]. split.
    + intros k. rewrite Hkeys, in_keys_set_iff. cbn [In]. split.
      * intros [[->|Hk]|[s [Hs Ek]]]; eauto.
      * intros [Hk|[s [[->|Hs] Ek]]]; eauto.
    + intros Hstart. apply Hover. intros k w Hin Hw.
      destruct (String.eqb_spec (Interact.json_key x) k) as [<-|Hne].
      * rewrite get_set_same. f_equal. now apply Hv.
      * rewrite get_set_other by assumption.
        apply Hstart; [|exact Hw].
        apply in_keys_set_iff in Hin as [E|Hin]; [congruence|exact Hin].
Qed.

(** X15.  The settings [_all_default] returns have a value for exactly the
    keys of the wanted defaults and switches, and every one of these keys
    that the overrides hold has the value of the override. *)
Theorem all_default_overrides (wanted : Interact.Setting -> bool)
    (overrides settings : FlatSettings) :
  Interact._all_default defaults switches wanted overrides = Ok settings ->
  (forall k,
      In k (PyDict.keys settings) <->
      exists setting,
        In setting (filter wanted defaults ++ filter wanted switches)%list
        /\ Interact.json_key setting = k)
  /\ (forall k v,
         In k (PyDict.keys settings) ->
         PyDict.get k overrides = Some v ->
         PyDict.get k settings = Some v).
Proof.
  intros H. unfold Interact._all_default in H.
  destruct (default_loop overrides _ _ _ H) as [start [E [Hkeys Hover]]].
  injection E as <-. split.
  - intros k. rewrite Hkeys. cbn [PyDict.keys map In]. tauto.
  - apply Hover. intros k v [].
Qed.

End AllDefault.

Section FixedSettings.

Variables defaults hidden : list Interact.Setting.
Variable _build_fixup : FlatSettings -> string -> Value.

(** What the loops of [_fixup_context] do to the flat settings, before
    ["EXT"] is removed. *)
Lemma fixups_keys (l : list Interact.Setting) (settings : FlatSettings) :
  let after :=
    fold_left
      (fun settings setting =>
         Interact._fixup _build_fixup settings
           (Interact.json_key setting)
           (match Interact.fix_ setting with
            | Some f => if Str.truthy f then f else ""
            | None => ""
            end)
           (Interact.force_fix setting))
      l settings in
  (forall k, In k (PyDict.keys settings) -> In k (PyDict.keys after))
  /\ (forall setting,
         In setting l -> In (Interact.json_key setting) (PyDict.keys after))
  /\ (forall k,
         (forall setting, In setting l -> Interact.json_key setting <> k) ->
         PyDict.get k after = PyDict.get k settings).
Proof.
  revert settings. induction l as [|x l IH]; intros settings; cbn [fold_left].
  - repeat split; auto. intros s [].
  - destruct (IH (Interact._fixup _build_fixup settings
                    (Interact.json_key x)
                    (match Interact.fix_ x with
                     | Some f => if Str.truthy f then f else ""
                     | None => ""
                     end)
                    (Interact.force_fix x))) as [H1 [H2 H3]].
    assert (Hkeep : forall k,
               In k (PyDict.keys settings) ->
               In k (PyDict.keys
                       (Interact._fixup _build_fixup settings
                          (Interact.json_key x)
                          (match Interact.fix_ x with
                           | Some f => if Str.truthy f then f else ""
                           | None => ""
                           end)
                          (Interact.force_fix x)))).
    { intros k Hk. unfold Interact._fixup.
      destruct (_ && _); [exact Hk|].
      apply in_keys_set_iff. now right. }
    assert (Hown : In (Interact.json_key x)
                     (PyDict.keys
                        (Interact._fixup _build_fixup settings
                           (Interact.json_key x)
                           (match Interact.fix_ x with
                            | Some f => if Str.truthy f then f else ""
                            | None => ""
                            end)
                           (Interact.force_fix x)))).
    { unfold Interact._fixup.
      destruct (PyDict.get (Interact.json_key x) settings) as [v|] eqn:Hget.
      - destruct (_ && _).
        + apply get_in_keys. eauto.
        + apply in_keys_set_iff. now left.
      - cbn [Interact.not_empty_str String.eqb negb andb].
        apply in_keys_set_iff. now left. }
    split; [|split].
    + intros k Hk. apply H1. now apply Hkeep.
    + intros s [->|Hs]; [now apply H1|now apply H2].
    + intros k Hk. rewrite H3 by (intros s Hs; apply Hk; now right).
      unfold Interact._fixup. destruct (_ && _); [reflexivity|].
      apply get_set_other. apply Hk. now left.
Qed.

Lemma hidden_values_keys (l : list Interact.Setting)
    (acc : result FlatSettings) (out : FlatSettings) :
  fold_left
    (fun acc setting =>
       rbind acc (fun settings =>
       rbind (Interact._get_default setting settings) (fun value =>
       if match value with VBool _ => true | _ => false end
          || Interact.not_empty_str value
       then Ok (PyDict.set (Interact.json_key setting) value settings)
       else Ok settings)))
    l acc = Ok out ->
  exists start,
    acc = Ok start
    /\ (forall k, In k (PyDict.keys start) -> In k (PyDict.keys out))
    /\ (forall k,
           (forall setting, In setting l -> Interact.json_key setting <> k) ->
           PyDict.get k out = PyDict.get k start).
Proof.
  revert acc. induction l as [|x l IH]; intros acc; cbn [fold_left].
  - intros ->. exists out. auto.
  - intros H. destruct (IH _ H) as [mid [Hmid [Hkeys Hget]]].
    destruct acc as [start|e]; [|discriminate Hmid].
    exists start. split; [reflexivity|].
    cbn [rbind] in Hmid.
    destruct (Interact._get_default x start) as [value|e];
      cbn [rbind] in Hmid; [|discriminate].
    destruct (_ || _); injection Hmid as <-.
    + split.
      * intros k Hk. apply Hkeys, in_keys_set_iff. now right.
      * intros k Hk. rewrite Hget by (intros s Hs; apply Hk; now right).
        apply get_set_other. apply Hk. now left.
    + split; [exact Hkeys|].
      intros k Hk. apply Hget. intros s Hs. apply Hk. now right.
Qed.

(** X16.  After the fix-ups the flat settings are complete and nothing else
    has changed: every wanted default and every wanted hidden setting has
    a value, except that ["EXT"] has none; every key that was there is
    still there, except ["EXT"]; and a key that belongs to no wanted
    default or hidden setting keeps the value it had. *)
Theorem fixed_settings_complete (settings flat : FlatSettings)
    (wanted : Interact.Setting -> bool) :
  Interact.fixed_settings defaults hidden _build_fixup settings wanted
  = Ok flat ->
  (forall setting,
      In setting (filter wanted defaults ++ filter wanted hidden)%list ->
      Interact.json_key setting <> "EXT" ->
      In (Interact.json_key setting) (PyDict.keys flat))
  /\ (forall k,
         k <> "EXT" ->
         In k (PyDict.keys settings) -> In k (PyDict.keys flat))
  /\ (forall k,
         k <> "EXT" ->
         (forall setting,
             In setting (filter wanted defaults ++ filter wanted hidden)%list
             -> Interact.json_key setting <> k) ->
         PyDict.get k flat = PyDict.get k settings).
Proof.
  unfold Interact.fixed_settings. intros H.
  destruct (fold_left _ (filter wanted hidden) (Ok settings))
    as [mid|e] eqn:Hhidden; cbn [rbind] in H; [|discriminate].
  injection H as <-.
  destruct (hidden_values_keys _ _ _ Hhidden) as [start [E [Hk1 Hg1]]].
  injection E as <-.
  destruct (fixups_keys (filter wanted defaults ++ filter wanted hidden)
              mid) as [Hk2 [Hown Hg2]].
  split; [|split].
  - intros s Hs Hne. apply in_keys_del_other; [exact Hne|now apply Hown].
  - intros k Hne Hk. apply in_keys_del_other; [exact Hne|].
    now apply Hk2, Hk1.
  - intros k Hne Hk. rewrite get_del_other by congruence.
    rewrite Hg2 by exact Hk. apply Hg1.
    intros s Hs. apply Hk. apply in_or_app. now right.
Qed.

End FixedSettings.

Lemma all_default_overrides_witness :
  PyDict.get "EXT" [("EXT", VStr ".cc")] = Some (VStr ".cc").
Proof.
  refine (proj2 (all_default_overrides ExampleSettings.defaults
                   ExampleSettings.switches (Interact._project_filter None)
                   [("EXT", VStr ".cc"); ("UNKNOWN", VBool true)]
                   [("EXT", VStr ".cc")] eq_refl)
            "EXT" (VStr ".cc") _ eq_refl).
  simpl. tauto.
Defined.

Lemma fixed_settings_complete_witness :
  In "EXT.cxx" (PyDict.keys [("NAME", VStr "app"); ("EXT.cxx", VStr ".cpp")]).
Proof.
  refine (proj1 (fixed_settings_complete ExampleSettings.defaults
                   ExampleSettings.hidden ExampleSettings._build_fixup
                   [("EXT", VStr ".cpp"); ("NAME", VStr "app")]
                   [("NAME", VStr "app"); ("EXT.cxx", VStr ".cpp")]
                   (Interact._project_filter None) eq_refl)
            (nth 0 ExampleSettings.hidden
               (nth 0 ExampleSettings.defaults
                  (nth 0 ExampleSettings.hidden
                     {| Interact.json_key := ""; Interact.project := None;
                        Interact.calc_value := fun _ => VStr "";
                        Interact.fix_ := None;
                        Interact.force_fix := false |}))) _ _).
  - simpl. tauto.
  - discriminate.
Defined.

(** ** More of the nesting *)

Lemma walk_leaf_nil (q : list string) (v w : Value) :
  Chevron.walk q (Leaf v) = Some (Leaf w) -> q = [] /\ w = v.
Proof.
  destruct q; cbn [Chevron.walk]; [|discriminate].
  intros H. injection H as <-. auto.
Qed.

Lemma walk_empty_no_leaf (q : list string) (w : Value) :
  Chevron.walk q (Dict []) <> Some (Leaf w).
Proof. destruct q; cbn; discriminate. Qed.

(** A value found after nesting one key is that key's value at that key's
    path, or was there before. *)
Lemma nest_walk_leaf (p q : list string) (value w : Value)
    (d : SettingsType) :
  p <> [] ->
  Chevron.walk q (Dict (Interact.nest p value d)) = Some (Leaf w) ->
  (q = p /\ w = value) \/ Chevron.walk q (Dict d) = Some (Leaf w).
Proof.
  revert q d. induction p as [|step rest IH]; intros q d Hne H;
    [contradiction|].
  destruct q as [|k q']; [discriminate H|].
  destruct rest as [|next rest].
  - cbn [Interact.nest Chevron.walk] in H |- *.
    destruct (String.eqb_spec step k) as [<-|Hk].
    + rewrite get_set_same in H.
      apply walk_leaf_nil in H as [-> ->]. now left.
    + rewrite (get_set_other _ _ _ _ Hk) in H. now right.
  - rewrite nest_cons in H. cbn [Chevron.walk] in H |- *.
    destruct (String.eqb_spec step k) as [<-|Hk].
    + rewrite get_set_same in H.
      apply IH in H; [|discriminate].
      destruct H as [[-> ->]|H]; [now left|right].
      destruct (PyDict.get step d) as [[v|inner]|];
        try (now apply walk_empty_no_leaf in H).
      exact H.
    + rewrite (get_set_other _ _ _ _ Hk) in H. now right.
Qed.

Lemma nest_all_walk_leaf (settings : FlatSettings) (result : SettingsType)
    (q : list string) (w : Value) :
  Chevron.walk q (Dict (fold_left nest_step settings result))
  = Some (Leaf w) ->
  (exists k, In (k, w) settings /\ Str.split "." k = q)
  \/ Chevron.walk q (Dict result) = Some (Leaf w).
Proof.
  revert result.
  induction settings as [|[k v] settings IH]; intros result H;
    [now right|].
  cbn [fold_left] in H. apply IH in H as [[k' [Hin Hk']]|H].
  - left. exists k'. split; [now right|exact Hk'].
  - unfold nest_step in H. cbn [fst snd] in H.
    apply nest_walk_leaf in H; [|apply split_not_nil].
    destruct H as [[-> ->]|H]; [|now right].
    left. exists k. split; [now left|reflexivity].
Qed.

(** X17.  The nesting invents nothing: every value found along a path in
    the context [_fixup_context] returns is the value of a flat key that is
    left after the fix-ups and whose dot-path is that path. *)
Theorem fixup_context_leaves (defaults hidden : list Interact.Setting)
    (_build_fixup : FlatSettings -> string -> Value)
    (settings : FlatSettings) (wanted : Interact.Setting -> bool)
    (result : SettingsType) (path : list string) (v : Value) :
  Interact._fixup_context defaults hidden _build_fixup settings wanted
  = Ok result ->
  Chevron.walk path (Dict result) = Some (Leaf v) ->
  exists flat k,
    Interact.fixed_settings defaults hidden _build_fixup settings wanted
    = Ok flat
    /\ In (k, v) flat
    /\ Str.split "." k = path.
Proof.
  unfold Interact._fixup_context. intros H Hwalk.
  destruct (Interact.fixed_settings _ _ _ _ _) as [flat|e] eqn:Hflat;
    cbn [rbind] in H; [|discriminate].
  injection H as <-.
  apply nest_all_walk_leaf in Hwalk as [[k [Hin Hk]]|Hwalk];
    [|now apply walk_empty_no_leaf in Hwalk].
  exists flat, k. repeat split; assumption.
Qed.

Lemma fixup_context_leaves_witness :
  exists flat k,
    Interact.fixed_settings ExampleSettings.defaults ExampleSettings.hidden
      ExampleSettings._build_fixup
      [("EXT", VStr ".cpp"); ("NAME", VStr "app")]
      (Interact._project_filter None) = Ok flat
    /\ In (k, VStr ".cpp") flat
    /\ Str.split "." k = ["EXT"; "cxx"].
Proof.
  exact (fixup_context_leaves ExampleSettings.defaults
           ExampleSettings.hidden ExampleSettings._build_fixup
           [("EXT", VStr ".cpp"); ("NAME", VStr "app")]
           (Interact._project_filter None)
           [("NAME", Leaf (VStr "app"));
            ("EXT", Dict [("cxx", Leaf (VStr ".cpp"))])]
           ["EXT"; "cxx"] (VStr ".cpp") eq_refl eq_refl).
Defined.

(** ** More of the directory scan *)

Lemma startswith_append (p s : string) : Str.startswith p (p ++ s) = true.
Proof.
  induction p as [|a p IH]; cbn [append Str.startswith].
  - now destruct s.
  - now rewrite Ascii.eqb_refl, IH.
Qed.

Lemma endswith_char_append (c : ascii) (a b : string) :
  b <> "" -> OsPath.endswith_char c (a ++ b) = OsPath.endswith_char c b.
Proof.
  intros Hb. induction a as [|x a IH]; [reflexivity|].
  cbn [append OsPath.endswith_char].
  destruct (a ++ b) eqn:E; [|exact IH].
  destruct a; [|discriminate E]. now destruct b.
Qed.

Lemma endswith_char_no_mem (c : ascii) (s : string) :
  Str.mem c s = false -> OsPath.endswith_char c s = false.
Proof.
  induction s as [|a s IH]; [reflexivity|].
  cbn [Str.mem OsPath.endswith_char]. intros H.
  apply orb_false_iff in H as [Ha Hs].
  destruct s; [exact Ha|now apply IH].
Qed.

Lemma filter_true {A} (p : A -> bool) (l : list A) :
  (forall x, p x = true) -> filter p l = l.
Proof.
  intros H. induction l as [|x l IH]; cbn [filter]; [reflexivity|].
  now rewrite H, IH.
Qed.

Lemma is_name_spec (name : string) :
  is_name name = true ->
  name <> "" /\ Str.mem "/" name = false
  /\ Str.startswith "/" name = false.
Proof.
  unfold is_name. intros H. apply andb_true_iff in H as [H1 H2].
  apply negb_true_iff in H1, H2. apply String.eqb_neq in H1.
  repeat split; try assumption.
  destruct name as [|a s]; [reflexivity|].
  cbn [Str.mem] in H2. apply orb_false_iff in H2 as [Ha _].
  cbn [Str.startswith]. now rewrite Ascii.eqb_sym, Ha.
Qed.

Lemma join_scan_dir (layer_dir rel name : string) :
  layer_dir <> "" ->
  OsPath.endswith_char "/" layer_dir = false ->
  (rel = "" \/ (rel <> "" /\ OsPath.endswith_char "/" rel = false)) ->
  is_name name = true ->
  OsPath.join (scan_dir layer_dir rel) name
  = (layer_dir ++ "/") ++ below rel name
  /\ OsPath.join (scan_dir layer_dir rel) name
     = scan_dir layer_dir (below rel name)
  /\ below rel name <> ""
  /\ OsPath.endswith_char "/" (below rel name) = false.
Proof.
  intros Hne Hend Hrel Hname.
  destruct (is_name_spec name Hname) as [Hn [Hmem Hstart]].
  assert (Hscan : scan_dir layer_dir rel <> ""
                  /\ OsPath.endswith_char "/" (scan_dir layer_dir rel)
                     = false).
  { unfold scan_dir. destruct Hrel as [->|[Hr Hre]].
    - cbn [String.eqb]. auto.
    - apply String.eqb_neq in Hr as Hr'. rewrite Hr'. split.
      + destruct layer_dir; [congruence|discriminate].
      + rewrite <- append_assoc. now rewrite endswith_char_append. }
  destruct Hscan as [Hs1 Hs2].
  assert (Hbelow : below rel name <> ""
                   /\ OsPath.endswith_char "/" (below rel name) = false).
  { unfold below. destruct (String.eqb rel "").
    - split; [exact Hn|now apply endswith_char_no_mem].
    - split; [destruct rel; discriminate|].
      rewrite <- append_assoc, endswith_char_append by exact Hn.
      now apply endswith_char_no_mem. }
  unfold OsPath.join, OsPath.sep. rewrite Hstart, Hs2.
  apply String.eqb_neq in Hs1. rewrite Hs1. cbn [orb].
  assert (Hjoin : scan_dir layer_dir rel ++ "/" ++ name
                  = (layer_dir ++ "/") ++ below rel name).
  { unfold scan_dir, below. destruct (String.eqb rel "").
    - now rewrite append_assoc.
    - now rewrite !append_assoc. }
  split; [exact Hjoin|]. split; [|exact Hbelow].
  rewrite Hjoin. unfold scan_dir.
  destruct Hbelow as [Hb _]. apply String.eqb_neq in Hb. rewrite Hb.
  now rewrite append_assoc.
Qed.

Lemma walk_relative_at (layer_dir : string) :
  layer_dir <> "" ->
  OsPath.endswith_char "/" layer_dir = false ->
  forall d rel,
    (rel = "" \/ (rel <> "" /\ OsPath.endswith_char "/" rel = false)) ->
    named d = true ->
    LayerInfo.walk (layer_dir ++ "/") (scan_dir layer_dir rel) d
    = relative rel d.
Proof.
  intros Hne Hend.
  fix IH 1. intros [files dirs] rel Hrel Hnamed.
  cbn [named] in Hnamed. apply andb_true_iff in Hnamed as [Hfiles Hdirs].
  cbn [LayerInfo.walk relative]. f_equal.
  - rewrite filter_true
      by (intros x; destruct (OsPath.splitext x); reflexivity).
    apply map_ext_in. intros name Hin.
    rewrite forallb_forall in Hfiles.
    destruct (join_scan_dir layer_dir rel name Hne Hend Hrel
                (Hfiles name Hin)) as [-> _].
    rewrite startswith_append. apply drop_append.
  - induction dirs as [|[dirname sub] dirs IHdirs]; [reflexivity|].
    apply andb_true_iff in Hdirs as [Hhead Hrest].
    apply andb_true_iff in Hhead as [Hname Hsub].
    rewrite (IHdirs Hrest). f_equal.
    cbn [py_in existsb py_eq]. rewrite orb_false_r.
    destruct (String.eqb dirname "__pycache__"); cbn [negb];
      [reflexivity|].
    destruct (join_scan_dir layer_dir rel dirname Hne Hend Hrel Hname)
      as [_ [-> [Hb1 Hb2]]].
    apply IH; [right; split; assumption|exact Hsub].
Qed.

(** X18.  For a layer directory with a proper path and a tree of proper
    names, the scan of [LayerInfo.from_fs] lists every file outside the
    [__pycache__] directories once, by its path relative to the layer
    directory with [/] between the steps, a directory's own files first and
    then those of its sub-directories in the order of the listing. *)
Theorem walk_relative (layer_dir : string) (d : dir) :
  layer_dir <> "" ->
  OsPath.endswith_char "/" layer_dir = false ->
  named d = true ->
  LayerInfo.walk (OsPath.join layer_dir "") layer_dir d = relative "" d.
Proof.
  intros Hne Hend Hnamed.
  assert (Hprefix : OsPath.join layer_dir "" = layer_dir ++ "/").
  { unfold OsPath.join, OsPath.sep. cbn [Str.startswith]. rewrite Hend.
    apply String.eqb_neq in Hne. rewrite Hne. reflexivity. }
  rewrite Hprefix.
  apply (walk_relative_at layer_dir Hne Hend d "" (or_introl eq_refl)
           Hnamed).
Qed.

Lemma walk_relative_witness :
  LayerInfo.walk (OsPath.join "/pkg/template/layers/base" "")
    "/pkg/template/layers/base"
    (mkdir ["b.txt"; "mod.pyc"]
       [("__pycache__", mkdir ["x.pyc"] []);
        ("inc", mkdir ["version.h.mustache"] [("deep", mkdir ["z"] [])])])
  = ["b.txt"; "mod.pyc"; "inc/version.h.mustache"; "inc/deep/z"].
Proof.
  refine (walk_relative "/pkg/template/layers/base"
            (mkdir ["b.txt"; "mod.pyc"]
               [("__pycache__", mkdir ["x.pyc"] []);
                ("inc", mkdir ["version.h.mustache"]
                          [("deep", mkdir ["z"] [])])])
            _ eq_refl eq_refl).
  discriminate.
Defined.

(** ** [copy_license] on a nested context *)


Section CopyLicenseMore.

Variables package_root template_dir : string.
Variable py_str : Node -> string.


End CopyLicenseMore.


(** ** The questions: accepting every default *)

Section QuestionsMore.

Variable move_to_front : string -> list string -> list string.
Variable tk_prompt : nat -> string.
Variables defaults switches : list Interact.Setting.

Lemma prompt_loop_raise (overrides : FlatSettings)
    (l : list Interact.Setting) (e : exn) :
  fold_left
    (fun acc setting =>
       rbind acc (fun state =>
       let settings := fst state in
       let counter := snd state in
       let loaded :=
         Question.load_default move_to_front setting settings
           (PyDict.get (Interact.json_key setting) overrides) in
       rbind (Question.interact tk_prompt loaded counter) (fun value =>
       Ok (PyDict.set (Question.key loaded) value settings, S counter))))
    l (Raise e)
  = Raise e.
Proof. induction l as [|s l IH]; [reflexivity|exact IH]. Qed.

Lemma all_default_loop_raise (overrides : FlatSettings)
    (l : list Interact.Setting) (e : exn) :
  fold_left
    (fun acc setting =>
       rbind acc (fun settings =>
       match PyDict.get (Interact.json_key setting) overrides with
       | Some v => Ok (PyDict.set (Interact.json_key setting) v settings)
       | None =>
           rbind (Interact._get_default setting settings) (fun value =>
           Ok (PyDict.set (Interact.json_key setting) value settings))
       end))
    l (Raise e)
  = Raise e.
Proof. induction l as [|s l IH]; [reflexivity|exact IH]. Qed.

Lemma question_enter (overrides : FlatSettings) (s : Interact.Setting)
    (settings : FlatSettings) (counter : nat) :
  (forall counter, tk_prompt counter = "") ->
  (forall override,
      PyDict.get (Interact.json_key s) overrides = Some override ->
      same_scalar (Interact.calc_value s settings) override = true) ->
  rbind
    (Question.interact tk_prompt
       (Question.load_default move_to_front s settings
          (PyDict.get (Interact.json_key s) overrides)) counter)
    (fun value =>
       Ok (PyDict.set (Interact.json_key s) value settings, S counter))
  = rbind
      match PyDict.get (Interact.json_key s) overrides with
      | Some v => Ok (PyDict.set (Interact.json_key s) v settings)
      | None =>
          rbind (Interact._get_default s settings) (fun value =>
          Ok (PyDict.set (Interact.json_key s) value settings))
      end
      (fun settings' => Ok (settings', S counter)).
Proof.
  intros Henter Hs.
  unfold Question.load_default, Question.interact, Interact._get_default.
  cbn [Question.value Question.key].
  destruct (PyDict.get (Interact.json_key s) overrides) as [o|].
  - specialize (Hs o eq_refl).
    destruct (Interact.calc_value s settings) as [a|a|a], o as [b|b|b];
      try discriminate Hs;
      unfold Question._get_str, Question._get_flag; rewrite Henter;
      reflexivity.
  - destruct (Interact.calc_value s settings) as [a|a|[|x a]];
      unfold Question._get_str, Question._get_flag, Question._get_list;
      rewrite Henter; reflexivity.
Qed.

Lemma prompt_loop_enter (overrides : FlatSettings)
    (l : list Interact.Setting) :
  (forall counter, tk_prompt counter = "") ->
  (forall setting override previous,
      In setting l ->
      PyDict.get (Interact.json_key setting) overrides = Some override ->
      same_scalar (Interact.calc_value setting previous) override = true) ->
  forall settings counter,
  rbind
    (fold_left
       (fun acc setting =>
          rbind acc (fun state =>
          let settings := fst state in
          let counter := snd state in
          let loaded :=
            Question.load_default move_to_front setting settings
              (PyDict.get (Interact.json_key setting) overrides) in
          rbind (Question.interact tk_prompt loaded counter) (fun value =>
          Ok (PyDict.set (Question.key loaded) value settings, S counter))))
       l (Ok (settings, counter)))
    (fun state => Ok (fst state))
  = fold_left
      (fun acc setting =>
         rbind acc (fun settings =>
         match PyDict.get (Interact.json_key setting) overrides with
         | Some v => Ok (PyDict.set (Interact.json_key setting) v settings)
         | None =>
             rbind (Interact._get_default setting settings) (fun value =>
             Ok (PyDict.set (Interact.json_key setting) value settings))
         end))
      l (Ok settings).
Proof.
  intros Henter.
  induction l as [|s l IH]; intros Hsame settings counter; [reflexivity|].
  cbn [fold_left].
  change (rbind (Ok (settings, counter)) ?k) with (k (settings, counter)).
  change (rbind (Ok settings) ?k) with (k settings).
  cbn beta zeta. cbn [fst snd].
  change (Question.key (Question.load_default move_to_front s settings ?o))
    with (Interact.json_key s).
  rewrite question_enter;
    [|exact Henter
     |intros o Ho; apply Hsame; [now left|exact Ho]].
  destruct (match PyDict.get (Interact.json_key s) overrides with
            | Some v => Ok (PyDict.set (Interact.json_key s) v settings)
            | None =>
                rbind (Interact._get_default s settings) (fun value =>
                Ok (PyDict.set (Interact.json_key s) value settings))
            end) as [settings'|e].
  - cbn [rbind]. apply IH.
    intros s' o p Hin. apply Hsame. now right.
  - cbn [rbind]. rewrite prompt_loop_raise, all_default_loop_raise.
    reflexivity.
Qed.

(** X20.  Pressing Enter at every question gives the settings of the
    non-interactive run: when the terminal returns the empty line for
    every question, and every override of a wanted setting is of the type
    of that setting's value, a string or a flag, then [_prompt] returns
    what [_all_default] returns, the same settings or the same
    exception. *)
Theorem prompt_enter_is_all_default (wanted : Interact.Setting -> bool)
    (overrides : FlatSettings) :
  (forall counter, tk_prompt counter = "") ->
  (forall setting override previous,
      In setting (filter wanted defaults ++ filter wanted switches) ->
      PyDict.get (Interact.json_key setting) overrides = Some override ->
      same_scalar (Interact.calc_value setting previous) override = true) ->
  Question._prompt move_to_front tk_prompt defaults switches wanted overrides
  = Interact._all_default defaults switches wanted overrides.
Proof.
  intros Henter Hsame.
  unfold Question._prompt, Interact._all_default.
  now apply prompt_loop_enter.
Qed.

End QuestionsMore.

Lemma prompt_enter_is_all_default_witness :
  Question._prompt (fun override value => override :: value) (fun _ => "")
    [ {| Interact.json_key := "NAME"; Interact.project := None;
         Interact.calc_value := fun _ => VStr "app";
         Interact.fix_ := None; Interact.force_fix := false |};
      {| Interact.json_key := "EXT"; Interact.project := None;
         Interact.calc_value := fun _ => VList [".cpp"; ".cc"];
         Interact.fix_ := None; Interact.force_fix := false |} ]
    [ {| Interact.json_key := "with.tests"; Interact.project := None;
         Interact.calc_value := fun _ => VBool true;
         Interact.fix_ := None; Interact.force_fix := false |} ]
    (fun _ => true) [("NAME", VStr "tool")]
  = Ok [("NAME", VStr "tool"); ("EXT", VStr ".cpp");
        ("with.tests", VBool true)].
Proof.
  etransitivity.
  - apply prompt_enter_is_all_default; [reflexivity|].
    intros setting override previous Hin Hget.
    cbn [filter app In] in Hin.
    destruct Hin as [<-|[<-|[<-|[]]]]; vm_compute in Hget;
      try discriminate Hget.
    injection Hget as <-. reflexivity.
  - vm_compute. reflexivity.
Defined.

(** ** [command_bootstrap] *)

(** X21.  [command_bootstrap] only appends.  With [GITHUB_ENV] set, where
    [open] raises, the call raises with it and no file changes; where it
    opens a file, every other file keeps its text, and that file holds its
    earlier text, followed by the one line [PATH=<PATH>] when that can be
    written; when [PATH] is not in the environment the call raises
    [KeyError], and when the line can not be written in UTF-8 it raises
    [UnicodeEncodeError], in both cases after the file has been created
    if it was missing, and with no text lost. *)
Theorem bootstrap_appends (resolve : string -> option string)
    (encodable : string -> bool) (environ : PyDict.t string)
    (files : Bootstrap.Files) (path : string) :
  PyDict.get "GITHUB_ENV" environ = Some path ->
  match resolve path with
  | Some file =>
      let old :=
        match PyDict.get file files with Some old => old | None => "" end in
      let after :=
        fst (Bootstrap.command_bootstrap resolve encodable environ files) in
      let ended :=
        snd (Bootstrap.command_bootstrap resolve encodable environ files) in
      (forall other, other <> file ->
                     PyDict.get other after = PyDict.get other files)
      /\ match PyDict.get "PATH" environ with
         | Some PATH =>
             if encodable ("PATH=" ++ PATH)
             then PyDict.get file after
                  = Some (old ++ "PATH=" ++ PATH ++ Str.NL)
                  /\ ended = Bootstrap.Returned
             else PyDict.get file after = Some old
                  /\ ended = Bootstrap.UnicodeEncodeErrorRaised
         | None =>
             PyDict.get file after = Some old
             /\ ended = Bootstrap.KeyErrorRaised
         end
  | None =>
      Bootstrap.command_bootstrap resolve encodable environ files
      = (files, Bootstrap.OpenRaised)
  end.
Proof.
  intros Henv.
  unfold Bootstrap.command_bootstrap, Bootstrap.open_append. rewrite Henv.
  destruct (resolve path) as [file|]; [|reflexivity].
  set (opened := if PyDict.contains file files then files
                 else PyDict.set file "" files).
  assert (Hopen : PyDict.get file opened
                  = Some match PyDict.get file files with
                         | Some old => old
                         | None => ""
                         end).
  { unfold opened, PyDict.contains.
    destruct (PyDict.get file files) as [old|] eqn:E; [exact E|].
    apply get_set_same. }
  assert (Hother : forall other, other <> file ->
            PyDict.get other opened = PyDict.get other files).
  { intros other Hne. unfold opened, PyDict.contains.
    destruct (PyDict.get file files); [reflexivity|].
    apply get_set_other. congruence. }
  destruct (PyDict.get "PATH" environ) as [PATH|];
    [destruct (encodable ("PATH=" ++ PATH))|]; cbn [fst snd].
  - split; [|split; [|reflexivity]].
    + intros other Hne. unfold Bootstrap.print_to.
      rewrite get_set_other by congruence. now apply Hother.
    + unfold Bootstrap.print_to. rewrite get_set_same, Hopen.
      reflexivity.
  - split; [exact Hother|split; [exact Hopen|reflexivity]].
  - split; [exact Hother|split; [exact Hopen|reflexivity]].
Qed.

Lemma bootstrap_appends_witness :
  PyDict.get "/tmp/env"
    (fst (Bootstrap.command_bootstrap
            (fun path =>
               if String.eqb path "/tmp/env" then Some "/tmp/env" else None)
            (fun _ => true)
            [("PATH", "/usr/bin"); ("GITHUB_ENV", "/tmp/env")]
            [("/tmp/env", "CI=1" ++ Str.NL); ("/tmp/log", "")]))
  = Some ("CI=1" ++ Str.NL ++ "PATH=/usr/bin" ++ Str.NL)
  /\ snd (Bootstrap.command_bootstrap
            (fun path =>
               if String.eqb path "/tmp/env" then Some "/tmp/env" else None)
            (fun _ => true)
            [("PATH", "/usr/bin"); ("GITHUB_ENV", "/tmp/env")]
            [("/tmp/env", "CI=1" ++ Str.NL); ("/tmp/log", "")])
     = Bootstrap.Returned.
Proof.
  exact (proj2 (bootstrap_appends
                  (fun path =>
                     if String.eqb path "/tmp/env" then Some "/tmp/env"
                     else None)
                  (fun _ => true)
                  [("PATH", "/usr/bin"); ("GITHUB_ENV", "/tmp/env")]
                  [("/tmp/env", "CI=1" ++ Str.NL); ("/tmp/log", "")]
                  "/tmp/env" eq_refl)).
Defined.

(** ** The signing steps on a host that is not Windows *)

Lemma flat_map_nil {A B} (f : A -> list B) (l : list A) :
  (forall x, In x l -> f x = []) -> flat_map f l = [].
Proof.
  induction l as [|x l IH]; intros H; [reflexivity|].
  cbn [flat_map]. rewrite (H x (or_introl eq_refl)).
  apply IH. intros y Hy. apply H. now right.
Qed.

(** X22.  On a host that is not Windows nothing is signed: both steps are
    inactive whatever the configuration; [Sign], if run, finds no file in
    any build tree, prints nothing and returns 0; [SignPackages], if run,
    returns 0 and prints one line exactly when it found a package. *)
Theorem sign_elsewhere (fnmatch : string -> string -> bool)
    (fs : FileSystem) (config : Sign.Config) (rt : Sign.Runtime) :
  Sign.is_active config rt = false
  /\ Sign.msi_is_active config rt = false
  /\ Sign.files_get_files fnmatch fs config rt = []
  /\ Sign.run (Sign.files_get_files fnmatch fs) config rt = ([], 0%Z)
  /\ snd (Sign.run (Sign.msi_get_files fs) config rt) = 0%Z
  /\ (fst (Sign.run (Sign.msi_get_files fs) config rt) = []
      <-> Sign.msi_get_files fs config rt = []).
Proof.
  assert (Hfiles : Sign.files_get_files fnmatch fs config rt = []).
  { unfold Sign.files_get_files.
    apply flat_map_nil. intros root _.
    apply flat_map_nil. intros entry _.
    apply flat_map_nil. intros filename _.
    now destruct (Sign.should_exclude _ _ _ _). }
  repeat split.
  - exact Hfiles.
  - unfold Sign.run. now rewrite Hfiles.
  - unfold Sign.run.
    destruct (Nat.eqb _ 0); [reflexivity|].
    now destruct (Sign.dry_run rt).
  - unfold Sign.run.
    destruct (Sign.msi_get_files fs config rt) as [|f l];
      [reflexivity|].
    cbn [map List.length Nat.eqb].
    destruct (Sign.dry_run rt); intros H; discriminate H.
  - intros H. unfold Sign.run. now rewrite H.
Qed.

(** ** The files a layer retains *)

Lemma key_char_no_space (a : ascii) :
  key_char a = true -> negb (PyInt.is_space a) = true.
Proof.
  intros H. apply negb_true_iff.
  destruct (PyInt.is_space a) eqn:E; [|reflexivity].
  unfold PyInt.is_space in E. apply existsb_exists in E as [c [Hin Hc]].
  apply Ascii.eqb_eq in Hc. subst a. cbn [In] in Hin.
  repeat (destruct Hin as [<-|Hin]; [discriminate H|]).
  contradiction.
Qed.

Lemma setting_key_plain (w : string) : setting_key w = true -> plain w.
Proof.
  unfold setting_key. intros H. apply andb_true_iff in H as [H _].
  repeat split; apply (all_chars_mem key_char _ _ H); reflexivity.
Qed.

Lemma setting_key_strip (w : string) :
  setting_key w = true -> PyInt.strip w = w.
Proof.
  unfold setting_key. intros H. apply andb_true_iff in H as [H _].
  apply strip_no_space.
  exact (all_chars_impl _ _ w key_char_no_space H).
Qed.

Lemma setting_when_plain (when : option string) :
  setting_when when = true -> plain_when when.
Proof.
  destruct when as [w|]; [|exact (fun _ => I)].
  cbn [setting_when plain_when]. intros H.
  apply orb_true_iff in H as [H|H]; [|now apply setting_key_plain].
  unfold Str.truthy in H. apply negb_true_iff, negb_false_iff in H.
  apply String.eqb_eq in H. subst w. repeat split.
Qed.

(** A scope that is no dictionary holds no key: a condition met inside it
    is decided as outside it. *)
Lemma condition_in_leaf (context : SettingsType) (v : Value)
    (when : option string) :
  setting_when when = true ->
  condition_in [Leaf v; Dict context] when = condition context when.
Proof.
  destruct when as [w|]; [|reflexivity].
  cbn [setting_when condition_in condition].
  destruct (Str.truthy w); [|reflexivity].
  cbn [negb orb]. intros Hkey.
  unfold Chevron.shown_in, Chevron.shown, Chevron.get_key, Chevron.lookup.
  rewrite (setting_key_strip w Hkey).
  destruct (String.eqb_spec w ".") as [->|_]; [discriminate Hkey|].
  cbn [Chevron.find].
  destruct (Str.split "." w) as [|step path] eqn:E;
    [now apply split_not_nil in E|].
  reflexivity.
Qed.

(** C5, as amended.  For a context of flags, strings and dictionaries, a
    layer whose [when] keys are keys of the settings and whose destinations
    are single lines without braces, [LayerInfo.from_fs] returns, and
    retains a candidate if and only if its destination is not empty, the
    condition of the layer holds in the context, and the condition of some
    candidate with the same destination holds inside the section of the
    layer: there a key is looked up first in what the layer's [when] names,
    then in the context (an absent or empty [when] sets no condition).  So
    a candidate without [when] and with a destination is retained exactly
    when the layer's condition holds; where the destinations of the
    candidates are pairwise distinct, a candidate with a destination is
    retained exactly when its own condition, inside the section of the
    layer, and the layer's both hold; and where the [when] of the layer
    names no dictionary, the condition of a candidate inside that section
    is its condition in the context. *)
Theorem from_fs_retains (fs : FileSystem) (layer_dir : string)
    (context : SettingsType) (layer_info : LayerJson) :
  read_json fs (layer_dir ++ ".json") = Ok layer_info ->
  no_lists (Dict context) = true ->
  setting_when (json_when layer_info) = true ->
  (forall file,
      In file (candidates fs layer_dir layer_info context) ->
      plain (FileInfo.dst file)
      /\ setting_when (FileInfo.when file) = true) ->
  exists layer,
    LayerInfo.from_fs fs layer_dir context = Ok layer
    /\ (forall file,
           In file (LayerInfo.files layer) <->
           In file (candidates fs layer_dir layer_info context)
           /\ FileInfo.dst file <> ""
           /\ condition context (json_when layer_info) = true
           /\ exists other,
                In other (candidates fs layer_dir layer_info context)
                /\ FileInfo.dst other = FileInfo.dst file
                /\ condition_in
                     (layer_scopes context (json_when layer_info))
                     (FileInfo.when other) = true)
    /\ (forall file,
           In file (candidates fs layer_dir layer_info context) ->
           FileInfo.when file = None ->
           FileInfo.dst file <> "" ->
           (In file (LayerInfo.files layer) <->
            condition context (json_when layer_info) = true))
    /\ (NoDup
          (map FileInfo.dst (candidates fs layer_dir layer_info context)) ->
        forall file,
          FileInfo.dst file <> "" ->
          (In file (LayerInfo.files layer) <->
           In file (candidates fs layer_dir layer_info context)
           /\ condition_in
                (layer_scopes context (json_when layer_info))
                (FileInfo.when file) = true
           /\ condition context (json_when layer_info) = true))
    /\ ((forall w entries,
            json_when layer_info = Some w ->
            Chevron.section_scope [Dict context] w <> Dict entries) ->
        forall file,
          In file (candidates fs layer_dir layer_info context) ->
          condition_in (layer_scopes context (json_when layer_info))
            (FileInfo.when file)
          = condition context (FileInfo.when file)).
Proof.
  intros Hjson _ Hwhen Hcands.
  assert (Hplain : forall file,
             In file (candidates fs layer_dir layer_info context) ->
             plain (FileInfo.dst file) /\ plain_when (FileInfo.when file)).
  { intros file Hin. destruct (Hcands file Hin) as [Hdst Hw].
    split; [exact Hdst|now apply setting_when_plain]. }
  set (cands := candidates fs layer_dir layer_info context) in *.
  set (scopes := layer_scopes context (json_when layer_info)).
  set (sorted := LayerInfo.sort cands).
  set (built := {| LayerInfo.root := layer_dir;
                   LayerInfo.files := sorted;
                   LayerInfo.when := json_when layer_info |}).
  set (allowed_files :=
         filter (fun path => negb (String.eqb path ""))
           (Str.split Str.nl
              (Chevron.render (LayerInfo.template built) context))).
  exists {| LayerInfo.root := layer_dir;
            LayerInfo.files :=
              filter
                (fun file =>
                   existsb (String.eqb (FileInfo.dst file)) allowed_files)
                sorted;
            LayerInfo.when := json_when layer_info |}.
  assert (Hmain : forall file,
             In file
               (filter
                  (fun file =>
                     existsb (String.eqb (FileInfo.dst file)) allowed_files)
                  sorted) <->
             In file cands
             /\ FileInfo.dst file <> ""
             /\ condition context (json_when layer_info) = true
             /\ exists other,
                  In other cands
                  /\ FileInfo.dst other = FileInfo.dst file
                  /\ condition_in scopes (FileInfo.when other) = true).
  { intros file. rewrite filter_In. unfold sorted at 1. rewrite in_sort.
    rewrite in_strings. unfold allowed_files.
    rewrite render_layer_template.
    2:{ now apply setting_when_plain. }
    2:{ apply Forall_forall. intros f Hf.
        exact (Hplain f (proj1 (in_sort f cands) Hf)). }
    rewrite filter_In, in_app_iff, in_map_iff.
    cbn [LayerInfo.files LayerInfo.when built]. fold scopes.
    split.
    - intros [Hin [[[other [Hdst Hother]]|[Hempty|[]]] Hne]].
      + apply filter_In in Hother as [Hother Hcond].
        apply (proj1 (in_sort other cands)) in Hother.
        apply andb_true_iff in Hcond as [Hl Ho].
        split; [exact Hin|]. split.
        * intros E. rewrite E in Hne. discriminate.
        * split; [exact Hl|]. exists other. auto.
      + rewrite <- Hempty in Hne. discriminate.
    - intros [Hin [Hne [Hl [other [Hother [Hdst Ho]]]]]].
      split; [exact Hin|]. split.
      + left. exists other. split; [exact Hdst|].
        apply filter_In. split; [exact (proj2 (in_sort other cands) Hother)|].
        now rewrite Hl, Ho.
      + now apply negb_true_iff, String.eqb_neq. }
  split; [|split; [exact Hmain|split; [|split]]].
  - unfold LayerInfo.from_fs. rewrite Hjson. reflexivity.
  - intros file Hin Hnone Hne. cbn [LayerInfo.files]. rewrite Hmain.
    split.
    + intros [_ [_ [Hl _]]]. exact Hl.
    + intros Hl. repeat split; try assumption.
      exists file. rewrite Hnone. auto.
  - intros Hnodup file Hne. cbn [LayerInfo.files]. rewrite Hmain.
    split.
    + intros [Hin [_ [Hl [other [Hother [Hdst Ho]]]]]].
      assert (other = file)
        by (eapply nodup_map_injective; eassumption).
      subst other. auto.
    + intros [Hin [Ho Hl]]. repeat split; try assumption.
      exists file. auto.
  - intros Hleaf file Hin. subst scopes.
    destruct (Hcands file Hin) as [_ Hw].
    unfold layer_scopes.
    destruct (json_when layer_info) as [w|] eqn:Ew; [|reflexivity].
    destruct (Str.truthy w); [|reflexivity].
    specialize (Hleaf w).
    destruct (Chevron.section_scope [Dict context] w) as [v|entries].
    + now apply condition_in_leaf.
    + now elim (Hleaf entries).
Qed.

Lemma from_fs_retains_witness :
  exists layer,
    LayerInfo.from_fs ExampleLayers.fs "/pkg/template/layers/base"
      scoped_context = Ok layer
    /\ In {| FileInfo.src := "z.txt"; FileInfo.dst := "z.txt";
             FileInfo.is_mustache := false; FileInfo.when := Some "Y" |}
         (LayerInfo.files layer)
    /\ Chevron.shown scoped_context "Y" = false.
Proof.
  assert (Hcands : forall file,
             In file
               (candidates ExampleLayers.fs "/pkg/template/layers/base"
                  ExampleLayers.base scoped_context) ->
             plain (FileInfo.dst file)
             /\ setting_when (FileInfo.when file) = true).
  { intros file Hin. vm_compute in Hin.
    repeat (destruct Hin as [<-|Hin]; [repeat split|]).
    contradiction. }
  destruct (from_fs_retains ExampleLayers.fs "/pkg/template/layers/base"
              scoped_context ExampleLayers.base eq_refl eq_refl eq_refl
              Hcands) as [layer [Hfs [Hiff _]]].
  exists layer. split; [exact Hfs|]. split; [|reflexivity].
  apply Hiff. split; [vm_compute; tauto|].
  split; [discriminate|]. split; [reflexivity|].
  exists {| FileInfo.src := "z.txt"; FileInfo.dst := "z.txt";
            FileInfo.is_mustache := false; FileInfo.when := Some "Y" |}.
  split; [vm_compute; tauto|]. split; reflexivity.
Defined.
